(** * Inventory API: a shallow embedding of the product helpers, model and routes

    The development follows the layout of the backend:
    - [Js]         the few JavaScript primitives the code relies on
                   (truthiness, [||], [trim], [Math.ceil], [Math.round]);
    - [Sql]        the filter objects handed to the ORM and their meaning;
    - [Product]    the model of [models/Product.js];
    - [Helpers]    [utils/helpers.js];
    - [Validation] the stock-operation middleware of [middleware/validation.js];
    - [Routes]     the handlers of [routes/products.js].

    Numbers.  Integer-valued JavaScript numbers (stock, quantities, pages,
    counters) are [Z]; monetary numbers (price, cost, totals) are exact
    rationals [Q].  IEEE-754 rounding of the arithmetic is outside the model.

    Texts.  A text whose length or characters the code looks at (the search
    text, the reason of a stock operation, the input of [sanitizeInput]) is
    the list of its UTF-16 code units, so that [length] and [trim] are those
    of JavaScript.  A text that is only compared or passed along is a
    [string].

    Collaborators.  What is not in the repository is a parameter of the
    definitions that call it: the pattern matching and the ordering of the
    database, the clock, the UUID check and the number conversion of the
    validation library, the case tables of the runtime, and the validators
    and time stamps of the ORM. *)

From Stdlib Require Import ZArith QArith Qround Lia Lqa List Sorting.Sorted Sorting.Permutation.
From stdpp Require Import gmap strings list pretty.

(** ** JavaScript primitives *)
Module Js.

(** A property read yields [undefined], [null] or a value. *)
Inductive nullable (A : Type) : Type :=
| Undefined
| Null
| Val (a : A).
Arguments Undefined {A}.
Arguments Null {A}.
Arguments Val {A} a.

(** [ToBoolean] on the primitive types that occur in the code. *)
Class ToBoolean (A : Type) := to_boolean : A -> bool.

#[export] Instance bool_ToBoolean : ToBoolean bool := fun b => b.
#[export] Instance Z_ToBoolean : ToBoolean Z := fun z => negb (Z.eqb z 0).
#[export] Instance Q_ToBoolean : ToBoolean Q := fun q => negb (Qeq_bool q 0).
#[export] Instance string_ToBoolean : ToBoolean string :=
  fun s => match s with EmptyString => false | String _ _ => true end.

(** [if (x)] for a property read. *)
Definition truthy {A} `{ToBoolean A} (x : nullable A) : bool :=
  match x with
  | Val a => to_boolean a
  | Undefined | Null => false
  end.

(** [x || d] where [d] is a plain value of the same type. *)
Definition or_else {A} `{ToBoolean A} (x : nullable A) (d : A) : A :=
  match x with
  | Val a => if to_boolean a then a else d
  | Undefined | Null => d
  end.

(** [x !== undefined] *)
Definition is_defined {A} (x : nullable A) : bool :=
  match x with
  | Undefined => false
  | Null | Val _ => true
  end.

(** A text that the code takes apart (its length, its ends, single
    characters) is held as JavaScript holds it: the sequence of its UTF-16
    code units.  A text that is only passed along is a [string]. *)
Definition utf16 : Type := list N.

(** The code units of a text of one-byte characters, such as the literals
    of the code. *)
Fixpoint units (s : string) : utf16 :=
  match s with
  | EmptyString => []
  | String c s' => Ascii.N_of_ascii c :: units s'
  end.

(** [!text] is true of the empty text only. *)
Definition is_empty (t : utf16) : bool :=
  match t with [] => true | _ :: _ => false end.

(** The code units removed by [String.prototype.trim]: the white space
    TAB, VT, FF, SPACE, U+00A0, U+FEFF and the space separators U+1680,
    U+2000 to U+200A, U+202F, U+205F, U+3000, and the line terminators LF,
    CR, U+2028 and U+2029. *)
Definition is_white_space (u : N) : bool :=
  ((9 <=? u) && (u <=? 13) || (u =? 32) || (u =? 160) || (u =? 5760)
   || (8192 <=? u) && (u <=? 8202) || (u =? 8232) || (u =? 8233)
   || (u =? 8239) || (u =? 8287) || (u =? 12288) || (u =? 65279))%N.

Fixpoint trimStart (t : utf16) : utf16 :=
  match t with
  | [] => []
  | u :: t' => if is_white_space u then trimStart t' else t
  end.

Fixpoint trimEnd (t : utf16) : utf16 :=
  match t with
  | [] => []
  | u :: t' =>
      match trimEnd t' with
      | [] => if is_white_space u then [] else [u]
      | r => u :: r
      end
  end.

Definition trim (t : utf16) : utf16 := trimEnd (trimStart t).

(** A text as it leaves the program for the database: its UTF-8 bytes, a
    surrogate pair joined to its code point and a surrogate without its
    partner replaced by U+FFFD. *)
Definition byte (n : N) : Ascii.ascii := Ascii.ascii_of_N n.

Definition utf8_of_code_point (c : N) : string :=
  (if c <? 128 then String (byte c) EmptyString
   else if c <? 2048 then
     String (byte (192 + c / 64)) (String (byte (128 + c mod 64)) EmptyString)
   else if c <? 65536 then
     String (byte (224 + c / 4096))
       (String (byte (128 + (c / 64) mod 64))
          (String (byte (128 + c mod 64)) EmptyString))
   else
     String (byte (240 + c / 262144))
       (String (byte (128 + (c / 4096) mod 64))
          (String (byte (128 + (c / 64) mod 64))
             (String (byte (128 + c mod 64)) EmptyString))))%N.

Definition is_high_surrogate (u : N) : bool := ((55296 <=? u) && (u <=? 56319))%N.
Definition is_low_surrogate (u : N) : bool := ((56320 <=? u) && (u <=? 57343))%N.

Fixpoint utf8 (t : utf16) : string :=
  match t with
  | [] => EmptyString
  | u :: t' =>
      if is_high_surrogate u then
        match t' with
        | v :: t'' =>
            if is_low_surrogate v
            then utf8_of_code_point (65536 + (u - 55296) * 1024 + (v - 56320))%N
                   +:+ utf8 t''
            else utf8_of_code_point 65533 +:+ utf8 t'
        | [] => utf8_of_code_point 65533
        end
      else if is_low_surrogate u then utf8_of_code_point 65533 +:+ utf8 t'
      else utf8_of_code_point u +:+ utf8 t'
  end.

(** [Math.ceil] and [Math.round] (halves go up) on exact numbers. *)
Definition Math_ceil (x : Q) : Z := Qceiling x.
Definition Math_round (x : Q) : Z := Qfloor (x + (1 # 2)).

(** [parseInt] and [parseFloat] applied to a value that already is a number
    of the expected kind give it back. *)
Definition parseInt (z : Z) : Z := z.
Definition parseFloat (q : Q) : Q := q.

(** [String.prototype.toUpperCase] on a text of ASCII letters and digits,
    the texts that [generateSKU] has left when it calls it. *)
Definition upper (c : Ascii.ascii) : Ascii.ascii :=
  let n := Ascii.nat_of_ascii c in
  if andb (Nat.leb 97 n) (Nat.leb n 122) then Ascii.ascii_of_nat (n - 32) else c.

Fixpoint toUpperCase (s : string) : string :=
  match s with
  | EmptyString => EmptyString
  | String c s' => String (upper c) (toUpperCase s')
  end.

(** [a > b] and [a < b] on exact numbers. *)
Definition Qgtb (a b : Q) : bool := negb (Qle_bool a b).
Definition Qltb (a b : Q) : bool := negb (Qle_bool b a).

(** A stable sort.  [after a b] tells that [a] has to come after [b]; an
    element is moved behind exactly the elements it has to come after. *)
Section Sort.
Context {A : Type}.
Variable after : A -> A -> bool.

Fixpoint insert_by (x : A) (l : list A) : list A :=
  match l with
  | [] => [x]
  | y :: l' => if after x y then y :: insert_by x l' else x :: l
  end.

Definition sort_by (l : list A) : list A := foldr insert_by [] l.

End Sort.

(** [Array.prototype.sort(compareFn)]: [a] comes after [b] when
    [compareFn(a, b) > 0]; the sort is stable. *)
Definition Array_sort {A} (compareFn : A -> A -> Q) (l : list A) : list A :=
  sort_by (fun a b => Qgtb (compareFn a b) 0) l.

(** A value of a primitive type, for the code that tests [typeof]. *)
Inductive any : Type :=
| AUndefined
| ANull
| ABoolean (b : bool)
| ANumber (q : Q)
| AString (s : utf16).

(** The character classes of the regular expressions of the code. *)
Definition in_range (lo hi : nat) (c : Ascii.ascii) : bool :=
  let n := Ascii.nat_of_ascii c in andb (Nat.leb lo n) (Nat.leb n hi).

(** [[0-9]], [[A-Z]], [[a-z]] *)
Definition is_digit (c : Ascii.ascii) : bool := in_range 48 57 c.
Definition is_upper (c : Ascii.ascii) : bool := in_range 65 90 c.
Definition is_lower (c : Ascii.ascii) : bool := in_range 97 122 c.

(** [[a-zA-Z0-9]] *)
Definition is_alnum (c : Ascii.ascii) : bool :=
  orb (is_lower c) (orb (is_upper c) (is_digit c)).

(** [[<>]] *)
Definition is_angle (u : N) : bool := ((u =? 60) || (u =? 62))%N.

(** [[A-Z0-9-_]], the characters of a SKU *)
Definition is_sku_char (c : Ascii.ascii) : bool :=
  let n := Ascii.nat_of_ascii c in
  orb (is_upper c) (orb (is_digit c) (orb (Nat.eqb n 45) (Nat.eqb n 95))).

(** [s.replace(/[class]/g, '')]: the characters of the class are dropped. *)
Fixpoint remove_chars (class : Ascii.ascii -> bool) (s : string) : string :=
  match s with
  | EmptyString => EmptyString
  | String c s' =>
      if class c then remove_chars class s' else String c (remove_chars class s')
  end.

(** [s.substring(0, n)] *)
Fixpoint take_chars (n : nat) (s : string) : string :=
  match n, s with
  | O, _ => EmptyString
  | S _, EmptyString => EmptyString
  | S n', String c s' => String c (take_chars n' s')
  end.

(** [s.substring(n)] *)
Fixpoint drop_chars (n : nat) (s : string) : string :=
  match n, s with
  | O, _ => s
  | S _, EmptyString => EmptyString
  | S n', String _ s' => drop_chars n' s'
  end.

(** [s.substring(a, b)] for [a <= b] and [s.slice(-n)] *)
Definition substring (a b : nat) (s : string) : string :=
  take_chars (b - a) (drop_chars a s).
Definition slice_last (n : nat) (s : string) : string :=
  drop_chars (String.length s - n) s.

(** Every character of a string is in a class. *)
Fixpoint all_chars (class : Ascii.ascii -> bool) (s : string) : bool :=
  match s with
  | EmptyString => true
  | String c s' => andb (class c) (all_chars class s')
  end.

(** [s.startsWith(t)] and [s.includes(t)] *)
Fixpoint startsWith (t s : string) : bool :=
  match t, s with
  | EmptyString, _ => true
  | String _ _, EmptyString => false
  | String a t', String b s' => andb (Ascii.eqb a b) (startsWith t' s')
  end.

Fixpoint includes (t s : string) : bool :=
  orb (startsWith t s)
      match s with
      | EmptyString => false
      | String _ s' => includes t s'
      end.

End Js.
Export Js.

(** ** Filter objects handed to the ORM *)
Module Sql.

(** Keys of a [where] object: operator symbols ([Op.or]) and column names. *)
Inductive key : Type :=
| Sym (s : string)
| Str (s : string).

#[export] Instance key_eq_dec : EqDecision key.
Proof. solve_decision. Defined.

#[export] Instance key_countable : Countable key :=
  inj_countable'
    (fun k => match k with Sym s => inl s | Str s => inr s end)
    (fun x => match x with inl s => Sym s | inr s => Str s end)
    (fun k => match k with Sym _ => eq_refl | Str _ => eq_refl end).

Definition Op_or : key := Sym "or".

(** Right-hand side of a comparison: a literal or [{ [Op.col]: c }]. *)
Inductive operand : Type :=
| Lit (z : Z)
| Col (c : string).

(** [{ [Op.iLike]: pattern }] and [{ [Op.lte]: rhs }]. *)
Inductive cond : Type :=
| Op_iLike (pattern : string)
| Op_lte (rhs : operand).

(** What a key of a [where] object is bound to: an array of one-column
    objects (under [Op.or]), a condition on the column, or a plain value
    compared for equality. *)
Inductive where_value : Type :=
| Alternatives (alts : list (string * cond))
| Condition (c : cond)
| Plain (v : nullable bool).

#[export] Instance operand_eq_dec : EqDecision operand.
Proof. solve_decision. Defined.
#[export] Instance cond_eq_dec : EqDecision cond.
Proof. solve_decision. Defined.

(** Column values of a row. *)
Inductive value : Type :=
| VNull
| VStr (s : string)
| VInt (z : Z)
| VDec (q : Q)
| VBool (b : bool).

(** Meaning of a [where] object on a row: the conjunction of its keys, the
    alternatives under [Op.or] being a disjunction.  The pattern matcher of
    the database ([ILIKE]) is a parameter. *)
Section Eval.
Context {row : Type}.
Variable column : string -> row -> value.
Variable ilike : string -> string -> bool.

Definition eval_operand (o : operand) (r : row) : value :=
  match o with
  | Lit z => VInt z
  | Col c => column c r
  end.

Definition eval_cond (field : string) (c : cond) (r : row) : bool :=
  match c with
  | Op_iLike pattern =>
      match column field r with
      | VStr s => ilike pattern s
      | _ => false
      end
  | Op_lte rhs =>
      match column field r, eval_operand rhs r with
      | VInt a, VInt b => Z.leb a b
      | _, _ => false
      end
  end.

Definition eval_plain (field : string) (v : nullable bool) (r : row) : bool :=
  match v, column field r with
  | Val b, VBool b' => Bool.eqb b b'
  | Null, VNull => true
  | _, _ => false
  end.

Definition eval_entry (k : key) (v : where_value) (r : row) : bool :=
  match k, v with
  | Sym s, Alternatives alts =>
      if String.eqb s "or"
      then existsb (fun fc => eval_cond (fst fc) (snd fc) r) alts
      else false
  | Str field, Condition c => eval_cond field c r
  | Str field, Plain v => eval_plain field v r
  | _, _ => false
  end.

Definition eval_where (w : gmap key where_value) (r : row) : bool :=
  bool_decide (map_Forall (fun k v => eval_entry k v r = true) w).

End Eval.

End Sql.
Export Sql.

(** ** Exceptions and mutable state

    A method that may [throw] and that mutates its receiver or the store is a
    function from the state to an outcome and the state afterwards. *)
Module Eff.

(** [new Error(message)] *)
Record Error : Type := { message : string }.

Inductive outcome (A : Type) : Type :=
| Ok (a : A)
| Throw (e : Error).
Arguments Ok {A} a.
Arguments Throw {A} e.

Definition M (S A : Type) : Type := S -> outcome A * S.

Definition ret {S A} (a : A) : M S A := fun s => (Ok a, s).

Definition bind {S A B} (m : M S A) (k : A -> M S B) : M S B :=
  fun s =>
    match m s with
    | (Ok a, s') => k a s'
    | (Throw e, s') => (Throw e, s')
    end.

Definition throw {S A} (e : Error) : M S A := fun s => (Throw e, s).
Definition get {S} : M S S := fun s => (Ok s, s).
Definition modify {S} (f : S -> S) : M S unit := fun s => (Ok tt, f s).

Notation "x <- m ;; k" := (bind m (fun x => k))
  (at level 100, m at next level, right associativity).
Notation "m ;; k" := (bind m (fun _ => k))
  (at level 100, right associativity).

End Eff.
Export Eff.

(** ** The model: [models/Product.js] *)
Module Product.

(** The attributes of a product as a property read sees them. *)
Record t : Type := {
  id : string;
  name : string;
  sku : string;
  description : nullable string;
  price : Q;
  cost : nullable Q;
  stock : Z;
  min_stock : nullable Z;
  category : nullable string;
  brand : nullable string;
  is_active : bool;
  image_url : nullable string;
  created_at : Z;
  updated_at : Z;
  deleted_at : nullable Z
}.

(** [this.stock = z] *)
Definition set_stock (z : Z) (p : t) : t :=
  {| id := id p; name := name p; sku := sku p; description := description p;
     price := price p; cost := cost p; stock := z; min_stock := min_stock p;
     category := category p; brand := brand p; is_active := is_active p;
     image_url := image_url p; created_at := created_at p;
     updated_at := updated_at p; deleted_at := deleted_at p |}.

(** The getters of the DECIMAL attributes:
    [value ? parseFloat(value) : 0]. *)
Definition get_decimal (value : nullable Q) : Q :=
  match value with
  | Val v => if to_boolean v then parseFloat v else 0%Q
  | Undefined | Null => 0%Q
  end.

(** An instance read through its getters. *)
Definition instance (d : t) : t :=
  {| id := id d; name := name d; sku := sku d; description := description d;
     price := get_decimal (Val (price d)); cost := Val (get_decimal (cost d));
     stock := stock d; min_stock := min_stock d;
     category := category d; brand := brand d; is_active := is_active d;
     image_url := image_url d; created_at := created_at d;
     updated_at := updated_at d; deleted_at := deleted_at d |}.

(** Columns of the [products] table. *)
Definition opt_str (x : nullable string) : value :=
  match x with Val s => VStr s | Undefined | Null => VNull end.

Definition column (c : string) (p : t) : value :=
  if String.eqb c "id" then VStr (id p)
  else if String.eqb c "name" then VStr (name p)
  else if String.eqb c "sku" then VStr (sku p)
  else if String.eqb c "description" then opt_str (description p)
  else if String.eqb c "price" then VDec (price p)
  else if String.eqb c "cost" then
    match cost p with Val q => VDec q | Undefined | Null => VNull end
  else if String.eqb c "stock" then VInt (stock p)
  else if String.eqb c "min_stock" then
    match min_stock p with Val z => VInt z | Undefined | Null => VNull end
  else if String.eqb c "category" then opt_str (category p)
  else if String.eqb c "brand" then opt_str (brand p)
  else if String.eqb c "is_active" then VBool (is_active p)
  else if String.eqb c "image_url" then opt_str (image_url p)
  else if String.eqb c "created_at" then VInt (created_at p)
  else if String.eqb c "updated_at" then VInt (updated_at p)
  else if String.eqb c "deleted_at" then
    match deleted_at p with Val z => VInt z | Undefined | Null => VNull end
  else VNull.

(** The receiver of a method together with the table it is saved to. *)
Record ctx : Type := { this : t; table : gmap string t }.

Definition set_updated_at (z : Z) (p : t) : t :=
  {| id := id p; name := name p; sku := sku p; description := description p;
     price := price p; cost := cost p; stock := stock p; min_stock := min_stock p;
     category := category p; brand := brand p; is_active := is_active p;
     image_url := image_url p; created_at := created_at p;
     updated_at := z; deleted_at := deleted_at p |}.

Definition set_deleted_at (d : nullable Z) (p : t) : t :=
  {| id := id p; name := name p; sku := sku p; description := description p;
     price := price p; cost := cost p; stock := stock p; min_stock := min_stock p;
     category := category p; brand := brand p; is_active := is_active p;
     image_url := image_url p; created_at := created_at p;
     updated_at := updated_at p; deleted_at := d |}.

(** [hasStock(quantity = 1)] *)
Definition hasStock (quantity : Z) (this : t) : bool := Z.leb quantity (stock this).

(** A row is live while [deleted_at] is not set (the model is paranoid). *)
Definition live (p : t) : bool :=
  match deleted_at p with
  | Val _ => false
  | Undefined | Null => true
  end.

(** [getBasicInfo()] *)
Record basicInfo : Type := {
  b_id : string; b_name : string; b_sku : string; b_price : Q; b_stock : Z
}.

Definition getBasicInfo (this : t) : basicInfo :=
  {| b_id := id this; b_name := name this; b_sku := sku this;
     b_price := price this; b_stock := stock this |}.

Section Persistence.

(** What the ORM does when an instance is saved is not in the repository.
    [validate] is the verdict of the validators declared on the attributes,
    as the ORM runs them on the instance about to be written: nothing, or
    the message of the validation error.  [stamp] is the time it gives to
    [updated_at].  The hook [beforeValidate], which upper-cases and trims
    the SKU and trims the name, has been run on every row when it was
    stored and leaves an instance read from the table as it is. *)
Variable validate : ctx -> option string.
Variable stamp : ctx -> Z.

(** [this.save()]: the validators run; when they pass, the instance gets
    its new [updated_at] and its row is written back. *)
Definition save : M ctx t :=
  fun c =>
    match validate c with
    | Some m => (Throw {| message := m |}, c)
    | None =>
        let this := set_updated_at (stamp c) (this c) in
        (Ok this, {| this := this; table := <[id this := this]> (table c) |})
    end.

Definition assign_stock (z : Z) : M ctx unit :=
  modify (fun c => {| this := set_stock z (this c); table := table c |}).

(** [async updateStock(quantity, operation = 'subtract')] *)
Definition updateStock (quantity : Z) (operation : string) : M ctx t :=
  (if String.eqb operation "subtract" then
     c <- get ;;
     if Z.ltb (stock (this c)) quantity
     then throw {| message := "Stock insuficiente" |}
     else assign_stock (stock (this c) - quantity)
   else if String.eqb operation "add" then
     c <- get ;;
     assign_stock (stock (this c) + quantity)
   else ret tt) ;;
  save.

(** [this.destroy()] on the paranoid model, for an instance that is not
    deleted yet: it is stamped with the time of the deletion and saved; the
    row stays in the table. *)
Definition destroy (clock : Z) : M ctx t :=
  modify (fun c => {| this := set_deleted_at (Val clock) (this c); table := table c |}) ;;
  save.

End Persistence.

End Product.

(** ** Plain objects built by the helpers *)

(** The pagination block of a listing. *)
Module Pagination.
Record t : Type := {
  current_page : Z;
  per_page : Z;
  total_items : Z;
  total_pages : Z;
  has_next_page : bool;
  has_prev_page : bool;
  next_page : nullable Z;
  prev_page : nullable Z
}.
End Pagination.

(** The statistics object.  While the products are visited [categories] and
    [brands] hold a [Set]; at the end they are rebound to its size. *)
Module Stats.
Record t (C : Type) : Type := {
  total_products : Z;
  total_value : Q;
  low_stock_count : Z;
  out_of_stock_count : Z;
  categories : C;
  brands : C
}.
Arguments total_products {C} _.
Arguments total_value {C} _.
Arguments low_stock_count {C} _.
Arguments out_of_stock_count {C} _.
Arguments categories {C} _.
Arguments brands {C} _.
End Stats.

(** The wire representation of a product. *)
Module Formatted.
Record t : Type := {
  id : string;
  name : string;
  sku : string;
  description : nullable string;
  price : Q;
  cost : nullable Q;
  stock : Z;
  min_stock : nullable Z;
  category : nullable string;
  brand : nullable string;
  is_active : bool;
  image_url : nullable string;
  created_at : Z;
  updated_at : Z;
  needs_restock : bool;
  is_out_of_stock : bool;
  stock_value : Q
}.
End Formatted.

(** A report. *)
Module Report.
Record t : Type := {
  generated_at : string;
  type : string;
  data : list Product.t;
  title : string;
  total_items : Z;
  stats : Stats.t Z
}.
End Report.

(** The query parameters read by the filter builder. *)
Module Query.
Record t : Type := {
  search : nullable string;
  category : nullable string;
  brand : nullable string;
  is_active : nullable bool;
  low_stock : nullable bool
}.
End Query.

(** The [meta] block of a listing: [createPaginationMeta] builds it with the
    pagination only, the listing handler may add [stats]. *)
Module Meta.
Record t : Type := {
  pagination : Pagination.t;
  stats : nullable (Stats.t Z)
}.
End Meta.

(** ** [utils/helpers.js] *)
Module Helpers.

Definition createPaginationMeta (page limit total : Z) : Meta.t :=
  let totalPages := Math_ceil (inject_Z total / inject_Z limit) in
  {| Meta.pagination :=
       {| Pagination.current_page := page;
          Pagination.per_page := limit;
          Pagination.total_items := total;
          Pagination.total_pages := totalPages;
          Pagination.has_next_page := Z.ltb page totalPages;
          Pagination.has_prev_page := Z.gtb page 1;
          Pagination.next_page := if Z.ltb page totalPages then Val (page + 1)%Z else Null;
          Pagination.prev_page := if Z.gtb page 1 then Val (page - 1)%Z else Null |};
     Meta.stats := Undefined |}.

(** A string property spliced into a template literal. *)
Definition spliced (x : nullable string) : string :=
  match x with
  | Val s => s
  | Null => "null"
  | Undefined => "undefined"
  end.

(** [`%${x}%`] *)
Definition contains (x : nullable string) : string := "%" +:+ spliced x +:+ "%".

Definition buildSearchFilters (searchParams : Query.t) : gmap key where_value :=
  let where_ : gmap key where_value := ∅ in
  let where_ :=
    if truthy (Query.search searchParams)
    then <[Op_or := Alternatives
             [("name", Op_iLike (contains (Query.search searchParams)));
              ("sku", Op_iLike (contains (Query.search searchParams)));
              ("description", Op_iLike (contains (Query.search searchParams)))]]> where_
    else where_ in
  let where_ :=
    if truthy (Query.category searchParams)
    then <[Str "category" := Condition (Op_iLike (contains (Query.category searchParams)))]> where_
    else where_ in
  let where_ :=
    if truthy (Query.brand searchParams)
    then <[Str "brand" := Condition (Op_iLike (contains (Query.brand searchParams)))]> where_
    else where_ in
  let where_ :=
    if is_defined (Query.is_active searchParams)
    then <[Str "is_active" := Plain (Query.is_active searchParams)]> where_
    else where_ in
  let where_ :=
    if truthy (Query.low_stock searchParams)
    then <[Op_or := Alternatives
             [("stock", Op_lte (Col "min_stock"));
              ("stock", Op_lte (Lit 10))]]> where_
    else where_ in
  where_.

Definition validSortFields : list string :=
  ["name"; "sku"; "price"; "stock"; "created_at"; "updated_at"].

(** [buildSortOptions(sortBy, sortOrder)].  The order may be any text:
    [upperCase] stands for [String.prototype.toUpperCase] with the case
    tables of the runtime. *)
Definition buildSortOptions (upperCase : string -> string) (sortBy sortOrder : string)
  : list (string * string) :=
  let field := if bool_decide (sortBy ∈ validSortFields) then sortBy else "created_at" in
  let order :=
    if bool_decide (upperCase sortOrder ∈ ["ASC"; "DESC"])
    then upperCase sortOrder else "DESC" in
  [(field, order)].

(** The value of the stock of a product, [product.price * product.stock]. *)
Definition value_of (product : Product.t) : Q :=
  (Product.price product * inject_Z (Product.stock product))%Q.

(** [product.stock <= (product.min_stock || 5)] *)
Definition low (product : Product.t) : bool :=
  Z.leb (Product.stock product) (or_else (Product.min_stock product) 5%Z).

(** The body of the [forEach] of [calculateInventoryStats]. *)
Definition visit (stats : Stats.t (gset string)) (product : Product.t)
  : Stats.t (gset string) :=
  {| Stats.total_products := Stats.total_products stats;
     Stats.total_value := (Stats.total_value stats + value_of product)%Q;
     Stats.low_stock_count :=
       if low product
       then (Stats.low_stock_count stats + 1)%Z
       else Stats.low_stock_count stats;
     Stats.out_of_stock_count :=
       if Z.eqb (Product.stock product) 0
       then (Stats.out_of_stock_count stats + 1)%Z
       else Stats.out_of_stock_count stats;
     Stats.categories :=
       match Product.category product with
       | Val c => if to_boolean c then {[ c ]} ∪ Stats.categories stats
                  else Stats.categories stats
       | Undefined | Null => Stats.categories stats
       end;
     Stats.brands :=
       match Product.brand product with
       | Val b => if to_boolean b then {[ b ]} ∪ Stats.brands stats
                  else Stats.brands stats
       | Undefined | Null => Stats.brands stats
       end |}.

Definition calculateInventoryStats (products : list Product.t) : Stats.t Z :=
  if Nat.eqb (length products) 0 then
    {| Stats.total_products := 0; Stats.total_value := 0;
       Stats.low_stock_count := 0; Stats.out_of_stock_count := 0;
       Stats.categories := 0%Z; Stats.brands := 0%Z |}
  else
    let stats :=
      fold_left visit products
        {| Stats.total_products := Z.of_nat (length products);
           Stats.total_value := 0;
           Stats.low_stock_count := 0;
           Stats.out_of_stock_count := 0;
           Stats.categories := (∅ : gset string);
           Stats.brands := (∅ : gset string) |} in
    {| Stats.total_products := Stats.total_products stats;
       Stats.total_value :=
         (inject_Z (Math_round (Stats.total_value stats * 100)) / 100)%Q;
       Stats.low_stock_count := Stats.low_stock_count stats;
       Stats.out_of_stock_count := Stats.out_of_stock_count stats;
       Stats.categories := Z.of_nat (size (Stats.categories stats));
       Stats.brands := Z.of_nat (size (Stats.brands stats)) |}.

Definition formatProductResponse (product : nullable Product.t)
  : nullable Formatted.t :=
  match product with
  | Undefined | Null => Null
  | Val product =>
      Val {| Formatted.id := Product.id product;
             Formatted.name := Product.name product;
             Formatted.sku := Product.sku product;
             Formatted.description := Product.description product;
             Formatted.price := parseFloat (Product.price product);
             Formatted.cost :=
               match Product.cost product with
               | Val c => if to_boolean c then Val (parseFloat c) else Null
               | Undefined | Null => Null
               end;
             Formatted.stock := Product.stock product;
             Formatted.min_stock := Product.min_stock product;
             Formatted.category := Product.category product;
             Formatted.brand := Product.brand product;
             Formatted.is_active := Product.is_active product;
             Formatted.image_url := Product.image_url product;
             Formatted.created_at := Product.created_at product;
             Formatted.updated_at := Product.updated_at product;
             Formatted.needs_restock :=
               Z.leb (Product.stock product) (or_else (Product.min_stock product) 5%Z);
             Formatted.is_out_of_stock := Z.eqb (Product.stock product) 0;
             Formatted.stock_value :=
               (parseFloat (Product.price product) * inject_Z (Product.stock product))%Q |}
  end.

Definition formatProductsList (products : list Product.t) : list (nullable Formatted.t) :=
  map (fun product => formatProductResponse (Val product)) products.

(** The helper [validateStockOperation(currentStock, operation, quantity)]. *)
Definition validateStockOperation (currentStock : Z) (operation : string) (quantity : Z)
  : outcome bool :=
  if String.eqb operation "subtract" && Z.ltb currentStock quantity then
    Throw {| message := "Stock insuficiente. Stock actual: " +:+ pretty currentStock
                          +:+ ", cantidad solicitada: " +:+ pretty quantity |}
  else if Z.leb quantity 0 then
    Throw {| message := "La cantidad debe ser mayor a 0" |}
  else Ok true.

(** [generateSimpleReport(products, type)]; [now] is the time stamp taken from
    the clock. *)
Definition generateSimpleReport (now : string) (products : list Product.t) (type : string)
  : Report.t :=
  let '(data, title) :=
    if String.eqb type "low_stock" then
      (filter (fun p => low p = true) products, "Productos con Stock Bajo")
    else if String.eqb type "out_of_stock" then
      (filter (fun p => Product.stock p = 0%Z) products, "Productos Agotados")
    else if String.eqb type "high_value" then
      (Array_sort (fun a b => (value_of b - value_of a)%Q)
         (filter (fun p => Qgtb (value_of p) 1000 = true) products),
       "Productos de Alto Valor en Inventario")
    else (products, "Inventario General") in
  {| Report.generated_at := now;
     Report.type := type;
     Report.data := data;
     Report.title := title;
     Report.total_items := Z.of_nat (length data);
     Report.stats := calculateInventoryStats data |}.

(** [sanitizeInput(input)] *)
Definition sanitizeInput (input : any) : any :=
  match input with
  | AString s => AString (take 1000 (filter (fun u => is_angle u = false) (trim s)))
  | other => other
  end.

(** [generateSKU(name, category = '', suffix = '')]; [now] is what
    [Date.now()] returns and [random36] what [Math.random().toString(36)]
    returns. *)
Definition generateSKU (now : Z) (random36 : string) (name category suffix : string)
  : string :=
  let cleanName :=
    toUpperCase (take_chars 8 (remove_chars (fun c => negb (is_alnum c)) name)) in
  let cleanCategory :=
    if to_boolean category
    then toUpperCase (take_chars 3 (remove_chars (fun c => negb (is_alnum c)) category))
    else "" in
  let timestamp := slice_last 4 (pretty now) in
  let randomSuffix :=
    if to_boolean suffix then suffix
    else toUpperCase (substring 2 5 random36) in
  take_chars 20 (cleanCategory +:+ cleanName +:+ timestamp +:+ randomSuffix).

End Helpers.

(** ** [middleware/errorHandler.js] and the response envelope *)
Module Http.

(** [class AppError extends Error] *)
Record AppError : Type := {
  err_message : string;
  statusCode : Z;
  status : string;
  isOperational : bool
}.

(** [`${statusCode}`.startsWith('4')] *)
Definition startsWith4 (statusCode : Z) : bool :=
  match pretty statusCode with
  | String c _ => Ascii.eqb c (Ascii.ascii_of_nat 52)
  | EmptyString => false
  end.

Definition createError (message : string) (statusCode : Z) : AppError :=
  {| err_message := message;
     statusCode := statusCode;
     status := if startsWith4 statusCode then "fail" else "error";
     isOperational := true |}.

(** The value of a property of a JSON object; [JUndefined] for a property
    that is not there. *)
#[warnings="-register-all"]
Inductive json : Type :=
| JUndefined
| JNull
| JBoolean (b : bool)
| JNumber (q : Q)
| JString (t : utf16)
| JArray (l : list json)
| JObject (l : list (string * json)).

(** The text of a validation error: one of the messages configured in the
    schema, or the library's default text for the named rule. *)
Inductive text : Type :=
| Configured (s : string)
| Default (rule : string).

(** One entry of the [errors] array. *)
Record detail : Type := { field : string; detail_message : text; value : json }.

(** The envelope built by [createResponse]; a field left out is [Undefined]. *)
Record Response (D : Type) : Type := {
  success : bool;
  message : string;
  data : nullable D;
  errors : nullable (list detail);
  meta : nullable Meta.t
}.
Arguments success {D} _.
Arguments message {D} _.
Arguments data {D} _.
Arguments errors {D} _.
Arguments meta {D} _.

(** [x !== null] for a parameter whose default is [null]. *)
Definition given {A} (x : nullable A) : nullable A :=
  match x with
  | Val a => Val a
  | Undefined | Null => Undefined
  end.

Definition createResponse {D} (success : bool) (message : string)
  (data : nullable D) (errors : nullable (list detail)) (meta : nullable Meta.t)
  : Response D :=
  {| success := success; message := message;
     data := given data; errors := given errors; meta := given meta |}.

(** How a route ends: a validation middleware answers by itself (with the
    list [errors], or with the one text [error]), the handler answers with an
    envelope, or an error is passed on to the error handler: one made by
    [createError], or one thrown by the ORM. *)
Inductive reply (D : Type) : Type :=
| Rejected (code : Z) (message : string) (errors : list detail)
| Refused (code : Z) (message : string) (error : text)
| Raised (e : AppError)
| Thrown (e : Error)
| Replied (code : Z) (r : Response D).
Arguments Rejected {D} code message errors.
Arguments Refused {D} code message error.
Arguments Raised {D} e.
Arguments Thrown {D} e.
Arguments Replied {D} code r.

End Http.
Export Http.

(** ** [middleware/validation.js]: the stock operation *)
Module Validation.

(** The request body, a JSON object: the three properties the schema knows
    and the other properties in the order of the object. *)
Record body : Type := {
  quantity : json;
  operation : json;
  reason : json;
  unknown : list (string * json)
}.

(** The body after validation. *)
Record stockOperation : Type := {
  v_quantity : Z;
  v_operation : string;
  v_reason : nullable utf16
}.

Definition MAX_SAFE_INTEGER : Z := 2 ^ 53 - 1.

Definition is_integer (q : Q) : bool := Qeq_bool q (inject_Z (Qfloor q)).

(** What a middleware does: answer with a list of errors, answer with one
    error, or hand the cleaned value to the next handler. *)
Inductive step (A : Type) : Type :=
| Answer (code : Z) (message : string) (errors : list detail)
| AnswerError (code : Z) (message : string) (error : text)
| Next (value : A).
Arguments Answer {A} code message errors.
Arguments AnswerError {A} code message error.
Arguments Next {A} value.

Definition quote : string := String (Ascii.ascii_of_nat 34) EmptyString.

Section Schema.

(** The conversion of a text to a number by the validation library, where
    the text is the notation of a number. *)
Variable numeric : utf16 -> option Q.

(** The rules of a number in the order of the schema, after the library's
    own check of the safe-integer range. *)
Definition check_number (q : Q) : text + Z :=
  if Qgtb q (inject_Z MAX_SAFE_INTEGER) || Qltb q (inject_Z (- MAX_SAFE_INTEGER))
  then inl (Default "number.unsafe")
  else if negb (is_integer q)
  then inl (Configured "La cantidad debe ser un número entero")
  else if negb (Qgtb q 0)
  then inl (Configured "La cantidad debe ser mayor a 0")
  else inr (Qfloor q).

(** [Joi.number().integer().positive().required()] with its messages.  The
    first failure is the one reported (the schema is validated with the
    default options); the value echoed with it is the number the rules were
    run on. *)
Definition check_quantity (x : json) : (text * json) + Z :=
  match x with
  | JUndefined => inl (Configured "La cantidad es requerida", x)
  | JNumber q =>
      match check_number q with inl t => inl (t, x) | inr z => inr z end
  | JString s =>
      match numeric s with
      | Some q =>
          match check_number q with inl t => inl (t, JNumber q) | inr z => inr z end
      | None => inl (Default "number.base", x)
      end
  | JNull | JBoolean _ | JArray _ | JObject _ => inl (Default "number.base", x)
  end.

(** [Joi.string().valid('add', 'subtract').required()] *)
Definition check_operation (x : json) : (text * json) + string :=
  match x with
  | JUndefined => inl (Configured "La operación es requerida", x)
  | JString s =>
      if bool_decide (s = units "add") then inr "add"
      else if bool_decide (s = units "subtract") then inr "subtract"
      else inl (Configured ("La operación debe ser " +:+ quote +:+ "add" +:+ quote
                              +:+ " o " +:+ quote +:+ "subtract" +:+ quote), x)
  | JNull | JBoolean _ | JNumber _ | JArray _ | JObject _ =>
      inl (Configured ("La operación debe ser " +:+ quote +:+ "add" +:+ quote
                         +:+ " o " +:+ quote +:+ "subtract" +:+ quote), x)
  end.

(** [Joi.string().trim().max(255).optional()]: the text is trimmed first,
    and it is the trimmed text that is tested, echoed and passed on. *)
Definition check_reason (x : json) : (text * json) + nullable utf16 :=
  match x with
  | JUndefined => inr Undefined
  | JString s =>
      let s := trim s in
      if Nat.eqb (length s) 0 then inl (Default "string.empty", JString s)
      else if Nat.ltb 255 (length s)
      then inl (Configured "La razón no puede exceder 255 caracteres", JString s)
      else inr (Val s)
  | JNull | JBoolean _ | JNumber _ | JArray _ | JObject _ =>
      inl (Default "string.base", x)
  end.

Definition reject {A} (field : string) (e : text * json) : step A :=
  Answer 400 "Errores de validación en operación de stock"
    [{| field := field; detail_message := fst e; value := snd e |}].

(** The properties of the schema are checked in its order, then a property
    the schema does not know is refused. *)
Definition validateStockOperation (req_body : body) : step stockOperation :=
  match check_quantity (quantity req_body) with
  | inl e => reject "quantity" e
  | inr q =>
      match check_operation (operation req_body) with
      | inl e => reject "operation" e
      | inr o =>
          match check_reason (reason req_body) with
          | inl e => reject "reason" e
          | inr r =>
              match unknown req_body with
              | (key, v) :: _ => reject key (Default "object.unknown", v)
              | [] => Next {| v_quantity := q; v_operation := o; v_reason := r |}
              end
          end
      end
  end.

End Schema.

End Validation.

(** ** [routes/products.js] *)
Module Routes.

(** The query of a listing after [validateQuery]. *)
Record listQuery : Type := {
  page : Z;
  limit : Z;
  search : nullable string;
  category : nullable string;
  brand : nullable string;
  is_active : nullable bool;
  low_stock : nullable bool;
  sort_by : string;
  sort_order : string;
  include_stats : nullable string
}.

(** The options of a query on the model. *)
Record options : Type := {
  o_where : gmap key where_value;
  o_order : list (string * string);
  o_limit : nullable Z;
  o_offset : nullable Z
}.

(** The data of a stock update. *)
Record stockMovement : Type := {
  previous_stock : Z;
  current_stock : Z;
  m_operation : string;
  m_quantity : Z;
  m_reason : nullable utf16;
  timestamp : string
}.

Record stockData : Type := {
  product : nullable Formatted.t;
  stock_movement : stockMovement
}.

Section Handlers.

(** The collaborators: the pattern matcher and the ordering of the database,
    the clock, the check of an identifier, the case tables of the runtime,
    the number conversion of the validation library, and the validators and
    the time stamp of the ORM. *)
Variable ilike : string -> string -> bool.
Variable before : Sql.value -> Sql.value -> bool.
Variable now : string.
Variable is_uuid_v4 : string -> bool.
Variable upperCase : string -> string.
Variable numeric : utf16 -> option Q.
Variable validate : Product.ctx -> option string.
Variable stamp : Product.ctx -> Z.

(** *** The queries of the model on the table *)

Definition rows (table : gmap string Product.t) : list Product.t :=
  (map_to_list table).*2.

(** The live rows a [where] object selects. *)
Definition selected (where_ : gmap key where_value) (table : gmap string Product.t)
  : list Product.t :=
  filter (fun r => Product.live r && eval_where Product.column ilike where_ r = true)
    (rows table).

(** [ORDER BY field direction] *)
Definition order_by (order : list (string * string)) (l : list Product.t)
  : list Product.t :=
  match order with
  | [(field, direction)] =>
      Js.sort_by (fun a b =>
                 if String.eqb direction "ASC"
                 then before (Product.column field b) (Product.column field a)
                 else before (Product.column field a) (Product.column field b)) l
  | _ => l
  end.

Definition findAll (o : options) (table : gmap string Product.t) : list Product.t :=
  let l := order_by (o_order o) (selected (o_where o) table) in
  let l := match o_offset o with Val n => drop (Z.to_nat n) l | _ => l end in
  match o_limit o with Val n => take (Z.to_nat n) l | _ => l end.


Definition findByPk (id : string) (table : gmap string Product.t) : option Product.t :=
  match table !! id with
  | Some r => if Product.live r then Some r else None
  | None => None
  end.

(** *** GET / *)

Definition listOptions (q : listQuery) : options :=
  {| o_where :=
       Helpers.buildSearchFilters
         {| Query.search := search q; Query.category := category q;
            Query.brand := brand q; Query.is_active := is_active q;
            Query.low_stock := low_stock q |};
     o_order := Helpers.buildSortOptions upperCase (sort_by q) (sort_order q);
     o_limit := Val (parseInt (limit q));
     o_offset := Val ((parseInt (page q) - 1) * parseInt (limit q))%Z |}.


(** *** GET /search *)

Definition searchOptions (searchTerm : string) : options :=
  {| o_where :=
       <[Str "is_active" := Plain (Val true)]>
         {[ Op_or := Alternatives
              [("name", Op_iLike ("%" +:+ searchTerm +:+ "%"));
               ("sku", Op_iLike ("%" +:+ searchTerm +:+ "%"));
               ("description", Op_iLike ("%" +:+ searchTerm +:+ "%"));
               ("category", Op_iLike ("%" +:+ searchTerm +:+ "%"));
               ("brand", Op_iLike ("%" +:+ searchTerm +:+ "%"))] ]};
     o_order := [("name", "ASC")];
     o_limit := Val 20%Z;
     o_offset := Undefined |}.

Definition search_handler (search : nullable utf16) (table : gmap string Product.t)
  : reply (list (nullable Formatted.t)) :=
  match search with
  | Val text =>
      if is_empty text || Nat.ltb (length (trim text)) 2
      then Raised (createError "El término de búsqueda debe tener al menos 2 caracteres" 400)
      else
        let searchTerm := trim text in
        let products :=
          Product.instance <$> findAll (searchOptions (utf8 searchTerm)) table in
        let formattedProducts := Helpers.formatProductsList products in
        Replied 200
          (createResponse true
             ("Se encontraron " +:+ pretty (length products) +:+ " productos")
             (Val formattedProducts) Null Null)
  | Undefined | Null =>
      Raised (createError "El término de búsqueda debe tener al menos 2 caracteres" 400)
  end.

(** *** PATCH /:id/stock *)

Definition stock_handler (id : string) (b : Validation.stockOperation)
  (table : gmap string Product.t) : reply stockData * gmap string Product.t :=
  match findByPk id table with
  | None => (Raised (createError "Producto no encontrado" 404), table)
  | Some product =>
      let previousStock := Product.stock product in
      match Product.updateStock validate stamp
              (Validation.v_quantity b) (Validation.v_operation b)
              {| Product.this := product; Product.table := table |} with
      | (Throw error, c) =>
          (Raised (createError (Eff.message error) 400), Product.table c)
      | (Ok _, c) =>
          let product := Product.this c in
          let formattedProduct :=
            Helpers.formatProductResponse (Val (Product.instance product)) in
          (Replied 200
             (createResponse true
                ("Stock " +:+ (if String.eqb (Validation.v_operation b) "add"
                               then "aumentado" else "reducido") +:+ " correctamente")
                (Val {| product := formattedProduct;
                        stock_movement :=
                          {| previous_stock := previousStock;
                             current_stock := Product.stock product;
                             m_operation := Validation.v_operation b;
                             m_quantity := Validation.v_quantity b;
                             m_reason := match Validation.v_reason b with
                                         | Val r => if is_empty r then Null else Val r
                                         | Undefined | Null => Null
                                         end;
                             timestamp := now |} |})
                Null Null),
           Product.table c)
      end
  end.

(** [validateUUID]: the identifier of a route is a text that is not empty,
    so the one rule that can fail is the UUID rule. *)
Definition validateUUID (id : string) : Validation.step unit :=
  if is_uuid_v4 id then Validation.Next tt
  else Validation.AnswerError 400 "ID inválido"
         (Configured "El ID debe ser un UUID válido").

(** The route: [validateUUID], [validateStockOperation], then the handler. *)
Definition stock_route (id : string) (req_body : Validation.body)
  (table : gmap string Product.t) : reply stockData * gmap string Product.t :=
  match validateUUID id with
  | Validation.Answer code message errors => (Rejected code message errors, table)
  | Validation.AnswerError code message error => (Refused code message error, table)
  | Validation.Next _ =>
      match Validation.validateStockOperation numeric req_body with
      | Validation.Answer code message errors => (Rejected code message errors, table)
      | Validation.AnswerError code message error => (Refused code message error, table)
      | Validation.Next value => stock_handler id value table
      end
  end.

End Handlers.

(** *** The other routes on one product, the reports, and the static query
    of the model *)
Section Lifecycle.

Variable ilike : string -> string -> bool.
Variable before : Sql.value -> Sql.value -> bool.
Variable now : string.
Variable clock : Z.
Variable is_uuid_v4 : string -> bool.
Variable validate : Product.ctx -> option string.
Variable stamp : Product.ctx -> Z.

(** [static async findLowStock(threshold = 10)] of the model *)
Definition findLowStock (threshold : Z) (table : gmap string Product.t)
  : list Product.t :=
  findAll ilike before
    {| o_where := {[ Str "stock" := Condition (Op_lte (Lit threshold)) ]};
       o_order := [("stock", "ASC")];
       o_limit := Undefined;
       o_offset := Undefined |} table.

(** GET /:id *)
Definition get_handler (id : string) (table : gmap string Product.t)
  : reply (nullable Formatted.t) :=
  match findByPk id table with
  | None => Raised (createError "Producto no encontrado" 404)
  | Some product =>
      let formattedProduct :=
        Helpers.formatProductResponse (Val (Product.instance product)) in
      Replied 200
        (createResponse true "Producto obtenido correctamente"
           (Val formattedProduct) Null Null)
  end.

Definition get_route (id : string) (table : gmap string Product.t)
  : reply (nullable Formatted.t) :=
  match validateUUID is_uuid_v4 id with
  | Validation.Answer code message errors => Rejected code message errors
  | Validation.AnswerError code message error => Refused code message error
  | Validation.Next _ => get_handler id table
  end.

(** DELETE /:id *)
Definition delete_handler (id : string) (table : gmap string Product.t)
  : reply unit * gmap string Product.t :=
  match findByPk id table with
  | None => (Raised (createError "Producto no encontrado" 404), table)
  | Some product =>
      match Product.destroy validate stamp clock
              {| Product.this := product; Product.table := table |} with
      | (Throw error, c) => (Thrown error, Product.table c)
      | (Ok _, c) =>
          (Replied 200
             (createResponse true "Producto eliminado correctamente" Null Null Null),
           Product.table c)
      end
  end.

Definition delete_route (id : string) (table : gmap string Product.t)
  : reply unit * gmap string Product.t :=
  match validateUUID is_uuid_v4 id with
  | Validation.Answer code message errors => (Rejected code message errors, table)
  | Validation.AnswerError code message error => (Refused code message error, table)
  | Validation.Next _ => delete_handler id table
  end.

(** GET /reports/:type *)
Definition validTypes : list string :=
  ["inventory"; "low_stock"; "out_of_stock"; "high_value"].

Definition reportOptions : options :=
  {| o_where := {[ Str "is_active" := Plain (Val true) ]};
     o_order := [("name", "ASC")];
     o_limit := Undefined;
     o_offset := Undefined |}.

Definition report_handler (type : string) (table : gmap string Product.t)
  : reply Report.t :=
  if negb (bool_decide (type ∈ validTypes))
  then Raised (createError "Tipo de reporte inválido" 400)
  else
    let products := Product.instance <$> findAll ilike before reportOptions table in
    let report := Helpers.generateSimpleReport now products type in
    Replied 200
      (createResponse true ("Reporte de " +:+ type +:+ " generado correctamente")
         (Val report) Null Null).

End Lifecycle.

End Routes.

(** ** [middleware/errorHandler.js]: the error handler *)
Module ErrorHandler.

(** An error object as the handler reads it; a property that is not there
    is [Undefined]. *)
Record error : Type := {
  name : string;
  message : string;
  statusCode : nullable Z;
  status : nullable string;
  isOperational : nullable bool;
  errors : nullable (list detail);
  field : nullable string;
  stack : string;
  details : nullable string
}.

(** What [handleSequelizeError] returns. *)
Record sequelizeError : Type := {
  s_statusCode : Z;
  s_message : string;
  s_errors : nullable (list detail);
  s_field : nullable string
}.

(** The body of the answer: the one of development, the one of production
    for an operational error, and the generic one of production. *)
Inductive body : Type :=
| Development (status : nullable string) (message stack : string)
    (details : nullable string) (errors : nullable (list detail))
| Operational (message : string) (errors : nullable (list detail))
    (field : nullable string)
| Generic (message : string).

Section Handler.

(** The collaborators: the classification of the errors of the ORM, which
    rests on its classes, the stack recorded when an error is created, and
    whether the process runs in development. *)
Variable handleSequelizeError : error -> sequelizeError.
Variable trace : string.
Variable development : bool.

(** [new AppError(message, statusCode)] *)
Definition AppError (message : string) (statusCode : Z) : error :=
  {| name := "Error";
     message := message;
     statusCode := Val statusCode;
     status := Val (if startsWith4 statusCode then "fail" else "error");
     isOperational := Val true;
     errors := Undefined;
     field := Undefined;
     stack := trace;
     details := Undefined |}.

(** [notFound]: the error passed on for a route that does not exist. *)
Definition notFound (originalUrl : string) : error :=
  AppError ("Ruta " +:+ originalUrl +:+ " no encontrada") 404.

Definition with_defaults (err : error) : error :=
  {| name := name err;
     message := message err;
     statusCode := Val (or_else (statusCode err) 500%Z);
     status := Val (or_else (status err) "error");
     isOperational := isOperational err;
     errors := errors err;
     field := field err;
     stack := stack err;
     details := details err |}.

Definition with_errors (errors : nullable (list detail)) (field : nullable string)
  (err : error) : error :=
  {| name := name err;
     message := message err;
     statusCode := statusCode err;
     status := status err;
     isOperational := isOperational err;
     errors := errors;
     field := field;
     stack := stack err;
     details := details err |}.

(** [x || null] *)
Definition or_null {A} `{ToBoolean A} (x : nullable A) : nullable A :=
  if truthy x then x else Null.

(** An array is an object, hence always truthy. *)
#[export] Instance list_ToBoolean {A} : ToBoolean (list A) := fun _ => true.

(** [err.statusCode] once it is a number. *)
Definition code (err : error) : Z :=
  match statusCode err with
  | Val c => c
  | Undefined | Null => 0%Z
  end.

Definition sendErrorDev (err : error) : Z * body :=
  (code err,
   Development (status err) (message err) (stack err)
     (or_null (details err)) (or_null (errors err))).

Definition sendErrorProd (err : error) : Z * body :=
  if truthy (isOperational err) then
    (code err,
     Operational (message err)
       (if truthy (errors err) then errors err else Undefined)
       (if truthy (field err) then field err else Undefined))
  else (500%Z, Generic "Algo salió mal en el servidor").

Definition errorHandler (err : error) : Z * body :=
  let err := with_defaults err in
  let err :=
    if String.eqb (name err) "SequelizeValidationError"
       || String.eqb (name err) "SequelizeUniqueConstraintError"
       || String.eqb (name err) "SequelizeForeignKeyConstraintError"
    then
      let sequelizeError := handleSequelizeError err in
      with_errors (s_errors sequelizeError) (s_field sequelizeError)
        (AppError (s_message sequelizeError) (s_statusCode sequelizeError))
    else err in
  let err :=
    if String.eqb (name err) "SequelizeConnectionError"
    then AppError "Error de conexión a la base de datos" 503
    else err in
  let err :=
    if String.eqb (name err) "SequelizeTimeoutError"
    then AppError "Tiempo de espera agotado en la base de datos" 408
    else err in
  let err :=
    if String.eqb (name err) "SyntaxError" && includes "JSON" (message err)
    then AppError "Formato JSON inválido" 400
    else err in
  let err :=
    if String.eqb (name err) "CastError"
    then AppError "Formato de dato inválido" 400
    else err in
  if development then sendErrorDev err else sendErrorProd err.

End Handler.

End ErrorHandler.

(** ** Vocabulary of the statements *)
Module Spec.

(** The same query with [search] left out. *)
Definition without_search (q : Query.t) : Query.t :=
  {| Query.search := Undefined;
     Query.category := Query.category q;
     Query.brand := Query.brand q;
     Query.is_active := Query.is_active q;
     Query.low_stock := Query.low_stock q |}.

(** The same query with neither [search] nor [low_stock]. *)
Definition columns_only (q : Query.t) : Query.t :=
  {| Query.search := Undefined;
     Query.category := Query.category q;
     Query.brand := Query.brand q;
     Query.is_active := Query.is_active q;
     Query.low_stock := Undefined |}.

(** The low-stock group: stock at most the row's own [min_stock], or at most 10. *)
Definition low_stock_group : where_value :=
  Alternatives [("stock", Op_lte (Col "min_stock")); ("stock", Op_lte (Lit 10))].

(** The group of a free-text search on name, sku and description. *)
Definition search_group (s : string) : where_value :=
  Alternatives [("name", Op_iLike ("%" +:+ s +:+ "%"));
                ("sku", Op_iLike ("%" +:+ s +:+ "%"));
                ("description", Op_iLike ("%" +:+ s +:+ "%"))].

(** The two messages of the stock checks. *)
Definition non_positive_quantity : string := "La cantidad debe ser mayor a 0".

Definition insufficient_stock : string := "Stock insuficiente".

(** The quantity of a body is the number [q]: it is that JSON number, or a
    text that the validation library converts to it. *)
Definition quantity_is (numeric : utf16 -> option Q) (req_body : Validation.body)
  (q : Q) : Prop :=
  Validation.quantity req_body = JNumber q
  \/ exists s, Validation.quantity req_body = JString s /\ numeric s = Some q.

(** A product with another [min_stock] or another [cost]. *)
Definition with_min_stock (m : nullable Z) (p : Product.t) : Product.t :=
  {| Product.id := Product.id p; Product.name := Product.name p;
     Product.sku := Product.sku p; Product.description := Product.description p;
     Product.price := Product.price p; Product.cost := Product.cost p;
     Product.stock := Product.stock p; Product.min_stock := m;
     Product.category := Product.category p; Product.brand := Product.brand p;
     Product.is_active := Product.is_active p;
     Product.image_url := Product.image_url p;
     Product.created_at := Product.created_at p;
     Product.updated_at := Product.updated_at p;
     Product.deleted_at := Product.deleted_at p |}.

Definition with_cost (c : nullable Q) (p : Product.t) : Product.t :=
  {| Product.id := Product.id p; Product.name := Product.name p;
     Product.sku := Product.sku p; Product.description := Product.description p;
     Product.price := Product.price p; Product.cost := c;
     Product.stock := Product.stock p; Product.min_stock := Product.min_stock p;
     Product.category := Product.category p; Product.brand := Product.brand p;
     Product.is_active := Product.is_active p;
     Product.image_url := Product.image_url p;
     Product.created_at := Product.created_at p;
     Product.updated_at := Product.updated_at p;
     Product.deleted_at := Product.deleted_at p |}.

(** The product of the example of the specification: a widget at 9.99 with
    5 in stock and the default threshold. *)
Definition widget : Product.t :=
  {| Product.id := "7f9c24e8-3b12-4a5d-9c1e-5a8d2f0b6e31";
     Product.name := "Widget"; Product.sku := "WDG-1";
     Product.description := Null;
     Product.price := 999 # 100; Product.cost := Null;
     Product.stock := 5; Product.min_stock := Val 5%Z;
     Product.category := Val "Tools"; Product.brand := Null;
     Product.is_active := true; Product.image_url := Null;
     Product.created_at := 1700000000; Product.updated_at := 1700000000;
     Product.deleted_at := Null |}.

(** A table that holds one product. *)
Definition table_of (p : Product.t) : gmap string Product.t :=
  {[ Product.id p := p ]}.

(** The receiver with another stock, as [updateStock] hands it to [save],
    and the instance that [save] writes. *)
Definition with_stock (z : Z) (c : Product.ctx) : Product.ctx :=
  {| Product.this := Product.set_stock z (Product.this c);
     Product.table := Product.table c |}.

Definition saved (stamp : Product.ctx -> Z) (c : Product.ctx) : Product.t :=
  Product.set_updated_at (stamp c) (Product.this c).

(** The stock an operation asks for: lowered or raised by the quantity, and
    as it is for any other operation. *)
Definition new_stock (quantity : Z) (operation : string) (stock : Z) : Z :=
  if String.eqb operation "subtract" then stock - quantity
  else if String.eqb operation "add" then stock + quantity
  else stock.

(** A [subtract] of more than there is. *)
Definition overdrawn (quantity : Z) (operation : string) (stock : Z) : Prop :=
  operation = "subtract" /\ (stock < quantity)%Z.

(** The threshold is configured: present and not negative. *)
Definition min_stock_valid (p : Product.t) : Prop :=
  match Product.min_stock p with
  | Val m => (0 <= m)%Z
  | Undefined | Null => True
  end.

(** A product of high value: price times stock above 1000. *)
Definition high_value (p : Product.t) : Prop := (1000 < Helpers.value_of p)%Q.

#[export] Instance high_value_dec (p : Product.t) : Decision (high_value p) :=
  match Qlt_le_dec 1000 (Helpers.value_of p) with
  | left H => left H
  | right H => right (Qle_not_lt _ _ H)
  end.


(** The sum of price times stock over a collection. *)
Definition sum_values (products : list Product.t) : Q :=
  foldr (fun p acc => (Helpers.value_of p + acc)%Q) 0%Q products.

(** A number rounded to two decimals, halves going up. *)
Definition round2 (x : Q) : Q := (inject_Z (Qfloor (x * 100 + (1 # 2))) / 100)%Q.

(** Low on stock and out of stock, as propositions. *)
Definition low_stock (p : Product.t) : Prop :=
  (Product.stock p <= or_else (Product.min_stock p) 5)%Z.
Definition out_of_stock (p : Product.t) : Prop := Product.stock p = 0%Z.

(** At or below the threshold of the product: its [min_stock], and 5 when
    that is unset. *)
Definition restock_threshold (p : Product.t) : Z :=
  match Product.min_stock p with
  | Val m => m
  | Undefined | Null => 5%Z
  end.

Definition needs_restock (p : Product.t) : Prop :=
  (Product.stock p <= restock_threshold p)%Z.

(** A threshold of 0 and a stock from 1 to 5. *)
Definition in_stock_above_zero_threshold (p : Product.t) : Prop :=
  Product.min_stock p = Val 0%Z /\ (0 < Product.stock p <= 5)%Z.

#[export] Instance needs_restock_dec (p : Product.t) : Decision (needs_restock p) :=
  Z_le_dec (Product.stock p) (restock_threshold p).

#[export] Instance in_stock_above_zero_threshold_dec (p : Product.t)
  : Decision (in_stock_above_zero_threshold p).
Proof.
  unfold in_stock_above_zero_threshold.
  destruct (Product.min_stock p) as [| | m].
  - right. intros [H _]. discriminate H.
  - right. intros [H _]. discriminate H.
  - destruct (decide (m = 0%Z)) as [-> | Hm].
    + destruct (decide (0 < Product.stock p <= 5)%Z) as [H | H].
      * left. split; [reflexivity | exact H].
      * right. intros [_ H']. exact (H H').
    + right. intros [H _]. injection H as H. exact (Hm H).
Defined.

(** How many products of a collection satisfy a property. *)
Definition count (P : Product.t -> Prop) `{forall p, Decision (P p)}
  (products : list Product.t) : Z :=
  Z.of_nat (length (filter P products)).

(** The non-empty values of a text attribute over a collection. *)
Definition named (attribute : Product.t -> nullable string) (products : list Product.t)
  : list string :=
  omap (fun p => match attribute p with
                 | Val s => if decide (s = "") then None else Some s
                 | Undefined | Null => None
                 end) products.

(** The number of distinct values of a list. *)
Definition distinct (l : list string) : Z := Z.of_nat (length (remove_dups l)).

(** A search text that is missing or, once trimmed, shorter than 2. *)
Definition too_short (search : nullable utf16) : Prop :=
  match search with
  | Val text => length (trim text) < 2
  | Undefined | Null => True
  end.

(** A row matches a search term when one of its name, sku, description,
    category or brand matches the pattern made of the term. *)
Definition text_matches (ilike : string -> string -> bool) (term : string)
  (r : Product.t) : Prop :=
  let pattern := "%" +:+ term +:+ "%" in
  ilike pattern (Product.name r) = true
  \/ ilike pattern (Product.sku r) = true
  \/ (exists s, Product.description r = Val s /\ ilike pattern s = true)
  \/ (exists s, Product.category r = Val s /\ ilike pattern s = true)
  \/ (exists s, Product.brand r = Val s /\ ilike pattern s = true).

Definition search_too_short_message : string :=
  "El término de búsqueda debe tener al menos 2 caracteres".

(** A cost that is unset or zero. *)
Definition no_cost (c : nullable Q) : Prop :=
  match c with
  | Val c => (c == 0)%Q
  | Undefined | Null => True
  end.

(** A text that does not begin with white space. *)
Definition starts_clean (t : utf16) : Prop :=
  match t with
  | [] => True
  | u :: _ => is_white_space u = false
  end.

(** Every row of a table is stored under its own identifier. *)
Definition keyed (table : gmap string Product.t) : Prop :=
  forall k r, table !! k = Some r -> Product.id r = k.

(** No row of a table has a negative stock. *)
Definition stocks_valid (table : gmap string Product.t) : Prop :=
  forall k r, table !! k = Some r -> (0 <= Product.stock r)%Z.

(** What the listing filter of a query asks of a row: the low-stock test
    when [low_stock] is set, else the free-text test when [search] is set;
    and the tests on category, brand and the active flag that are set. *)
Definition filter_holds (ilike : string -> string -> bool) (q : Query.t)
  (r : Product.t) : Prop :=
  (if truthy (Query.low_stock q)
   then (exists m, Product.min_stock r = Val m /\ (Product.stock r <= m)%Z)
        \/ (Product.stock r <= 10)%Z
   else if truthy (Query.search q)
   then ilike (Helpers.contains (Query.search q)) (Product.name r) = true
        \/ ilike (Helpers.contains (Query.search q)) (Product.sku r) = true
        \/ (exists s, Product.description r = Val s
                       /\ ilike (Helpers.contains (Query.search q)) s = true)
   else True)
  /\ (truthy (Query.category q) = true ->
      exists s, Product.category r = Val s
                /\ ilike (Helpers.contains (Query.category q)) s = true)
  /\ (truthy (Query.brand q) = true ->
      exists s, Product.brand r = Val s
                /\ ilike (Helpers.contains (Query.brand q)) s = true)
  /\ match Query.is_active q with
     | Undefined => True
     | Null => False
     | Val b => Product.is_active r = b
     end.

(** The alternatives of a free-text search in a listing. *)
Definition search_alternatives (q : Query.t) : where_value :=
  Alternatives [("name", Op_iLike (Helpers.contains (Query.search q)));
                ("sku", Op_iLike (Helpers.contains (Query.search q)));
                ("description", Op_iLike (Helpers.contains (Query.search q)))].

End Spec.

(** * Properties *)

(** ** The filter builder *)
Section Filters.
Import Helpers Spec.

(** A lookup commutes with an insertion made on both sides. *)
Lemma lookup_insert_congr (k j : key) (v : where_value) (m m' : gmap key where_value) :
  m !! j = m' !! j -> <[k := v]> m !! j = <[k := v]> m' !! j.
Proof.
  intros H. rewrite !lookup_insert. case_decide; [reflexivity | exact H].
Qed.

Ltac skip_other_keys :=
  repeat first
    [ reflexivity
    | rewrite lookup_empty
    | rewrite lookup_insert_ne by (discriminate || assumption)
    | apply lookup_insert_congr ].

(** The entries of the columns do not depend on [search] and [low_stock]. *)
Lemma buildSearchFilters_columns (q : Query.t) (f : string) :
  buildSearchFilters q !! Str f = buildSearchFilters (columns_only q) !! Str f.
Proof.
  unfold buildSearchFilters, columns_only, Op_or; simpl.
  destruct (truthy (Query.search q)), (truthy (Query.category q)),
    (truthy (Query.brand q)), (is_defined (Query.is_active q)),
    (truthy (Query.low_stock q)); skip_other_keys.
Qed.

(** [Op.or] is the only symbol the builder binds. *)
Lemma buildSearchFilters_symbols (q : Query.t) (k : string) :
  Op_or <> Sym k -> buildSearchFilters q !! Sym k = None.
Proof.
  intros H. unfold buildSearchFilters.
  destruct (truthy (Query.search q)), (truthy (Query.category q)),
    (truthy (Query.brand q)), (is_defined (Query.is_active q)),
    (truthy (Query.low_stock q)); skip_other_keys.
Qed.

Lemma buildSearchFilters_low_stock (q : Query.t) :
  truthy (Query.low_stock q) = true ->
  buildSearchFilters q !! Op_or = Some low_stock_group.
Proof.
  intros H. unfold buildSearchFilters. rewrite H. apply lookup_insert_eq.
Qed.

(** Without [low_stock] the group under [Op.or] is the one of the search. *)
Lemma buildSearchFilters_search_only (q : Query.t) (s : string) :
  Query.search q = Val s -> s <> "" -> truthy (Query.low_stock q) = false ->
  buildSearchFilters q !! Op_or = Some (search_group s).
Proof.
  intros Hs Hne Hl. unfold buildSearchFilters. rewrite Hl, Hs.
  assert (Ht : truthy (Val s) = true) by (destruct s; [congruence | reflexivity]).
  rewrite Ht. unfold Op_or.
  destruct (truthy (Query.category q)), (truthy (Query.brand q)),
    (is_defined (Query.is_active q));
    repeat (rewrite lookup_insert_ne by discriminate);
    apply lookup_insert_eq.
Qed.

(** The low-stock group selects the rows whose stock is at most their own
    [min_stock] or at most 10. *)
Lemma low_stock_group_selects (ilike : string -> string -> bool) (r : Product.t) :
  eval_entry Product.column ilike Op_or low_stock_group r = true
  <-> (exists m, Product.min_stock r = Val m /\ (Product.stock r <= m)%Z)
      \/ (Product.stock r <= 10)%Z.
Proof.
  unfold eval_entry, Op_or, low_stock_group.
  cbn [String.eqb Ascii.eqb Bool.eqb existsb fst snd].
  unfold eval_cond, eval_operand.
  change (Product.column "stock" r) with (VInt (Product.stock r)).
  change (Product.column "min_stock" r)
    with (match Product.min_stock r with
          | Val z => VInt z
          | Undefined | Null => VNull
          end).
  rewrite orb_false_r, orb_true_iff, Z.leb_le.
  destruct (Product.min_stock r) as [| | m].
  - split; [intros [H | H]; [discriminate H | right; exact H] |].
    intros [(m & Hm & _) | H]; [discriminate Hm | right; exact H].
  - split; [intros [H | H]; [discriminate H | right; exact H] |].
    intros [(m & Hm & _) | H]; [discriminate Hm | right; exact H].
  - rewrite Z.leb_le. split.
    + intros [H | H]; [left; exists m; split; [reflexivity | exact H] | right; exact H].
    + intros [(m' & Hm & H) | H]; [left; congruence | right; exact H].
Qed.

(** C1. When [search] and [low_stock=true] are both supplied the filter is
    the one of the same query without [search]: under [Op.or] it holds the
    low-stock group (stock at most the row's own [min_stock], or at most 10)
    in place of the group of the search, and the category, brand and
    is_active entries are those the query has without [search] and
    [low_stock]. *)
Theorem low_stock_overwrites_search (q : Query.t) (s : string) :
  Query.search q = Val s ->
  Query.low_stock q = Val true ->
  buildSearchFilters q = buildSearchFilters (without_search q)
  /\ buildSearchFilters q !! Op_or = Some low_stock_group
  /\ (forall ilike r,
        eval_entry Product.column ilike Op_or low_stock_group r = true
        <-> (exists m, Product.min_stock r = Val m /\ (Product.stock r <= m)%Z)
            \/ (Product.stock r <= 10)%Z)
  /\ (forall f, buildSearchFilters q !! Str f
                = buildSearchFilters (columns_only q) !! Str f).
Proof.
  intros Hs Hl.
  assert (Ht : truthy (Query.low_stock q) = true) by (rewrite Hl; reflexivity).
  split; [| split; [| split; [apply low_stock_group_selects |]]].
  - apply map_eq. intros [k | f].
    + destruct (decide (Op_or = Sym k)) as [<- | Hk].
      * rewrite !buildSearchFilters_low_stock; auto.
      * rewrite !buildSearchFilters_symbols; auto.
    + rewrite (buildSearchFilters_columns q),
        (buildSearchFilters_columns (without_search q)).
      reflexivity.
  - apply buildSearchFilters_low_stock, Ht.
  - intros f. apply buildSearchFilters_columns.
Qed.

Lemma low_stock_overwrites_search_witness :
  let q := {| Query.search := Val "lap"; Query.category := Val "Electronics";
              Query.brand := Undefined; Query.is_active := Val true;
              Query.low_stock := Val true |} in
  buildSearchFilters q = buildSearchFilters (without_search q)
  /\ buildSearchFilters q !! Op_or = Some low_stock_group
  /\ (forall f, buildSearchFilters q !! Str f
                = buildSearchFilters (columns_only q) !! Str f).
Proof.
  intros q.
  destruct (low_stock_overwrites_search q "lap") as (H1 & H2 & _ & H3);
    [reflexivity | reflexivity |].
  split; [exact H1 | split; [exact H2 | exact H3]].
Defined.

End Filters.

(** ** The stock operation: validation *)
Section StockValidation.
Import Spec.

(** The helper tests the stock first: a quantity that is not positive is
    answered by the quantity error unless the operation is [subtract] and
    the stock is below the quantity; a stock that is not negative never is. *)
Lemma helper_rejects_non_positive (currentStock quantity : Z) (operation : string) :
  (quantity <= 0)%Z ->
  Helpers.validateStockOperation currentStock operation quantity
  = Throw {| Eff.message := non_positive_quantity |}
  <-> (operation = "subtract" -> (quantity <= currentStock)%Z).
Proof.
  intros Hq. unfold Helpers.validateStockOperation.
  replace (Z.leb quantity 0) with true by (symmetry; apply Z.leb_le; lia).
  destruct (String.eqb_spec operation "subtract") as [-> | Hop]; simpl.
  - destruct (Z.ltb_spec currentStock quantity) as [Hlt | Hge].
    + split; [discriminate | intros H; specialize (H eq_refl); lia].
    + split; [intros _ _; exact Hge | reflexivity].
  - split; [intros _ E; contradiction | reflexivity].
Qed.

(** The schema: an integer that is not positive fails the rule [positive]. *)
Lemma check_number_non_positive (q : Q) (quantity : Z) :
  (q == inject_Z quantity)%Q ->
  (- Validation.MAX_SAFE_INTEGER <= quantity <= 0)%Z ->
  Validation.check_number q = inl (Configured non_positive_quantity).
Proof.
  intros Hq [Hlo Hhi]. unfold Validation.check_number, Qgtb, Qltb.
  assert (H0 : (q <= 0)%Q).
  { rewrite Hq. change 0%Q with (inject_Z 0). rewrite <- Zle_Qle. exact Hhi. }
  assert (H1 : Qle_bool q (inject_Z Validation.MAX_SAFE_INTEGER) = true).
  { apply Qle_bool_iff. rewrite Hq, <- Zle_Qle.
    unfold Validation.MAX_SAFE_INTEGER in *. lia. }
  assert (H2 : Qle_bool (inject_Z (- Validation.MAX_SAFE_INTEGER)) q = true).
  { apply Qle_bool_iff. rewrite Hq, <- Zle_Qle. exact Hlo. }
  assert (H3 : Validation.is_integer q = true).
  { unfold Validation.is_integer. apply Qeq_bool_iff.
    rewrite Hq at 2. rewrite Qfloor_Z. exact Hq. }
  assert (H4 : Qle_bool q 0 = true) by (apply Qle_bool_iff; exact H0).
  rewrite H1, H2, H3, H4. reflexivity.
Qed.

(** C2. A quantity that is not positive is rejected with the quantity error
    whatever the operation, unless a [subtract] meets a stock below the
    quantity (which a stock that is not negative never is): by the helper, and on the route by
    the validation middleware, which answers by itself so that the handler,
    and with it the stock check of [updateStock], never runs and the table
    is left as it was.  On the route the quantity is an integer inside the
    safe range; the other properties of the body are any. *)
Theorem non_positive_quantity_is_rejected
  (currentStock quantity : Z) (operation : string) :
  operation ∈ ["add"; "subtract"] ->
  (quantity <= 0)%Z ->
  (operation = "subtract" -> (quantity <= currentStock)%Z) ->
  Helpers.validateStockOperation currentStock operation quantity
  = Throw {| Eff.message := non_positive_quantity |}
  /\ (forall stock : Z,
        (0 <= stock)%Z ->
        Helpers.validateStockOperation stock operation quantity
        = Throw {| Eff.message := non_positive_quantity |})
  /\ forall (numeric : utf16 -> option Q) (validate : Product.ctx -> option string)
            (stamp : Product.ctx -> Z) (now id : string)
            (is_uuid_v4 : string -> bool) (table : gmap string Product.t)
            (q : Q) (req_body : Validation.body),
       quantity_is numeric req_body q ->
       (q == inject_Z quantity)%Q ->
       (- Validation.MAX_SAFE_INTEGER <= quantity)%Z ->
       is_uuid_v4 id = true ->
       Routes.stock_route now is_uuid_v4 numeric validate stamp id req_body table
       = (Rejected 400 "Errores de validación en operación de stock"
            [{| field := "quantity";
                detail_message := Configured non_positive_quantity;
                value := JNumber q |}],
          table).
Proof.
  intros _ Hq Hs. split; [| split].
  - apply helper_rejects_non_positive; [exact Hq | exact Hs].
  - intros stock Hstock. apply helper_rejects_non_positive; [exact Hq | intros _; lia].
  - intros numeric validate stamp now id is_uuid_v4 table q req_body Hbody Heq Hsafe Hid.
    unfold Routes.stock_route, Routes.validateUUID. rewrite Hid.
    unfold Validation.validateStockOperation, Validation.check_quantity.
    destruct Hbody as [-> | (s & -> & ->)];
      rewrite (check_number_non_positive q quantity Heq (conj Hsafe Hq));
      reflexivity.
Qed.

Lemma non_positive_quantity_is_rejected_witness :
  Helpers.validateStockOperation 4 "subtract" (-2)
  = Throw {| Eff.message := non_positive_quantity |}
  /\ Routes.stock_route "2024-01-01T00:00:00.000Z" (fun _ => true) (fun _ => None)
       (fun _ => None) (fun _ => 0%Z) "p1"
       {| Validation.quantity := JNumber (-2 # 1);
          Validation.operation := JString (units "subtract");
          Validation.reason := JUndefined;
          Validation.unknown := [("note", JBoolean true)] |} ∅
     = (Rejected 400 "Errores de validación en operación de stock"
          [{| field := "quantity";
              detail_message := Configured non_positive_quantity;
              value := JNumber (-2 # 1) |}],
        ∅).
Proof.
  assert (Hop : "subtract" ∈ ["add"; "subtract"]) by (repeat constructor).
  destruct (non_positive_quantity_is_rejected 4 (-2) "subtract" Hop) as (H1 & _ & H2);
    [lia | intros _; lia |].
  split; [exact H1 |].
  apply H2; [left; reflexivity | reflexivity | vm_compute; discriminate | reflexivity].
Defined.

(** Without the conditions on the stock and on the quantity the quantity
    error is not the answer: on a negative stock the helper answers a
    [subtract] of -1 with the stock error, and the middleware answers a
    quantity of -3/2 with the integer error and a quantity of -2^53 with the
    error of the safe range. *)
Lemma quantity_error_is_not_always_first :
  let request (q : Q) :=
    {| Validation.quantity := JNumber q;
       Validation.operation := JString (units "subtract");
       Validation.reason := JUndefined;
       Validation.unknown := [] |} in
  let route (q : Q) :=
    Routes.stock_route "2024-01-01T00:00:00.000Z" (fun _ => true) (fun _ => None)
      (fun _ => None) (fun _ => 0%Z) "p1" (request q) ∅ in
  let rejected (t : text) (q : Q) : reply Routes.stockData * gmap string Product.t :=
    (Rejected 400 "Errores de validación en operación de stock"
       [{| field := "quantity"; detail_message := t; value := JNumber q |}], ∅) in
  Helpers.validateStockOperation (-5) "subtract" (-1)
  = Throw {| Eff.message :=
               "Stock insuficiente. Stock actual: -5, cantidad solicitada: -1" |}
  /\ Helpers.validateStockOperation (-5) "subtract" (-1)
     <> Throw {| Eff.message := non_positive_quantity |}
  /\ route (-3 # 2) = rejected (Configured "La cantidad debe ser un número entero") (-3 # 2)
  /\ route (-3 # 2) <> rejected (Configured non_positive_quantity) (-3 # 2)
  /\ route (-9007199254740992 # 1) = rejected (Default "number.unsafe") (-9007199254740992 # 1)
  /\ route (-9007199254740992 # 1)
     <> rejected (Configured non_positive_quantity) (-9007199254740992 # 1).
Proof.
  cbv zeta. repeat split; try reflexivity; vm_compute; discriminate.
Qed.

End StockValidation.

(** ** The stock operation: the mutation *)
Section StockMutation.
Import Spec.

Variable validate : Product.ctx -> option string.
Variable stamp : Product.ctx -> Z.

(** The instance with another stock, before it is saved. *)
Lemma updateStock_subtract (quantity : Z) (c : Product.ctx) :
  Product.updateStock validate stamp quantity "subtract" c
  = if Z.ltb (Product.stock (Product.this c)) quantity
    then (Throw {| Eff.message := insufficient_stock |}, c)
    else Product.save validate stamp
           (with_stock (Product.stock (Product.this c) - quantity) c).
Proof.
  unfold Product.updateStock, bind, get, throw, Product.assign_stock, modify; simpl.
  destruct (Z.ltb (Product.stock (Product.this c)) quantity); reflexivity.
Qed.

(** What [updateStock] does on [add]. *)
Lemma updateStock_add (quantity : Z) (c : Product.ctx) :
  Product.updateStock validate stamp quantity "add" c
  = Product.save validate stamp
      (with_stock (Product.stock (Product.this c) + quantity) c).
Proof. reflexivity. Qed.

(** Another operation goes straight to [save]. *)
Lemma updateStock_other (quantity : Z) (operation : string) (c : Product.ctx) :
  operation <> "subtract" -> operation <> "add" ->
  Product.updateStock validate stamp quantity operation c
  = Product.save validate stamp c.
Proof.
  intros H1 H2. unfold Product.updateStock.
  apply String.eqb_neq in H1, H2. rewrite H1, H2.
  unfold bind, ret. destruct c; reflexivity.
Qed.

(** What [save] does. *)
Lemma save_refused (c : Product.ctx) (m : string) :
  validate c = Some m ->
  Product.save validate stamp c = (Throw {| Eff.message := m |}, c).
Proof. intros H. unfold Product.save. rewrite H. reflexivity. Qed.

Lemma save_accepted (c : Product.ctx) :
  validate c = None ->
  Product.save validate stamp c
  = (Ok (saved stamp c),
     {| Product.this := saved stamp c;
        Product.table := <[Product.id (Product.this c) := saved stamp c]>
                           (Product.table c) |}).
Proof. intros H. unfold Product.save. rewrite H. reflexivity. Qed.

(** The error of a failed [subtract] is the same whatever the stock and the
    quantity are. *)
Lemma insufficient_stock_is_constant (quantity : Z) (c : Product.ctx) :
  (Product.stock (Product.this c) < quantity)%Z ->
  Product.updateStock validate stamp quantity "subtract" c
  = (Throw {| Eff.message := insufficient_stock |}, c).
Proof.
  intros H. rewrite updateStock_subtract.
  apply Z.ltb_lt in H. rewrite H. reflexivity.
Qed.

(** C3. Subtracting 7 from a stock of 5 and subtracting 9 from a stock of 2
    raise the very same error, on the model and in the reply of the route,
    and leave the table as it was: the error tells neither the current stock
    nor the requested quantity.  The helper does put both numbers into its
    message. *)
Theorem insufficient_stock_error_omits_numbers :
  let five := {| Product.this := widget; Product.table := table_of widget |} in
  let two := {| Product.this := Product.set_stock 2 widget;
                Product.table := table_of (Product.set_stock 2 widget) |} in
  let subtract (n : Z) :=
    {| Validation.v_quantity := n; Validation.v_operation := "subtract";
       Validation.v_reason := Undefined |} in
  Product.updateStock validate stamp 7 "subtract" five
  = (Throw {| Eff.message := "Stock insuficiente" |}, five)
  /\ Product.updateStock validate stamp 9 "subtract" two
     = (Throw {| Eff.message := "Stock insuficiente" |}, two)
  /\ Routes.stock_handler "t" validate stamp (Product.id widget) (subtract 7%Z)
       (table_of widget)
     = (Raised (createError "Stock insuficiente" 400), table_of widget)
  /\ fst (Routes.stock_handler "t" validate stamp (Product.id widget) (subtract 9%Z)
            (table_of (Product.set_stock 2 widget)))
     = Raised (createError "Stock insuficiente" 400)
  /\ Helpers.validateStockOperation 5 "subtract" 7
     = Throw {| Eff.message :=
                  "Stock insuficiente. Stock actual: 5, cantidad solicitada: 7" |}.
Proof.
  repeat split; reflexivity.
Qed.

End StockMutation.

(** ** The response formatter *)
Section Formatter.
Import Spec.

(** A product always formats to an object. *)
Lemma formatProductResponse_val (p : Product.t) :
  exists f, Helpers.formatProductResponse (Val p) = Val f.
Proof. eexists. reflexivity. Qed.

(** The derived fields, as the code computes them: the threshold of
    [needs_restock] is [min_stock] when that is a number other than 0, and 5
    when it is unset or 0. *)
Lemma derived_fields (p : Product.t) (f : Formatted.t) :
  Helpers.formatProductResponse (Val p) = Val f ->
  (Formatted.needs_restock f = true
   <-> (Product.stock p <= or_else (Product.min_stock p) 5)%Z)
  /\ (Formatted.is_out_of_stock f = true <-> Product.stock p = 0%Z)
  /\ (Formatted.stock_value f == Product.price p * inject_Z (Product.stock p))%Q.
Proof.
  intros H. injection H as <-. simpl. split; [| split].
  - apply Z.leb_le.
  - apply Z.eqb_eq.
  - reflexivity.
Qed.

Lemma threshold_configured (p : Product.t) (m : Z) :
  Product.min_stock p = Val m -> m <> 0%Z -> or_else (Product.min_stock p) 5%Z = m.
Proof.
  intros -> Hm. unfold or_else, to_boolean, Z_ToBoolean.
  destruct (Z.eqb_spec m 0); [contradiction | reflexivity].
Qed.

Lemma threshold_default (p : Product.t) :
  Product.min_stock p = Undefined \/ Product.min_stock p = Null
  \/ Product.min_stock p = Val 0%Z ->
  or_else (Product.min_stock p) 5%Z = 5%Z.
Proof. intros [-> | [-> | ->]]; reflexivity. Qed.

(** C4. A product with 3 in stock and a threshold of 0 is reported as
    needing a restock although 3 is above the threshold: a [min_stock] of 0
    is taken for an unset one and replaced by 5.  The other two derived
    fields are as stated. *)
Theorem zero_min_stock_needs_restock :
  let p := with_min_stock (Val 0%Z) (Product.set_stock 3 widget) in
  exists f,
    Helpers.formatProductResponse (Val p) = Val f
    /\ Product.min_stock p = Val 0%Z
    /\ Product.stock p = 3%Z
    /\ Formatted.needs_restock f = true
    /\ ~ (Product.stock p <= 0)%Z
    /\ Formatted.is_out_of_stock f = false
    /\ (Formatted.stock_value f == (999 # 100) * 3)%Q.
Proof.
  intros p. eexists. split; [reflexivity |].
  repeat split; try reflexivity. simpl. lia.
Qed.

(** Without stock a product is low on stock when its threshold is valid. *)
Lemma out_of_stock_is_low (p : Product.t) :
  min_stock_valid p -> Product.stock p = 0%Z -> Helpers.low p = true.
Proof.
  unfold min_stock_valid, Helpers.low, or_else, to_boolean, Z_ToBoolean.
  intros Hm ->. apply Z.leb_le.
  destruct (Product.min_stock p) as [| | m]; simpl in *; try lia.
  destruct (Z.eqb m 0); simpl; lia.
Qed.

(** The formatter reads a cost that is unset or zero as [null], and hands
    any other cost on. *)
Lemma formatted_cost (p : Product.t) (f : Formatted.t) :
  Helpers.formatProductResponse (Val p) = Val f ->
  (no_cost (Product.cost p) -> Formatted.cost f = Null)
  /\ (forall c, Product.cost p = Val c -> ~ (c == 0)%Q -> Formatted.cost f = Val c).
Proof.
  intros H. injection H as <-. simpl. unfold no_cost, to_boolean, Q_ToBoolean.
  split.
  - destruct (Product.cost p) as [| | c]; try reflexivity.
    intros Hc. apply Qeq_bool_iff in Hc. rewrite Hc. reflexivity.
  - intros c -> Hc. destruct (Qeq_bool c 0) eqn:E; [| reflexivity].
    apply Qeq_bool_iff in E. contradiction.
Qed.

(** The getter of the model turns an unset cost into 0. *)
Lemma get_decimal_no_cost (c : nullable Q) :
  no_cost c -> (Product.get_decimal c == 0)%Q.
Proof.
  unfold no_cost, Product.get_decimal, to_boolean, Q_ToBoolean.
  destruct c as [| | c]; try reflexivity.
  intros Hc. destruct (Qeq_bool c 0); [reflexivity | exact Hc].
Qed.

(** C10. A stored cost that is null, absent or 0 is sent as [null], on a
    plain record and on an instance read through its getters alike; any other
    cost is sent as that number.  The reply for a cost of 0 is the reply for
    no cost at all. *)
Theorem zero_cost_is_sent_as_null (p : Product.t) :
  no_cost (Product.cost p) ->
  (exists f, Helpers.formatProductResponse (Val p) = Val f
             /\ Formatted.cost f = Null)
  /\ (exists f, Helpers.formatProductResponse (Val (Product.instance p)) = Val f
                /\ Formatted.cost f = Null)
  /\ Helpers.formatProductResponse (Val p)
     = Helpers.formatProductResponse (Val (with_cost Null p))
  /\ (forall (c : Q) (f : Formatted.t),
        ~ (c == 0)%Q ->
        Helpers.formatProductResponse (Val (with_cost (Val c) p)) = Val f ->
        Formatted.cost f = Val c).
Proof.
  intros Hc.
  assert (Hp : forall f, Helpers.formatProductResponse (Val p) = Val f ->
                         Formatted.cost f = Null).
  { intros f Hf. apply (formatted_cost p f Hf), Hc. }
  split; [| split; [| split]].
  - eexists. split; [reflexivity |]. apply Hp. reflexivity.
  - eexists. split; [reflexivity |].
    refine (proj1 (formatted_cost (Product.instance p) _ eq_refl) _).
    simpl. apply get_decimal_no_cost, Hc.
  - specialize (Hp _ eq_refl). simpl in Hp. simpl. f_equal.
    rewrite Hp. reflexivity.
  - intros c f Hne Hf.
    apply (proj2 (formatted_cost (with_cost (Val c) p) f Hf) c); [reflexivity | exact Hne].
Qed.

Lemma zero_cost_is_sent_as_null_witness :
  let p := with_cost (Val (0 # 1)) widget in
  (exists f, Helpers.formatProductResponse (Val p) = Val f
             /\ Formatted.cost f = Null)
  /\ (exists f, Helpers.formatProductResponse (Val (Product.instance p)) = Val f
                /\ Formatted.cost f = Null)
  /\ Helpers.formatProductResponse (Val p)
     = Helpers.formatProductResponse (Val (with_cost Null p))
  /\ (forall (c : Q) (f : Formatted.t),
        ~ (c == 0)%Q ->
        Helpers.formatProductResponse (Val (with_cost (Val c) p)) = Val f ->
        Formatted.cost f = Val c).
Proof.
  intros p. apply (zero_cost_is_sent_as_null p). reflexivity.
Defined.

End Formatter.

(** ** Pagination *)
Section Paging.

(** [Math.ceil(total / limit)] is the least number of pages of [limit] items
    that hold [total] items. *)
Lemma total_pages_bounds (total limit : Z) :
  (0 < limit)%Z ->
  let pages := Math_ceil (inject_Z total / inject_Z limit) in
  ((pages - 1) * limit < total <= pages * limit)%Z.
Proof.
  intros Hl pages.
  assert (HlQ : (0 < inject_Z limit)%Q).
  { change 0%Q with (inject_Z 0). rewrite <- Zlt_Qlt. exact Hl. }
  assert (Hne : ~ (inject_Z limit == 0)%Q).
  { intros E. rewrite E in HlQ. apply (Qlt_irrefl 0), HlQ. }
  pose proof (Qle_ceiling (inject_Z total / inject_Z limit)) as Hup.
  pose proof (Qceiling_lt (inject_Z total / inject_Z limit)) as Hlow.
  fold (Math_ceil (inject_Z total / inject_Z limit)) in Hup, Hlow.
  fold pages in Hup, Hlow.
  split.
  - rewrite Zlt_Qlt, inject_Z_mult.
    apply (Qmult_lt_r _ _ (inject_Z limit) HlQ) in Hlow.
    rewrite (Qmult_comm (inject_Z total / inject_Z limit)) in Hlow.
    rewrite Qmult_div_r in Hlow by exact Hne. exact Hlow.
  - rewrite Zle_Qle, inject_Z_mult.
    apply (Qmult_le_r _ _ (inject_Z limit) HlQ) in Hup.
    rewrite (Qmult_comm (inject_Z total / inject_Z limit)) in Hup.
    rewrite Qmult_div_r in Hup by exact Hne. exact Hup.
Qed.

Lemma total_pages_div (total limit : Z) :
  (0 < limit)%Z ->
  Math_ceil (inject_Z total / inject_Z limit) = ((total + limit - 1) / limit)%Z.
Proof.
  intros Hl. pose proof (total_pages_bounds total limit Hl) as [Hlo Hhi].
  set (pages := Math_ceil (inject_Z total / inject_Z limit)) in *.
  apply (Z.div_unique _ _ pages (total + limit - 1 - limit * pages)); lia.
Qed.

(** C5. The pagination block for page [p], limit [l] and [n] items: the
    number of pages is the ceiling of [n / l], the page, limit and total are
    handed on, there is a next page exactly when [p] is below the number of
    pages and a previous one exactly when [p] is above 1, [next_page] and
    [prev_page] are [p + 1] and [p - 1] then and [null] otherwise; the
    listing reads its rows from offset [(p - 1) * l]. *)
Theorem pagination_metadata (p l n : Z) :
  (1 <= p)%Z -> (1 <= l)%Z -> (0 <= n)%Z ->
  let m := Meta.pagination (Helpers.createPaginationMeta p l n) in
  let pages := Pagination.total_pages m in
  ((pages - 1) * l < n <= pages * l)%Z
  /\ pages = ((n + l - 1) / l)%Z
  /\ Pagination.current_page m = p
  /\ Pagination.per_page m = l
  /\ Pagination.total_items m = n
  /\ (Pagination.has_next_page m = true <-> (p < pages)%Z)
  /\ (Pagination.has_prev_page m = true <-> (p > 1)%Z)
  /\ Pagination.next_page m = (if decide (p < pages)%Z then Val (p + 1)%Z else Null)
  /\ Pagination.prev_page m = (if decide (p > 1)%Z then Val (p - 1)%Z else Null)
  /\ (forall (upperCase : string -> string) (q : Routes.listQuery),
        Routes.page q = p -> Routes.limit q = l ->
        Routes.o_offset (Routes.listOptions upperCase q) = Val ((p - 1) * l)%Z
        /\ Routes.o_limit (Routes.listOptions upperCase q) = Val l).
Proof.
  intros Hp Hl Hn m pages.
  assert (Hpos : (0 < l)%Z) by lia.
  subst m pages. simpl.
  split; [apply total_pages_bounds, Hpos |].
  split; [apply total_pages_div, Hpos |].
  do 3 (split; [reflexivity |]).
  split; [apply Z.ltb_lt |].
  split; [rewrite Z.gtb_ltb; rewrite Z.ltb_lt; lia |].
  split.
  { destruct (Z.ltb_spec p (Math_ceil (inject_Z n / inject_Z l)));
      case_decide; try reflexivity; lia. }
  split.
  { rewrite Z.gtb_ltb. destruct (Z.ltb_spec 1 p); case_decide; try reflexivity; lia. }
  intros upperCase q <- <-. split; reflexivity.
Qed.

Lemma pagination_metadata_witness :
  let m := Meta.pagination (Helpers.createPaginationMeta 2 10 25) in
  Pagination.total_pages m = 3%Z
  /\ Pagination.has_next_page m = true
  /\ Pagination.next_page m = Val 3%Z
  /\ Pagination.prev_page m = Val 1%Z.
Proof.
  intros m.
  destruct (pagination_metadata 2 10 25) as (_ & Hpages & _ & _ & _ & Hn & _ & Hnp & Hpp & _);
    [lia | lia | lia |].
  fold m in Hpages, Hn, Hnp, Hpp.
  split; [rewrite Hpages; reflexivity |].
  split; [reflexivity |].
  split; [rewrite Hnp | rewrite Hpp]; reflexivity.
Defined.

End Paging.

(** ** The stable sort *)
Section SortFacts.
Context {A : Type}.
Variable after : A -> A -> bool.

Lemma insert_by_perm (x : A) (l : list A) : insert_by after x l ≡ₚ x :: l.
Proof.
  induction l as [| y l IH]; simpl; [reflexivity |].
  destruct (after x y); [| reflexivity].
  rewrite IH. apply Permutation_swap.
Qed.

Lemma sort_by_perm (l : list A) : sort_by after l ≡ₚ l.
Proof.
  induction l as [| x l IH]; simpl; [reflexivity |].
  rewrite insert_by_perm. constructor. exact IH.
Qed.

(** The sort orders its input along any transitive relation [R] that agrees
    with [after]. *)
Variable R : A -> A -> Prop.
Hypothesis R_trans : forall x y z, R x y -> R y z -> R x z.
Hypothesis R_before : forall x y, after x y = false -> R x y.
Hypothesis R_after : forall x y, after x y = true -> R y x.

Lemma insert_by_sorted (x : A) (l : list A) :
  StronglySorted R l -> StronglySorted R (insert_by after x l).
Proof.
  induction 1 as [| y l Hs IH Hy]; simpl.
  - constructor; constructor.
  - destruct (after x y) eqn:E.
    + constructor; [exact IH |].
      rewrite insert_by_perm. constructor; [apply R_after, E | exact Hy].
    + constructor; [constructor; assumption |].
      constructor; [apply R_before, E |].
      eapply Forall_impl; [exact Hy |].
      intros z Hz. eapply R_trans; [apply R_before, E | exact Hz].
Qed.

Lemma sort_by_sorted (l : list A) : StronglySorted R (sort_by after l).
Proof.
  induction l as [| x l IH]; simpl; [constructor |].
  apply insert_by_sorted, IH.
Qed.

End SortFacts.

(** ** The aggregate calculator *)
Section Aggregates.
Import Spec.

Abbreviation acc := (Stats.t (gset string)).

Lemma fold_visit_total_products (products : list Product.t) (s : acc) :
  Stats.total_products (fold_left Helpers.visit products s) = Stats.total_products s.
Proof.
  revert s. induction products as [| p ps IH]; intros s; simpl; [reflexivity |].
  rewrite IH. reflexivity.
Qed.

Lemma fold_visit_total_value (products : list Product.t) (s : acc) :
  (Stats.total_value (fold_left Helpers.visit products s)
   == Stats.total_value s + sum_values products)%Q.
Proof.
  revert s. induction products as [| p ps IH]; intros s; simpl.
  - ring.
  - rewrite IH. simpl. fold (sum_values ps). ring.
Qed.

Lemma fold_visit_low_stock (products : list Product.t) (s : acc) :
  Stats.low_stock_count (fold_left Helpers.visit products s)
  = (Stats.low_stock_count s + count low_stock products)%Z.
Proof.
  unfold count. revert s.
  induction products as [| p ps IH]; intros s; simpl; [lia |].
  rewrite IH. simpl. rewrite filter_cons. unfold Helpers.low, low_stock.
  destruct (Z.leb_spec (Product.stock p) (or_else (Product.min_stock p) 5%Z));
    case_decide; simpl; lia.
Qed.

Lemma fold_visit_out_of_stock (products : list Product.t) (s : acc) :
  Stats.out_of_stock_count (fold_left Helpers.visit products s)
  = (Stats.out_of_stock_count s + count out_of_stock products)%Z.
Proof.
  unfold count. revert s.
  induction products as [| p ps IH]; intros s; simpl; [lia |].
  rewrite IH. simpl. rewrite filter_cons. unfold out_of_stock.
  destruct (Z.eqb_spec (Product.stock p) 0); case_decide; simpl; lia.
Qed.

Lemma fold_visit_categories (products : list Product.t) (s : acc) :
  Stats.categories (fold_left Helpers.visit products s)
  = list_to_set (named Product.category products) ∪ Stats.categories s.
Proof.
  revert s. induction products as [| p ps IH]; intros s; simpl.
  - rewrite (left_id_L ∅ (∪)). reflexivity.
  - rewrite IH. simpl. unfold named; simpl. fold (named Product.category ps).
    destruct (Product.category p) as [| | c]; simpl; try reflexivity.
    destruct c; simpl; [reflexivity |].
    rewrite (assoc_L (∪)), (comm_L (∪) (list_to_set _) {[ _ ]}). reflexivity.
Qed.

Lemma fold_visit_brands (products : list Product.t) (s : acc) :
  Stats.brands (fold_left Helpers.visit products s)
  = list_to_set (named Product.brand products) ∪ Stats.brands s.
Proof.
  revert s. induction products as [| p ps IH]; intros s; simpl.
  - rewrite (left_id_L ∅ (∪)). reflexivity.
  - rewrite IH. simpl. unfold named; simpl. fold (named Product.brand ps).
    destruct (Product.brand p) as [| | c]; simpl; try reflexivity.
    destruct c; simpl; [reflexivity |].
    rewrite (assoc_L (∪)), (comm_L (∪) (list_to_set _) {[ _ ]}). reflexivity.
Qed.

(** The size of the set of the values of a list is the number of its
    distinct values. *)
Lemma size_of_values (l : list string) :
  Z.of_nat (size (list_to_set l ∪ (∅ : gset string))) = distinct l.
Proof.
  unfold distinct. f_equal.
  rewrite <- (size_list_to_set (C := gset string) (remove_dups l))
    by apply NoDup_remove_dups.
  f_equal. rewrite (right_id_L ∅ (∪)). apply set_eq. intros x.
  rewrite !elem_of_list_to_set, elem_of_remove_dups. reflexivity.
Qed.

(** Rounding to two decimals gives the nearest hundredth, halves going up. *)
Lemma round2_nearest (x : Q) :
  exists k : Z,
    (round2 x == inject_Z k / 100)%Q
    /\ (inject_Z k - (1 # 2) <= x * 100)%Q
    /\ (x * 100 < inject_Z k + (1 # 2))%Q.
Proof.
  exists (Qfloor (x * 100 + (1 # 2))). split; [reflexivity |].
  pose proof (Qfloor_le (x * 100 + (1 # 2))) as Hle.
  pose proof (Qlt_floor (x * 100 + (1 # 2))) as Hlt.
  rewrite inject_Z_plus in Hlt. change (inject_Z 1) with 1%Q in Hlt.
  split; lra.
Qed.

(** The statistics of a collection that is not empty. *)
Lemma stats_of_collection (products : list Product.t) :
  let s := Helpers.calculateInventoryStats products in
  Stats.total_products s = Z.of_nat (length products)
  /\ (Stats.total_value s == round2 (sum_values products))%Q
  /\ Stats.low_stock_count s = count low_stock products
  /\ Stats.out_of_stock_count s = count out_of_stock products
  /\ Stats.categories s = distinct (named Product.category products)
  /\ Stats.brands s = distinct (named Product.brand products).
Proof.
  unfold Helpers.calculateInventoryStats.
  destruct products as [| p ps].
  - simpl. repeat split; reflexivity.
  - remember (p :: ps) as products eqn:E.
    replace (Nat.eqb (length products) 0) with false by (rewrite E; reflexivity).
    cbv zeta. cbn [Stats.total_products Stats.total_value Stats.low_stock_count
                     Stats.out_of_stock_count Stats.categories Stats.brands].
    rewrite fold_visit_total_products, fold_visit_low_stock,
      fold_visit_out_of_stock, fold_visit_categories, fold_visit_brands.
    cbn [Stats.total_products Stats.total_value Stats.low_stock_count
           Stats.out_of_stock_count Stats.categories Stats.brands].
    split; [reflexivity |].
    split.
    { unfold round2, Math_round. rewrite fold_visit_total_value.
      cbn [Stats.total_value]. rewrite Qplus_0_l. reflexivity. }
    split; [lia |]. split; [lia |].
    split; apply size_of_values.
Qed.

(** The statistics of a collection as the code computes them: the total
    value is the sum of price times stock rounded to the nearest hundredth,
    the two counters count the products with stock at most [min_stock || 5]
    and with stock 0, and categories and brands are the numbers of distinct
    non-empty values; on the empty collection every field is 0. *)
Lemma inventory_stats (products : list Product.t) :
  let s := Helpers.calculateInventoryStats products in
  (Stats.total_value s == round2 (sum_values products))%Q
  /\ (exists k : Z,
        (Stats.total_value s == inject_Z k / 100)%Q
        /\ (inject_Z k - (1 # 2) <= sum_values products * 100)%Q
        /\ (sum_values products * 100 < inject_Z k + (1 # 2))%Q)
  /\ Stats.low_stock_count s = count low_stock products
  /\ Stats.out_of_stock_count s = count out_of_stock products
  /\ Stats.categories s = distinct (named Product.category products)
  /\ Stats.brands s = distinct (named Product.brand products)
  /\ Stats.total_products s = Z.of_nat (length products)
  /\ Helpers.calculateInventoryStats []
     = {| Stats.total_products := 0; Stats.total_value := 0;
          Stats.low_stock_count := 0; Stats.out_of_stock_count := 0;
          Stats.categories := 0%Z; Stats.brands := 0%Z |}.
Proof.
  intros s.
  destruct (stats_of_collection products) as (Hn & Hv & Hl & Ho & Hc & Hb).
  fold s in Hn, Hv, Hl, Ho, Hc, Hb.
  split; [exact Hv |].
  split.
  { destruct (round2_nearest (sum_values products)) as (k & Hk & Hlo & Hhi).
    exists k. split; [rewrite Hv; exact Hk | split; assumption]. }
  repeat (split; [assumption |]). reflexivity.
Qed.

(** A product is low on stock for the code when it is at or below its
    threshold, and also when its threshold is 0 and it has 1 to 5 in stock. *)
Lemma low_stock_cases (p : Product.t) :
  low_stock p <-> needs_restock p \/ in_stock_above_zero_threshold p.
Proof.
  unfold low_stock, needs_restock, restock_threshold, in_stock_above_zero_threshold,
    or_else, to_boolean, Z_ToBoolean.
  destruct (Product.min_stock p) as [| | m].
  - split; [intros H; left; exact H | intros [H | [H _]]; [exact H | discriminate H]].
  - split; [intros H; left; exact H | intros [H | [H _]]; [exact H | discriminate H]].
  - destruct (Z.eqb_spec m 0) as [-> | Hm]; simpl.
    + split.
      * intros H. destruct (decide (Product.stock p <= 0)%Z); [left; assumption |].
        right. split; [reflexivity | lia].
      * intros [H | [_ H]]; lia.
    + split; [intros H; left; exact H |].
      intros [H | [H _]]; [exact H | injection H as H; contradiction].
Qed.

Lemma low_stock_count_split (products : list Product.t) :
  count low_stock products
  = (count needs_restock products + count in_stock_above_zero_threshold products)%Z.
Proof.
  unfold count. induction products as [| p ps IH]; [reflexivity |].
  rewrite !filter_cons.
  pose proof (low_stock_cases p) as Hp.
  assert (Hx : needs_restock p -> in_stock_above_zero_threshold p -> False).
  { unfold needs_restock, restock_threshold, in_stock_above_zero_threshold.
    intros H1 [H2 H3]. rewrite H2 in H1. lia. }
  destruct (decide (low_stock p)) as [Hl | Hl];
    destruct (decide (needs_restock p)) as [Hn | Hn];
    destruct (decide (in_stock_above_zero_threshold p)) as [Hz | Hz];
    simpl length; try tauto; lia.
Qed.

(** C8. The collection of one product with 3 in stock and a threshold of 0
    has a low-stock count of 1 although 3 is above the threshold: like the
    formatter, the calculator takes a [min_stock] of 0 for an unset one and
    counts against 5.  Over any collection the count is the number of
    products at or below their threshold (5 when unset) plus the number of
    products with threshold 0 and 1 to 5 in stock. *)
Theorem zero_min_stock_counts_as_low :
  let p := with_min_stock (Val 0%Z) (Product.set_stock 3 widget) in
  let s := Helpers.calculateInventoryStats [p] in
  Product.min_stock p = Val 0%Z
  /\ Product.stock p = 3%Z
  /\ ~ needs_restock p
  /\ Stats.low_stock_count s = 1%Z
  /\ count needs_restock [p] = 0%Z
  /\ Stats.out_of_stock_count s = 0%Z
  /\ (forall products,
        Stats.low_stock_count (Helpers.calculateInventoryStats products)
        = (count needs_restock products
           + count in_stock_above_zero_threshold products)%Z).
Proof.
  intros p s.
  split; [reflexivity |]. split; [reflexivity |].
  split; [unfold needs_restock, restock_threshold; subst p; simpl; lia |].
  split; [reflexivity |]. split; [reflexivity |]. split; [reflexivity |].
  intros products.
  destruct (stats_of_collection products) as (_ & _ & Hl & _).
  rewrite Hl. apply low_stock_count_split.
Qed.

(** C9. A product without stock needs a restock when its threshold is unset
    or not negative; hence over a collection of such products the calculator
    counts at least as many products low on stock as out of stock. *)
Theorem out_of_stock_counts_as_low :
  (forall (p : Product.t) (f : Formatted.t),
     min_stock_valid p ->
     Helpers.formatProductResponse (Val p) = Val f ->
     Formatted.is_out_of_stock f = true -> Formatted.needs_restock f = true)
  /\ (forall products : list Product.t,
        Forall min_stock_valid products ->
        (Stats.out_of_stock_count (Helpers.calculateInventoryStats products)
         <= Stats.low_stock_count (Helpers.calculateInventoryStats products))%Z).
Proof.
  split.
  - intros p f Hm Hf Ho. injection Hf as <-. simpl in *.
    apply Z.eqb_eq in Ho. apply (out_of_stock_is_low p Hm Ho).
  - intros products Hall.
    destruct (stats_of_collection products) as (_ & _ & Hl & Ho & _).
    rewrite Hl, Ho. clear Hl Ho. unfold count. apply inj_le.
    induction Hall as [| p ps Hp _ IH]; [reflexivity |].
    rewrite !filter_cons.
    destruct (decide (out_of_stock p)) as [H0 | H0];
      destruct (decide (low_stock p)) as [H1 | H1]; simpl; try lia.
    exfalso. apply H1. apply Z.leb_le, (out_of_stock_is_low p Hp H0).
Qed.

Lemma out_of_stock_counts_as_low_witness :
  (forall f : Formatted.t,
     Helpers.formatProductResponse (Val (Product.set_stock 0 widget)) = Val f ->
     Formatted.is_out_of_stock f = true -> Formatted.needs_restock f = true)
  /\ (Stats.out_of_stock_count
        (Helpers.calculateInventoryStats
           [Product.set_stock 0 widget; widget; with_min_stock Null widget])
      <= Stats.low_stock_count
           (Helpers.calculateInventoryStats
              [Product.set_stock 0 widget; widget; with_min_stock Null widget]))%Z.
Proof.
  destruct out_of_stock_counts_as_low as [H1 H2]. split.
  - intros f. apply (H1 (Product.set_stock 0 widget) f).
    unfold min_stock_valid; simpl; lia.
  - apply H2.
    repeat constructor; unfold min_stock_valid; simpl; first [exact I | lia].
Defined.

End Aggregates.

(** ** Reports *)
Section Reports.
Import Spec.

Lemma Qgtb_lt (a b : Q) : Qgtb a b = true <-> (b < a)%Q.
Proof.
  unfold Qgtb. rewrite negb_true_iff. split; intros H.
  - apply Qnot_le_lt. intros Hle. apply Qle_bool_iff in Hle. congruence.
  - destruct (Qle_bool a b) eqn:E; [| reflexivity].
    apply Qle_bool_iff in E. exfalso. apply (Qlt_not_le _ _ H E).
Qed.

Lemma Qgtb_le (a b : Q) : Qgtb a b = false -> (a <= b)%Q.
Proof.
  unfold Qgtb. rewrite negb_false_iff. apply Qle_bool_iff.
Qed.



End Reports.

(** ** The search *)
Section Search.
Import Spec.
Variable ilike : string -> string -> bool.
Variable before : Sql.value -> Sql.value -> bool.

(** The test of the handler on a text that is present. *)
Lemma short_test (text : utf16) :
  is_empty text || Nat.ltb (length (trim text)) 2 = true
  <-> length (trim text) < 2.
Proof.
  rewrite orb_true_iff, Nat.ltb_lt. split; [| auto].
  intros [H | H]; [| exact H].
  destruct text; [simpl; lia | discriminate H].
Qed.

(** A row of the table is stored under some identifier. *)
Lemma rows_stored (table : gmap string Product.t) (r : Product.t) :
  r ∈ Routes.rows table <-> exists id, table !! id = Some r.
Proof.
  unfold Routes.rows. rewrite list_elem_of_fmap. split.
  - intros ([id r'] & -> & Hin). exists id. apply elem_of_map_to_list, Hin.
  - intros [id Hid]. exists (id, r). split; [reflexivity |].
    apply elem_of_map_to_list, Hid.
Qed.

(** A condition [iLike] holds on a text column only. *)
Lemma eval_iLike (field pattern : string) (r : Product.t) :
  eval_cond Product.column ilike field (Op_iLike pattern) r = true ->
  exists s, Product.column field r = VStr s /\ ilike pattern s = true.
Proof.
  unfold eval_cond. destruct (Product.column field r); try discriminate.
  intros H. eauto.
Qed.

Lemma opt_str_text (x : nullable string) (s : string) :
  Product.opt_str x = VStr s -> x = Val s.
Proof. destruct x; simpl; congruence. Qed.

(** The rows the [where] object of the search selects. *)
Lemma search_where_sound (term : string) (r : Product.t) :
  eval_where Product.column ilike (Routes.o_where (Routes.searchOptions term)) r = true ->
  Product.is_active r = true /\ text_matches ilike term r.
Proof.
  unfold eval_where. intros H. apply bool_decide_eq_true in H.
  simpl in H. split.
  - assert (Ha := map_Forall_lookup_1 _ _ (Str "is_active") _ H (lookup_insert_eq _ _ _)).
    simpl in Ha. unfold eval_plain in Ha.
    change (Product.column "is_active" r) with (VBool (Product.is_active r)) in Ha.
    destruct (Product.is_active r); [reflexivity | discriminate Ha].
  - assert (Hl : (<[Str "is_active" := Plain (Val true)]>
                    {[ Op_or := Alternatives
                         [("name", Op_iLike ("%" +:+ term +:+ "%"));
                          ("sku", Op_iLike ("%" +:+ term +:+ "%"));
                          ("description", Op_iLike ("%" +:+ term +:+ "%"));
                          ("category", Op_iLike ("%" +:+ term +:+ "%"));
                          ("brand", Op_iLike ("%" +:+ term +:+ "%"))] ]}
                  : gmap key where_value) !! Op_or
                 = Some (Alternatives
                           [("name", Op_iLike ("%" +:+ term +:+ "%"));
                            ("sku", Op_iLike ("%" +:+ term +:+ "%"));
                            ("description", Op_iLike ("%" +:+ term +:+ "%"));
                            ("category", Op_iLike ("%" +:+ term +:+ "%"));
                            ("brand", Op_iLike ("%" +:+ term +:+ "%"))])).
    { rewrite lookup_insert_ne by discriminate. apply lookup_singleton_eq. }
    assert (Ho := map_Forall_lookup_1 _ _ _ _ H Hl).
    unfold eval_entry, Op_or in Ho.
    cbn [String.eqb Ascii.eqb Bool.eqb existsb fst snd] in Ho.
    rewrite !orb_true_iff in Ho. unfold text_matches.
    destruct Ho as [Ho | [Ho | [Ho | [Ho | [Ho | Ho]]]]];
      [| | | | | discriminate Ho];
      apply eval_iLike in Ho; destruct Ho as (s & Hs & Hm).
    + left. change (Product.column "name" r) with (VStr (Product.name r)) in Hs.
      congruence.
    + right; left.
      change (Product.column "sku" r) with (VStr (Product.sku r)) in Hs.
      congruence.
    + right; right; left. exists s. split; [| exact Hm].
      apply opt_str_text. exact Hs.
    + right; right; right; left. exists s. split; [| exact Hm].
      apply opt_str_text. exact Hs.
    + right; right; right; right. exists s. split; [| exact Hm].
      apply opt_str_text. exact Hs.
Qed.

(** What the query of the search returns. *)
Lemma search_rows (term : string) (table : gmap string Product.t) :
  let products := Routes.findAll ilike before (Routes.searchOptions term) table in
  length products <= 20
  /\ forall r, r ∈ products ->
       (exists id, table !! id = Some r)
       /\ Product.live r = true
       /\ Product.is_active r = true
       /\ text_matches ilike term r.
Proof.
  unfold Routes.findAll. cbn [Routes.o_offset Routes.o_limit Routes.o_order
                                Routes.searchOptions Routes.order_by].
  split.
  - rewrite length_take. change (Z.to_nat 20) with 20. lia.
  - intros r Hr. apply subseteq_take in Hr.
    rewrite sort_by_perm in Hr. unfold Routes.selected in Hr.
    apply list_elem_of_filter in Hr. destruct Hr as [Hsel Hrow].
    apply andb_true_iff in Hsel. destruct Hsel as [Hlive Hwhere].
    apply search_where_sound in Hwhere.
    split; [apply rows_stored, Hrow |]. split; [exact Hlive | exact Hwhere].
Qed.

(** C6. The search fails with the bad-request error (status 400) exactly
    when the text is missing or, once trimmed, has fewer than 2 characters
    (UTF-16 code units, as [length] counts them); otherwise it answers with
    at most 20 products, each of them a row of the table that is not
    deleted, is active and matches the trimmed text. *)
Theorem search_needs_two_characters
  (search : nullable utf16) (table : gmap string Product.t) :
  let reply := Routes.search_handler ilike before search table in
  ((exists e, reply = Raised e) <-> too_short search)
  /\ (too_short search ->
      reply = Raised (createError search_too_short_message 400)
      /\ statusCode (createError search_too_short_message 400) = 400%Z)
  /\ (forall text, search = Val text -> 2 <= length (trim text) ->
      exists products,
        reply = Replied 200
                  (createResponse true
                     ("Se encontraron " +:+ pretty (length (Product.instance <$> products))
                        +:+ " productos")
                     (Val (Helpers.formatProductsList (Product.instance <$> products)))
                     Null Null)
        /\ length (Helpers.formatProductsList (Product.instance <$> products)) <= 20
        /\ forall r, r ∈ products ->
             (exists id, table !! id = Some r)
             /\ Product.live r = true
             /\ Product.is_active r = true
             /\ text_matches ilike (utf8 (trim text)) r).
Proof.
  intros reply. subst reply. unfold Routes.search_handler.
  destruct search as [| | text]; simpl too_short.
  - split; [split; [trivial | eauto] |].
    split; [intros _; split; reflexivity | intros text H; discriminate H].
  - split; [split; [trivial | eauto] |].
    split; [intros _; split; reflexivity | intros text H; discriminate H].
  - destruct (is_empty text || Nat.ltb (length (trim text)) 2) eqn:E.
    + apply short_test in E.
      split; [split; [intros _; exact E | eauto] |].
      split; [intros _; split; reflexivity |].
      intros text' H Hlen. injection H as <-. lia.
    + assert (Hlong : ~ length (trim text) < 2).
      { intros H. apply short_test in H. congruence. }
      split; [split; [intros [e He]; discriminate He | intros H; contradiction] |].
      split; [intros H; contradiction |].
      intros text' H _. injection H as <-.
      destruct (search_rows (utf8 (trim text)) table) as [Hlen Hrows].
      eexists. split; [reflexivity |].
      split; [| exact Hrows].
      unfold Helpers.formatProductsList. rewrite length_map, length_fmap.
      exact Hlen.
Qed.

End Search.

Lemma search_needs_two_characters_witness :
  Routes.search_handler (fun _ _ => true) (fun _ _ => false) (Val (units " a "))
    (Spec.table_of Spec.widget)
  = Raised (createError Spec.search_too_short_message 400)
  /\ Routes.search_handler (fun _ _ => true) (fun _ _ => false)
       (Val [160; 241; 8195; 65279]%N) (Spec.table_of Spec.widget)
     = Raised (createError Spec.search_too_short_message 400)
  /\ exists products,
       Routes.search_handler (fun _ _ => true) (fun _ _ => false) (Val (units " wid "))
         (Spec.table_of Spec.widget)
       = Replied 200
           (createResponse true
              ("Se encontraron " +:+ pretty (length (Product.instance <$> products))
                 +:+ " productos")
              (Val (Helpers.formatProductsList (Product.instance <$> products)))
              Null Null)
       /\ length (Helpers.formatProductsList (Product.instance <$> products)) <= 20.
Proof.
  split; [| split].
  - apply (search_needs_two_characters (fun _ _ => true) (fun _ _ => false)
             (Val (units " a ")) (Spec.table_of Spec.widget)).
    simpl. lia.
  - apply (search_needs_two_characters (fun _ _ => true) (fun _ _ => false)
             (Val [160; 241; 8195; 65279]%N) (Spec.table_of Spec.widget)).
    simpl. lia.
  - destruct (search_needs_two_characters (fun _ _ => true) (fun _ _ => false)
                (Val (units " wid ")) (Spec.table_of Spec.widget)) as (_ & _ & H).
    destruct (H (units " wid ") eq_refl) as (products & Hr & Hl & _); [simpl; lia |].
    exists products. split; assumption.
Defined.
(** ** Strings *)
Section Strings.

(** A fact about every character, decided on the 256 of them. *)
Ltac all_ascii c := destruct c as [[] [] [] [] [] [] [] []]; try reflexivity; try discriminate.

Lemma upper_alnum (c : Ascii.ascii) : is_alnum c = true -> is_sku_char (upper c) = true.
Proof. all_ascii c. Qed.

Lemma digit_sku_char (c : Ascii.ascii) : is_digit c = true -> is_sku_char c = true.
Proof. all_ascii c. Qed.

Lemma length_take_chars (n : nat) (s : string) :
  String.length (take_chars n s) = Nat.min n (String.length s).
Proof.
  revert s. induction n as [| n IH]; intros [| c s]; simpl; try reflexivity.
  rewrite IH. reflexivity.
Qed.

Lemma length_append (s t : string) :
  String.length (s +:+ t) = String.length s + String.length t.
Proof. induction s as [| c s IH]; simpl; [reflexivity | rewrite IH; reflexivity]. Qed.

Lemma length_drop_chars (n : nat) (s : string) :
  String.length (drop_chars n s) = String.length s - n.
Proof.
  revert s. induction n as [| n IH]; intros [| c s]; simpl; try reflexivity.
  apply IH.
Qed.

Lemma all_chars_append (P : Ascii.ascii -> bool) (s t : string) :
  all_chars P (s +:+ t) = all_chars P s && all_chars P t.
Proof.
  induction s as [| c s IH]; simpl; [reflexivity |].
  rewrite IH, andb_assoc. reflexivity.
Qed.

Lemma all_chars_take (P : Ascii.ascii -> bool) (n : nat) (s : string) :
  all_chars P s = true -> all_chars P (take_chars n s) = true.
Proof.
  revert s. induction n as [| n IH]; intros [| c s]; simpl; try reflexivity.
  rewrite !andb_true_iff. intros [Hc Hs]. split; [exact Hc | apply IH, Hs].
Qed.

Lemma all_chars_drop (P : Ascii.ascii -> bool) (n : nat) (s : string) :
  all_chars P s = true -> all_chars P (drop_chars n s) = true.
Proof.
  revert s. induction n as [| n IH]; intros [| c s]; simpl; try (intros H; exact H).
  rewrite andb_true_iff. intros [_ Hs]. apply IH, Hs.
Qed.

Lemma all_chars_impl (P Q : Ascii.ascii -> bool) (s : string) :
  (forall c, P c = true -> Q c = true) ->
  all_chars P s = true -> all_chars Q s = true.
Proof.
  intros HPQ. induction s as [| c s IH]; simpl; [reflexivity |].
  rewrite !andb_true_iff. intros [Hc Hs]. split; [apply HPQ, Hc | apply IH, Hs].
Qed.

(** What is left after the characters outside a class are removed is in
    the class. *)
Lemma all_chars_kept (P : Ascii.ascii -> bool) (s : string) :
  all_chars P (remove_chars (fun c => negb (P c)) s) = true.
Proof.
  induction s as [| c s IH]; simpl; [reflexivity |].
  destruct (P c) eqn:E; simpl; [rewrite E, IH; reflexivity | exact IH].
Qed.

Lemma all_chars_upper (P Q : Ascii.ascii -> bool) (s : string) :
  (forall c, P c = true -> Q (upper c) = true) ->
  all_chars P s = true -> all_chars Q (toUpperCase s) = true.
Proof.
  intros HPQ. induction s as [| c s IH]; simpl; [reflexivity |].
  rewrite !andb_true_iff. intros [Hc Hs]. split; [apply HPQ, Hc | apply IH, Hs].
Qed.

(** Trimming, on the code units of a text. *)
Lemma trimStart_clean (t : utf16) : Spec.starts_clean (trimStart t).
Proof.
  induction t as [| u t IH]; simpl; [exact I |].
  destruct (is_white_space u) eqn:E; [exact IH | exact E].
Qed.

Lemma trimStart_of_clean (t : utf16) : Spec.starts_clean t -> trimStart t = t.
Proof. destruct t as [| u t]; simpl; [reflexivity | intros ->; reflexivity]. Qed.

Lemma trimEnd_clean (t : utf16) :
  Spec.starts_clean t -> Spec.starts_clean (trimEnd t).
Proof.
  destruct t as [| u t]; simpl; [trivial |].
  intros Hc. destruct (trimEnd t); simpl; [rewrite Hc |]; exact Hc.
Qed.

Lemma trimEnd_idem (t : utf16) : trimEnd (trimEnd t) = trimEnd t.
Proof.
  induction t as [| u t IH]; simpl; [reflexivity |].
  destruct (trimEnd t) as [| d r] eqn:E.
  - destruct (is_white_space u) eqn:Eu; simpl; [reflexivity | rewrite Eu; reflexivity].
  - simpl. simpl in IH. rewrite IH. reflexivity.
Qed.

Lemma trim_idem (t : utf16) : trim (trim t) = trim t.
Proof.
  unfold trim.
  rewrite (trimStart_of_clean (trimEnd (trimStart t)))
    by apply trimEnd_clean, trimStart_clean.
  apply trimEnd_idem.
Qed.

Lemma length_trimStart (t : utf16) : length (trimStart t) <= length t.
Proof.
  induction t as [| u t IH]; simpl; [lia |].
  destruct (is_white_space u); simpl; lia.
Qed.

Lemma length_trimEnd (t : utf16) : length (trimEnd t) <= length t.
Proof.
  induction t as [| u t IH]; simpl; [lia |].
  destruct (trimEnd t); [destruct (is_white_space u) |]; simpl in *; lia.
Qed.

Lemma length_trim (t : utf16) : length (trim t) <= length t.
Proof.
  unfold trim. etransitivity; [apply length_trimEnd | apply length_trimStart].
Qed.

(** The trimmed text neither begins nor ends with white space. *)
Lemma trimEnd_last (t : utf16) (u : N) :
  last (trimEnd t) = Some u -> is_white_space u = false.
Proof.
  induction t as [| v t IH]; simpl; [discriminate |].
  destruct (trimEnd t) as [| d r] eqn:E.
  - destruct (is_white_space v) eqn:Ev; simpl; [discriminate |].
    intros H. injection H as <-. exact Ev.
  - intros H. apply IH. rewrite <- H. reflexivity.
Qed.

Lemma trim_ends (t : utf16) :
  Spec.starts_clean (trim t)
  /\ forall u, last (trim t) = Some u -> is_white_space u = false.
Proof.
  split.
  - apply trimEnd_clean, trimStart_clean.
  - intros u. apply trimEnd_last.
Qed.

(** Trimming removes white space only: the text is the trimmed text between
    two runs of white space. *)
Lemma trimStart_split (t : utf16) :
  exists w, t = w ++ trimStart t /\ Forall (fun u => is_white_space u = true) w.
Proof.
  induction t as [| u t (w & Hw & Hall)]; simpl.
  - exists []. split; [reflexivity | constructor].
  - destruct (is_white_space u) eqn:E.
    + exists (u :: w). split; [simpl; rewrite <- Hw; reflexivity |].
      constructor; assumption.
    + exists []. split; [reflexivity | constructor].
Qed.

Lemma trimEnd_split (t : utf16) :
  exists w, t = trimEnd t ++ w /\ Forall (fun u => is_white_space u = true) w.
Proof.
  induction t as [| u t (w & Hw & Hall)]; simpl.
  - exists []. split; [reflexivity | constructor].
  - destruct (trimEnd t) as [| d r] eqn:E.
    + destruct (is_white_space u) eqn:Eu.
      * exists (u :: w). split; [simpl in Hw; rewrite <- Hw; reflexivity |].
        constructor; assumption.
      * exists w. split; [simpl in *; rewrite <- Hw; reflexivity | exact Hall].
    + exists w. split; [simpl in *; rewrite <- Hw; reflexivity | exact Hall].
Qed.

Lemma trim_split (t : utf16) :
  exists w1 w2,
    t = w1 ++ trim t ++ w2
    /\ Forall (fun u => is_white_space u = true) w1
    /\ Forall (fun u => is_white_space u = true) w2.
Proof.
  destruct (trimStart_split t) as (w1 & H1 & Hall1).
  destruct (trimEnd_split (trimStart t)) as (w2 & H2 & Hall2).
  exists w1, w2. unfold trim. rewrite <- H2. auto.
Qed.

End Strings.

(** ** The small helpers *)
Section SmallHelpers.
Import Spec.

(** X1. Whatever is asked for, and whatever the case tables of the runtime
    are, the ordering handed to the database names one of the six sortable
    columns and one of the two directions: a known column is kept, a
    direction whose upper case is known is kept in upper case, anything else
    falls back to [created_at] and [DESC]. *)
Theorem sort_options_are_whitelisted
  (upperCase : string -> string) (sortBy sortOrder : string) :
  exists field order,
    Helpers.buildSortOptions upperCase sortBy sortOrder = [(field, order)]
    /\ field ∈ Helpers.validSortFields
    /\ order ∈ ["ASC"; "DESC"]
    /\ (sortBy ∈ Helpers.validSortFields -> field = sortBy)
    /\ (sortBy ∉ Helpers.validSortFields -> field = "created_at")
    /\ (upperCase sortOrder ∈ ["ASC"; "DESC"] -> order = upperCase sortOrder)
    /\ (upperCase sortOrder ∉ ["ASC"; "DESC"] -> order = "DESC").
Proof.
  unfold Helpers.buildSortOptions. do 2 eexists. split; [reflexivity |].
  destruct (bool_decide (sortBy ∈ Helpers.validSortFields)) eqn:Ef;
    destruct (bool_decide (upperCase sortOrder ∈ ["ASC"; "DESC"])) eqn:Eo;
    try apply bool_decide_eq_true in Ef; try apply bool_decide_eq_true in Eo;
    try apply bool_decide_eq_false in Ef; try apply bool_decide_eq_false in Eo;
    (split; [first [exact Ef | apply (bool_decide_unpack _); reflexivity] |]);
    (split; [first [exact Eo | apply (bool_decide_unpack _); reflexivity] |]);
    repeat split; intros; try reflexivity; contradiction.
Qed.

Lemma filter_all {A} (P : A -> Prop) `{forall x, Decision (P x)} (l : list A) :
  Forall P l -> filter P l = l.
Proof.
  induction 1 as [| x l Hx _ IH]; [reflexivity |].
  rewrite filter_cons, decide_True by exact Hx. rewrite IH. reflexivity.
Qed.

(** X2. A sanitized text has no angle bracket and at most 1000 code units,
    and it is made of code units of the input in their order; a text without
    angle brackets that is short enough is just trimmed; what is not a
    string is handed back as it is. *)
Theorem sanitized_text_is_bounded (input : any) :
  match input with
  | AString s =>
      exists t,
        Helpers.sanitizeInput input = AString t
        /\ length t <= 1000
        /\ Forall (fun u => is_angle u = false) t
        /\ sublist t s
        /\ (Forall (fun u => is_angle u = false) s -> length s <= 1000 -> t = trim s)
  | _ => Helpers.sanitizeInput input = input
  end.
Proof.
  destruct input as [| | b | q | s]; try reflexivity.
  eexists. split; [reflexivity |].
  destruct (trim_split s) as (w1 & w2 & Hs & _ & _).
  assert (Hsub : sublist (trim s) s).
  { rewrite Hs at 2. apply sublist_inserts_l, sublist_inserts_r. reflexivity. }
  split; [| split; [| split]].
  - rewrite length_take. lia.
  - apply Forall_take, Forall_forall. intros u Hu.
    apply list_elem_of_filter in Hu. exact (proj1 Hu).
  - etransitivity; [apply sublist_take |].
    etransitivity; [apply sublist_filter |]. exact Hsub.
  - intros Hall Hlen.
    assert (Htrim : Forall (fun u => is_angle u = false) (trim s)).
    { rewrite Forall_forall in Hall |- *. intros u Hu.
      apply Hall, (elem_of_sublist _ _ _ Hu Hsub). }
    rewrite (filter_all (fun u => is_angle u = false) (trim s) Htrim).
    apply take_ge. pose proof (length_trim s). lia.
Qed.

(** The decimal digits of a number that is not negative. *)
Lemma pretty_N_go_digits (x : N) (s : string) :
  all_chars is_digit s = true -> all_chars is_digit (pretty_N_go x s) = true.
Proof.
  revert s. induction (N.lt_wf_0 x) as [x _ IH]; intros s Hs.
  destruct (decide (x = 0%N)) as [-> | Hx]; [rewrite pretty_N_go_0; exact Hs |].
  rewrite pretty_N_go_step by lia. apply IH; [apply N.div_lt; lia |].
  simpl. rewrite Hs, andb_true_r.
  unfold pretty_N_char. repeat case_match; reflexivity.
Qed.

Lemma pretty_N_go_length (x : N) (s : string) :
  String.length s <= String.length (pretty_N_go x s).
Proof.
  revert s. induction (N.lt_wf_0 x) as [x _ IH]; intros s.
  destruct (decide (x = 0%N)) as [-> | Hx]; [rewrite pretty_N_go_0; lia |].
  rewrite pretty_N_go_step by lia.
  etransitivity; [| apply IH, N.div_lt; lia]. simpl. lia.
Qed.

Lemma pretty_digits (z : Z) :
  (0 <= z)%Z ->
  all_chars is_digit (pretty z) = true /\ 1 <= String.length (pretty z).
Proof.
  destruct z as [| x | x]; [intros _; split; [reflexivity | simpl; lia] | | lia].
  intros _. unfold pretty, pretty_Z, pretty, pretty_positive, pretty, pretty_N.
  destruct (decide (N.pos x = 0%N)) as [E | _]; [discriminate E |].
  split; [apply pretty_N_go_digits; reflexivity |].
  rewrite pretty_N_go_step by lia.
  etransitivity; [| apply pretty_N_go_length]. simpl. lia.
Qed.

(** X3. A generated SKU has between 1 and 20 characters, all of them allowed in
    a SKU, when the clock is not negative, the suffix given is made of SKU
    characters and the random text is a base-36 fraction. *)
Theorem generated_sku_is_well_formed
  (now : Z) (random36 name category suffix : string) :
  (0 <= now)%Z ->
  all_chars is_sku_char suffix = true ->
  all_chars is_alnum (drop_chars 2 random36) = true ->
  let sku := Helpers.generateSKU now random36 name category suffix in
  1 <= String.length sku <= 20 /\ all_chars is_sku_char sku = true.
Proof.
  intros Hnow Hsuffix Hrandom sku. subst sku. unfold Helpers.generateSKU.
  destruct (pretty_digits now Hnow) as [Hdigits Hlen].
  set (cleanName := toUpperCase (take_chars 8 (remove_chars (fun c => negb (is_alnum c)) name))).
  set (cleanCategory := if to_boolean category
                        then toUpperCase (take_chars 3 (remove_chars (fun c => negb (is_alnum c)) category))
                        else "").
  set (timestamp := slice_last 4 (pretty now)).
  set (randomSuffix := if to_boolean suffix then suffix
                       else toUpperCase (substring 2 5 random36)).
  assert (Hclean : forall n s,
             all_chars is_sku_char
               (toUpperCase (take_chars n (remove_chars (fun c => negb (is_alnum c)) s)))
             = true).
  { intros n s. apply (all_chars_upper is_alnum); [apply upper_alnum |].
    apply all_chars_take, all_chars_kept. }
  assert (Hname : all_chars is_sku_char cleanName = true) by apply Hclean.
  assert (Hcat : all_chars is_sku_char cleanCategory = true).
  { subst cleanCategory. destruct (to_boolean category); [apply Hclean | reflexivity]. }
  assert (Hts : all_chars is_sku_char timestamp = true).
  { apply (all_chars_impl is_digit); [apply digit_sku_char |].
    apply all_chars_drop, Hdigits. }
  assert (Htl : 1 <= String.length timestamp).
  { subst timestamp. unfold slice_last. rewrite length_drop_chars. lia. }
  assert (Hrs : all_chars is_sku_char randomSuffix = true).
  { subst randomSuffix. destruct (to_boolean suffix); [exact Hsuffix |].
    apply (all_chars_upper is_alnum); [apply upper_alnum |].
    apply all_chars_take, Hrandom. }
  split.
  - rewrite length_take_chars, !length_append. lia.
  - apply all_chars_take. rewrite !all_chars_append, Hcat, Hname, Hts, Hrs. reflexivity.
Qed.

Lemma generated_sku_is_well_formed_witness :
  Helpers.generateSKU 1700000012345 "0.4fzyo82mvyr" "Laptop HP 15" "Electrónicos" ""
  = "ELELAPTOPHP23454FZ"
  /\ 1 <= String.length
            (Helpers.generateSKU 1700000012345 "0.4fzyo82mvyr" "Laptop HP 15" "Electrónicos" "")
       <= 20.
Proof.
  split; [reflexivity |].
  apply (generated_sku_is_well_formed 1700000012345 "0.4fzyo82mvyr" "Laptop HP 15"
           "Electrónicos" ""); [lia | reflexivity | reflexivity].
Defined.

End SmallHelpers.

(** ** The stock operation: further properties *)
Section StockFurther.
Import Spec.

Variable validate : Product.ctx -> option string.
Variable stamp : Product.ctx -> Z.

Lemma set_stock_same (p : Product.t) : Product.set_stock (Product.stock p) p = p.
Proof. destruct p; reflexivity. Qed.

Lemma set_updated_at_same (p : Product.t) :
  Product.set_updated_at (Product.updated_at p) p = p.
Proof. destruct p; reflexivity. Qed.

Lemma with_stock_same (c : Product.ctx) :
  with_stock (Product.stock (Product.this c)) c = c.
Proof. unfold with_stock. rewrite set_stock_same. destruct c; reflexivity. Qed.

Lemma overdrawn_dec (quantity : Z) (operation : string) (stock : Z) :
  overdrawn quantity operation stock \/ ~ overdrawn quantity operation stock.
Proof.
  unfold overdrawn.
  destruct (decide (operation = "subtract")); destruct (decide (stock < quantity)%Z);
    tauto.
Qed.

(** [updateStock] stops at its stock test, or hands the instance with the
    new stock to [save]. *)
Lemma updateStock_stops (quantity : Z) (operation : string) (c : Product.ctx) :
  overdrawn quantity operation (Product.stock (Product.this c)) ->
  Product.updateStock validate stamp quantity operation c
  = (Throw {| Eff.message := insufficient_stock |}, c).
Proof. intros [-> H]. apply insufficient_stock_is_constant, H. Qed.

Lemma updateStock_passes (quantity : Z) (operation : string) (c : Product.ctx) :
  ~ overdrawn quantity operation (Product.stock (Product.this c)) ->
  Product.updateStock validate stamp quantity operation c
  = Product.save validate stamp
      (with_stock (new_stock quantity operation (Product.stock (Product.this c))) c).
Proof.
  unfold overdrawn, new_stock. intros H.
  destruct (String.eqb_spec operation "subtract") as [-> | H1].
  - rewrite updateStock_subtract.
    destruct (Z.ltb_spec (Product.stock (Product.this c)) quantity); [| reflexivity].
    exfalso. apply H. split; [reflexivity | assumption].
  - destruct (String.eqb_spec operation "add") as [-> | H2].
    + apply updateStock_add.
    + rewrite with_stock_same. apply updateStock_other; assumption.
Qed.

Lemma new_stock_valid (quantity : Z) (operation : string) (stock : Z) :
  (0 <= stock)%Z -> (0 <= quantity)%Z ->
  ~ overdrawn quantity operation stock ->
  (0 <= new_stock quantity operation stock)%Z.
Proof.
  unfold overdrawn, new_stock. intros Hs Hq H.
  destruct (String.eqb_spec operation "subtract") as [-> | H1].
  - destruct (decide (stock < quantity)%Z); [exfalso; apply H; auto | lia].
  - destruct (String.eqb operation "add"); lia.
Qed.

(** What [updateStock] leaves behind: the instance has a stock that is not
    negative and differs from the one before in [stock] and [updated_at] at
    most; the table is as before, or the instance has been written under
    its identifier. *)
Lemma updateStock_effect (quantity : Z) (operation : string) (c : Product.ctx) :
  (0 <= Product.stock (Product.this c))%Z ->
  (0 <= quantity)%Z ->
  let r := Product.updateStock validate stamp quantity operation c in
  (0 <= Product.stock (Product.this (snd r)))%Z
  /\ Product.id (Product.this (snd r)) = Product.id (Product.this c)
  /\ (exists z u,
        Product.this (snd r)
        = Product.set_updated_at u (Product.set_stock z (Product.this c)))
  /\ (Product.table (snd r) = Product.table c
      \/ Product.table (snd r)
         = <[Product.id (Product.this c) := Product.this (snd r)]> (Product.table c)).
Proof.
  intros Hs Hq r. subst r.
  destruct (overdrawn_dec quantity operation (Product.stock (Product.this c)))
    as [Hover | Hpass].
  - rewrite (updateStock_stops _ _ _ Hover). simpl.
    split; [exact Hs |]. split; [reflexivity |].
    split; [| left; reflexivity].
    exists (Product.stock (Product.this c)), (Product.updated_at (Product.this c)).
    rewrite set_stock_same, set_updated_at_same. reflexivity.
  - rewrite (updateStock_passes _ _ _ Hpass).
    pose proof (new_stock_valid _ _ _ Hs Hq Hpass) as Hz.
    unfold Product.save.
    destruct (validate _) as [m |]; simpl.
    + split; [exact Hz |]. split; [reflexivity |].
      split; [| left; reflexivity].
      eexists _, (Product.updated_at (Product.this c)).
      symmetry. apply (set_updated_at_same (Product.set_stock _ (Product.this c))).
    + split; [exact Hz |]. split; [reflexivity |].
      split; [| right; reflexivity].
      eexists _, _. reflexivity.
Qed.

(** X6. The helper accepts a request exactly when the quantity is positive
    and, for [subtract], covered by the stock.  For a positive quantity and
    the two operations of the API the helper, [hasStock] and the stock test
    of [updateStock] agree: the helper accepts exactly when [hasStock] holds
    or the operation is [add], and exactly then [updateStock] hands the
    instance with the new stock to [save]; otherwise both throw, the helper
    with the two numbers in its message and [updateStock] without them. *)
Theorem helper_agrees_with_updateStock
  (currentStock quantity : Z) (operation : string) :
  (Helpers.validateStockOperation currentStock operation quantity = Ok true
   <-> (0 < quantity)%Z /\ (operation = "subtract" -> (quantity <= currentStock)%Z))
  /\ (forall c : Product.ctx,
        Product.stock (Product.this c) = currentStock ->
        (0 < quantity)%Z ->
        operation ∈ ["add"; "subtract"] ->
        (Helpers.validateStockOperation currentStock operation quantity = Ok true
         <-> (operation = "subtract" ->
              Product.hasStock quantity (Product.this c) = true))
        /\ (Helpers.validateStockOperation currentStock operation quantity = Ok true ->
            Product.updateStock validate stamp quantity operation c
            = Product.save validate stamp
                (with_stock (new_stock quantity operation currentStock) c))
        /\ (Helpers.validateStockOperation currentStock operation quantity <> Ok true ->
            Product.updateStock validate stamp quantity operation c
            = (Throw {| Eff.message := "Stock insuficiente" |}, c)
            /\ Helpers.validateStockOperation currentStock operation quantity
               = Throw {| Eff.message :=
                            "Stock insuficiente. Stock actual: " +:+ pretty currentStock
                              +:+ ", cantidad solicitada: " +:+ pretty quantity |})).
Proof.
  assert (Hchar : Helpers.validateStockOperation currentStock operation quantity = Ok true
                  <-> (0 < quantity)%Z
                      /\ (operation = "subtract" -> (quantity <= currentStock)%Z)).
  { unfold Helpers.validateStockOperation.
    destruct (String.eqb_spec operation "subtract") as [-> | Hop];
      destruct (Z.ltb_spec currentStock quantity) as [Hlt | Hge];
      destruct (Z.leb_spec quantity 0) as [Hq | Hq]; simpl.
    all: split; [intros E | intros [H1 H2]];
      try discriminate; try reflexivity; try lia;
      try (specialize (H2 eq_refl); lia);
      try (split; [lia | intros ?; first [lia | contradiction]]). }
  split; [exact Hchar |].
  intros c Hc Hq Hop.
  assert (Hover : overdrawn quantity operation (Product.stock (Product.this c))
                  <-> ~ ((0 < quantity)%Z
                         /\ (operation = "subtract" -> (quantity <= currentStock)%Z))).
  { unfold overdrawn. rewrite Hc. split.
    - intros [-> Hlt] [_ H]. specialize (H eq_refl). lia.
    - intros H. destruct (decide (operation = "subtract")) as [-> | Hne].
      + split; [reflexivity |].
        destruct (decide (currentStock < quantity)%Z); [assumption |].
        exfalso. apply H. split; [exact Hq | intros _; lia].
      + exfalso. apply H. split; [exact Hq | intros E; contradiction]. }
  split; [| split].
  - rewrite Hchar. unfold Product.hasStock. rewrite Hc, Z.leb_le. tauto.
  - intros Hok. rewrite <- Hc. apply updateStock_passes.
    rewrite Hover. apply Hchar in Hok. tauto.
  - intros Hno.
    assert (Ho : overdrawn quantity operation (Product.stock (Product.this c))).
    { apply Hover. rewrite <- Hchar. exact Hno. }
    split; [apply updateStock_stops, Ho |].
    destruct Ho as [-> Hlt]. rewrite Hc in Hlt.
    unfold Helpers.validateStockOperation. apply Z.ltb_lt in Hlt. rewrite Hlt.
    reflexivity.
Qed.

(** X8. Whatever the operation, the validators and the time stamp,
    [updateStock] with a quantity that is not negative keeps a stock that is
    not negative and changes no attribute of the instance other than [stock]
    and [updated_at]; rows under other identifiers are not touched.  A
    [subtract] of more than there is throws before anything is changed.
    Otherwise the instance with the new stock goes to [save] (for an
    operation other than [subtract] and [add] that is the instance as it
    was): when the validators refuse it, their message is thrown and the
    table is as before; when they accept it, the instance, with its new
    [updated_at], is returned and is the row written under its identifier. *)
Theorem updateStock_keeps_stock_valid
  (quantity : Z) (operation : string) (c : Product.ctx) :
  (0 <= Product.stock (Product.this c))%Z ->
  (0 <= quantity)%Z ->
  let stock := Product.stock (Product.this c) in
  let c1 := with_stock (new_stock quantity operation stock) c in
  let r := Product.updateStock validate stamp quantity operation c in
  (0 <= Product.stock (Product.this (snd r)))%Z
  /\ (exists z u,
        Product.this (snd r)
        = Product.set_updated_at u (Product.set_stock z (Product.this c)))
  /\ (forall k, k <> Product.id (Product.this c) ->
        Product.table (snd r) !! k = Product.table c !! k)
  /\ (overdrawn quantity operation stock ->
      r = (Throw {| Eff.message := "Stock insuficiente" |}, c))
  /\ (~ overdrawn quantity operation stock ->
      (0 <= new_stock quantity operation stock)%Z
      /\ (operation <> "subtract" -> operation <> "add" -> c1 = c)
      /\ (forall m, validate c1 = Some m ->
            r = (Throw {| Eff.message := m |}, c1)
            /\ Product.table (snd r) = Product.table c)
      /\ (validate c1 = None ->
            r = (Ok (saved stamp c1),
                 {| Product.this := saved stamp c1;
                    Product.table :=
                      <[Product.id (Product.this c) := saved stamp c1]>
                        (Product.table c) |})
            /\ Product.stock (saved stamp c1) = new_stock quantity operation stock
            /\ Product.updated_at (saved stamp c1) = stamp c1)).
Proof.
  intros Hs Hq stock c1 r.
  destruct (updateStock_effect quantity operation c Hs Hq) as (H1 & _ & H3 & H4).
  fold r in H1, H3, H4.
  split; [exact H1 |]. split; [exact H3 |].
  split.
  { intros k Hk. destruct H4 as [-> | ->]; [reflexivity |].
    apply lookup_insert_ne. congruence. }
  split; [intros Hover; apply updateStock_stops, Hover |].
  intros Hpass.
  split; [apply new_stock_valid; assumption |].
  split.
  { intros N1 N2. subst c1 stock. unfold new_stock.
    apply String.eqb_neq in N1, N2. rewrite N1, N2. apply with_stock_same. }
  subst r. rewrite (updateStock_passes _ _ _ Hpass). fold stock. fold c1.
  split.
  - intros m Hm. rewrite (save_refused _ _ _ _ Hm). split; reflexivity.
  - intros Hok. rewrite (save_accepted _ _ _ Hok). repeat split; reflexivity.
Qed.

End StockFurther.

Lemma updateStock_keeps_stock_valid_witness :
  let c := {| Product.this := Spec.widget; Product.table := Spec.table_of Spec.widget |} in
  let refuse (c : Product.ctx) := Some "Validation error: El stock no puede ser negativo" in
  (0 <= Product.stock
          (Product.this (snd (Product.updateStock refuse (fun _ => 0%Z) 3 "add" c))))%Z
  /\ Product.updateStock refuse (fun _ => 0%Z) 3 "add" c
     = (Throw {| Eff.message := "Validation error: El stock no puede ser negativo" |},
        Spec.with_stock 8 c).
Proof.
  intros c refuse.
  destruct (updateStock_keeps_stock_valid refuse (fun _ => 0%Z) 3 "add" c)
    as (H1 & _ & _ & _ & H5); [simpl; lia | lia |].
  split; [exact H1 |].
  assert (Hpass : ~ Spec.overdrawn 3 "add" (Product.stock (Product.this c))).
  { intros [E _]. discriminate E. }
  destruct (H5 Hpass) as (_ & _ & H6 & _).
  exact (proj1 (H6 _ eq_refl)).
Defined.

Lemma helper_agrees_with_updateStock_witness :
  Helpers.validateStockOperation 5 "subtract" 7 <> Ok true
  /\ Product.hasStock 7 Spec.widget = false
  /\ Product.updateStock (fun _ => None) (fun _ => 0%Z) 7 "subtract"
       {| Product.this := Spec.widget; Product.table := Spec.table_of Spec.widget |}
     = (Throw {| Eff.message := "Stock insuficiente" |},
        {| Product.this := Spec.widget; Product.table := Spec.table_of Spec.widget |}).
Proof.
  assert (Hop : "subtract" ∈ ["add"; "subtract"]) by (repeat constructor).
  destruct (helper_agrees_with_updateStock (fun _ => None) (fun _ => 0%Z)
              5 7 "subtract") as [_ H].
  destruct (H {| Product.this := Spec.widget; Product.table := Spec.table_of Spec.widget |}
              eq_refl ltac:(lia) Hop) as (_ & _ & H3).
  assert (Hno : Helpers.validateStockOperation 5 "subtract" 7 <> Ok true)
    by (vm_compute; discriminate).
  split; [exact Hno |]. split; [reflexivity |].
  exact (proj1 (H3 Hno)).
Defined.

(** ** The stock operation: what the middleware lets through *)
Section StockSchema.
Import Spec.

Variable numeric : utf16 -> option Q.

Lemma check_number_accepts (q : Q) (z : Z) :
  Validation.check_number q = inr z
  <-> (q == inject_Z z)%Q /\ (0 < z <= Validation.MAX_SAFE_INTEGER)%Z.
Proof.
  unfold Validation.check_number. split.
  - destruct (Qgtb q (inject_Z Validation.MAX_SAFE_INTEGER)) eqn:E1; [discriminate |].
    destruct (Qltb q (inject_Z (- Validation.MAX_SAFE_INTEGER))) eqn:E2; [discriminate |].
    simpl.
    destruct (Validation.is_integer q) eqn:E3; [| discriminate]. simpl.
    destruct (Qgtb q 0) eqn:E4; [| discriminate]. simpl.
    intros H. injection H as <-.
    apply Qeq_bool_iff in E3. apply Qgtb_lt in E4. apply Qgtb_le in E1.
    split; [exact E3 |].
    rewrite E3 in E4, E1. change 0%Q with (inject_Z 0) in E4.
    rewrite <- Zlt_Qlt in E4. rewrite <- Zle_Qle in E1. lia.
  - intros (Hq & Hlo & Hhi). unfold Qgtb, Qltb.
    assert (H1 : Qle_bool q (inject_Z Validation.MAX_SAFE_INTEGER) = true).
    { apply Qle_bool_iff. rewrite Hq, <- Zle_Qle. exact Hhi. }
    assert (H2 : Qle_bool (inject_Z (- Validation.MAX_SAFE_INTEGER)) q = true).
    { apply Qle_bool_iff. rewrite Hq, <- Zle_Qle.
      unfold Validation.MAX_SAFE_INTEGER in *. lia. }
    assert (H3 : Validation.is_integer q = true).
    { unfold Validation.is_integer. apply Qeq_bool_iff.
      rewrite Hq at 2. rewrite Qfloor_Z. exact Hq. }
    assert (H4 : Qle_bool q 0 = false).
    { destruct (Qle_bool q 0) eqn:E; [| reflexivity].
      apply Qle_bool_iff in E. rewrite Hq in E. change 0%Q with (inject_Z 0) in E.
      rewrite <- Zle_Qle in E. lia. }
    rewrite H1, H2, H3, H4. simpl. f_equal.
    rewrite Hq. apply Qfloor_Z.
Qed.

Lemma check_quantity_accepts (x : json) (z : Z) :
  Validation.check_quantity numeric x = inr z
  <-> exists q, (x = JNumber q \/ exists s, x = JString s /\ numeric s = Some q)
                /\ (q == inject_Z z)%Q
                /\ (0 < z <= Validation.MAX_SAFE_INTEGER)%Z.
Proof.
  split.
  - destruct x as [| | b | q | s | l | l]; simpl; try discriminate.
    + destruct (Validation.check_number q) as [t | z'] eqn:E; [discriminate |].
      intros H. injection H as <-. apply check_number_accepts in E.
      exists q. split; [left; reflexivity | exact E].
    + destruct (numeric s) as [q |] eqn:En; [| discriminate].
      destruct (Validation.check_number q) as [t | z'] eqn:E; [discriminate |].
      intros H. injection H as <-. apply check_number_accepts in E.
      exists q. split; [right; eauto | exact E].
  - intros (q & Hx & Hq). apply check_number_accepts in Hq.
    destruct Hx as [-> | (s & -> & Hs)]; simpl; [| rewrite Hs]; rewrite Hq; reflexivity.
Qed.

Lemma check_operation_accepts (x : json) (o : string) :
  Validation.check_operation x = inr o
  <-> x = JString (units o) /\ o ∈ ["add"; "subtract"].
Proof.
  split.
  - destruct x as [| | b | q | s | l | l]; simpl; try discriminate.
    case_bool_decide as H1.
    + intros H. injection H as <-. subst s. split; [reflexivity | repeat constructor].
    + case_bool_decide as H2; [| discriminate].
      intros H. injection H as <-. subst s. split; [reflexivity | repeat constructor].
  - intros [-> Ho]. apply list_elem_of_In in Ho. simpl in Ho.
    destruct Ho as [<- | [<- | []]]; reflexivity.
Qed.

Lemma check_reason_accepts (x : json) (r : nullable utf16) :
  Validation.check_reason x = inr r
  <-> (x = JUndefined /\ r = Undefined)
      \/ (exists s, x = JString s /\ r = Val (trim s)
                    /\ 1 <= length (trim s) <= 255).
Proof.
  split.
  - destruct x as [| | b | q | s | l | l]; simpl; try discriminate.
    + intros H. injection H as <-. left. split; reflexivity.
    + destruct (Nat.eqb_spec (length (trim s)) 0); [discriminate |].
      destruct (Nat.ltb_spec 255 (length (trim s))); [discriminate |].
      intros E. injection E as <-. right. exists s.
      split; [reflexivity |]. split; [reflexivity | lia].
  - intros [[-> ->] | (s & -> & -> & Hlo & Hhi)]; simpl; [reflexivity |].
    destruct (Nat.eqb_spec (length (trim s)) 0); [lia |].
    destruct (Nat.ltb_spec 255 (length (trim s))); [lia | reflexivity].
Qed.

(** X9. The middleware hands a body on exactly when the quantity is a
    positive safe integer (a number, or a text the library converts to one),
    the operation is [add] or [subtract], the reason is absent or, once
    trimmed, has between 1 and 255 code units, and the body has no other
    property; what it hands on is that integer, that operation and the
    trimmed reason.  Any other body is answered with status 400 and exactly
    one error. *)
Theorem validated_stock_operation (req_body : Validation.body) :
  (forall v : Validation.stockOperation,
     Validation.validateStockOperation numeric req_body = Validation.Next v
     <-> (exists q, quantity_is numeric req_body q
                    /\ (q == inject_Z (Validation.v_quantity v))%Q
                    /\ (0 < Validation.v_quantity v <= Validation.MAX_SAFE_INTEGER)%Z)
         /\ Validation.operation req_body = JString (units (Validation.v_operation v))
         /\ Validation.v_operation v ∈ ["add"; "subtract"]
         /\ ((Validation.reason req_body = JUndefined
              /\ Validation.v_reason v = Undefined)
             \/ (exists s, Validation.reason req_body = JString s
                           /\ Validation.v_reason v = Val (trim s)
                           /\ 1 <= length (trim s) <= 255))
         /\ Validation.unknown req_body = [])
  /\ ((exists v, Validation.validateStockOperation numeric req_body = Validation.Next v)
      \/ (exists d,
            Validation.validateStockOperation numeric req_body
            = Validation.Answer 400 "Errores de validación en operación de stock" [d])).
Proof.
  split.
  - intros v. unfold quantity_is.
    rewrite <- check_quantity_accepts, <- check_reason_accepts.
    unfold Validation.validateStockOperation, Validation.reject. split.
    + destruct (Validation.check_quantity _ _) as [t | z]; [discriminate |].
      destruct (Validation.check_operation _) as [t | o] eqn:Eo; [discriminate |].
      destruct (Validation.check_reason _) as [t | r]; [discriminate |].
      destruct (Validation.unknown req_body) as [| [key w] l]; [| discriminate].
      intros H. injection H as <-. simpl.
      apply check_operation_accepts in Eo as [Eo Hin].
      repeat split; assumption.
    + intros (Hq & Ho & Hin & Hr & Hu). rewrite Hq.
      rewrite (proj2 (check_operation_accepts _ _) (conj Ho Hin)), Hr, Hu.
      destruct v; reflexivity.
  - unfold Validation.validateStockOperation, Validation.reject.
    destruct (Validation.check_quantity _ _) as [t | z]; [right; eauto |].
    destruct (Validation.check_operation _) as [t | o]; [right; eauto |].
    destruct (Validation.check_reason _) as [t | r]; [right; eauto |].
    destruct (Validation.unknown req_body) as [| [key w] l]; [left | right]; eauto.
Qed.

(** What the handler can rely on after the middleware. *)
Lemma validated_body (req_body : Validation.body) (v : Validation.stockOperation) :
  Validation.validateStockOperation numeric req_body = Validation.Next v ->
  (0 < Validation.v_quantity v)%Z /\ Validation.v_operation v ∈ ["add"; "subtract"].
Proof.
  unfold Validation.validateStockOperation, Validation.reject.
  destruct (Validation.check_quantity _ _) as [t | z] eqn:Eq; [discriminate |].
  destruct (Validation.check_operation _) as [t | o] eqn:Eo; [discriminate |].
  destruct (Validation.check_reason _) as [t | r]; [discriminate |].
  destruct (Validation.unknown req_body) as [| [key w] l]; [| discriminate].
  intros H. injection H as <-. simpl.
  apply check_quantity_accepts in Eq as (q & _ & _ & Hz & _).
  apply check_operation_accepts in Eo as [_ Hin]. split; assumption.
Qed.

End StockSchema.

(** ** The routes on one product *)
Section OneProduct.
Import Spec.
Variable now : string.
Variable is_uuid_v4 : string -> bool.
Variable numeric : utf16 -> option Q.
Variable validate : Product.ctx -> option string.
Variable stamp : Product.ctx -> Z.

Lemma findByPk_some (id : string) (table : gmap string Product.t) (p : Product.t) :
  Routes.findByPk id table = Some p <-> table !! id = Some p /\ Product.live p = true.
Proof.
  unfold Routes.findByPk. destruct (table !! id) as [r |]; [| split; [discriminate | intros [H _]; discriminate H]].
  destruct (Product.live r) eqn:E.
  - split; [intros H; injection H as <-; auto | intros [H _]; exact H].
  - split; [discriminate | intros [H Hl]; injection H as <-; congruence].
Qed.

Lemma findByPk_none (id : string) (table : gmap string Product.t) :
  Routes.findByPk id table = None
  <-> table !! id = None \/ exists p, table !! id = Some p /\ Product.live p = false.
Proof.
  unfold Routes.findByPk. destruct (table !! id) as [r |].
  - destruct (Product.live r) eqn:E.
    + split; [discriminate | intros [H | (p & H & Hl)]; [discriminate H | congruence]].
    + split; [intros _; right; eauto | reflexivity].
  - split; [auto | reflexivity].
Qed.

(** The table after the stock handler. *)
Lemma stock_handler_table (id : string) (b : Validation.stockOperation)
  (table : gmap string Product.t) :
  snd (Routes.stock_handler now validate stamp id b table)
  = match Routes.findByPk id table with
    | None => table
    | Some product =>
        Product.table
          (snd (Product.updateStock validate stamp
                  (Validation.v_quantity b) (Validation.v_operation b)
                  {| Product.this := product; Product.table := table |}))
    end.
Proof.
  unfold Routes.stock_handler.
  destruct (Routes.findByPk id table) as [product |]; [| reflexivity].
  destruct (Product.updateStock _ _ _ _ _) as [[this | e] c]; reflexivity.
Qed.

(** X10. Whatever the request, the stock route keeps a table in which every row
    is stored under its identifier and no stock is negative in that state,
    changes no row but the one addressed, and neither adds nor removes rows. *)
Theorem stock_route_keeps_table_valid
  (id : string) (req_body : Validation.body) (table : gmap string Product.t) :
  keyed table ->
  stocks_valid table ->
  let table' :=
    snd (Routes.stock_route now is_uuid_v4 numeric validate stamp id req_body table) in
  keyed table'
  /\ stocks_valid table'
  /\ (forall k, k <> id -> table' !! k = table !! k)
  /\ dom table' = dom table.
Proof.
  intros Hk Hs table'. subst table'. unfold Routes.stock_route, Routes.validateUUID.
  destruct (is_uuid_v4 id); [| simpl; auto].
  destruct (Validation.validateStockOperation numeric req_body)
    as [code m errs | code m err | v] eqn:Ev; [simpl; auto | simpl; auto |].
  rewrite stock_handler_table.
  destruct (Routes.findByPk id table) as [p |] eqn:Ep; [| auto].
  apply findByPk_some in Ep as [Hp _].
  destruct (validated_body _ _ _ Ev) as [Hq _].
  pose proof (updateStock_effect validate stamp (Validation.v_quantity v)
                (Validation.v_operation v)
                {| Product.this := p; Product.table := table |}
                (Hs _ _ Hp) ltac:(lia)) as (H0 & Hid & _ & Htab).
  cbv zeta in H0, Hid, Htab. cbn [Product.this Product.table] in Hid, Htab.
  set (c' := snd (Product.updateStock _ _ _ _ _)) in *.
  destruct Htab as [-> | ->]; [auto |].
  rewrite (Hk _ _ Hp) in *.
  split; [| split; [| split]].
  - intros k r. rewrite lookup_insert. case_decide; [| apply Hk].
    intros E. injection E as <-. congruence.
  - intros k r. rewrite lookup_insert. case_decide; [| apply Hs].
    intros E. injection E as <-. exact H0.
  - intros k Hne. apply lookup_insert_ne. congruence.
  - apply dom_insert_lookup_L. rewrite Hp. eauto.
Qed.

(** X11. A stock request that the middleware lets through, on a stored
    product that is not deleted and that covers a [subtract], is decided by
    the validators of the model.  When they refuse the instance with the new
    stock the route raises their message with status 400 and the table is as
    before.  When they accept it the route answers with the movement
    (previous and current stock, the operation, the quantity, the reason or
    [null]) and the product as saved, and the table holds that product. *)
Theorem stock_update_reports_movement
  (id : string) (table : gmap string Product.t) (p : Product.t)
  (req_body : Validation.body) (v : Validation.stockOperation) :
  is_uuid_v4 id = true ->
  table !! id = Some p ->
  Product.live p = true ->
  Product.id p = id ->
  Validation.validateStockOperation numeric req_body = Validation.Next v ->
  ~ overdrawn (Validation.v_quantity v) (Validation.v_operation v) (Product.stock p) ->
  let current :=
    new_stock (Validation.v_quantity v) (Validation.v_operation v) (Product.stock p) in
  let c1 := with_stock current {| Product.this := p; Product.table := table |} in
  let reply := Routes.stock_route now is_uuid_v4 numeric validate stamp id req_body table in
  (forall m, validate c1 = Some m -> reply = (Raised (createError m 400), table))
  /\ (validate c1 = None ->
      reply
      = (Replied 200
           (createResponse true
              ("Stock " +:+ (if String.eqb (Validation.v_operation v) "add"
                             then "aumentado" else "reducido") +:+ " correctamente")
              (Val {| Routes.product :=
                        Helpers.formatProductResponse
                          (Val (Product.instance (saved stamp c1)));
                      Routes.stock_movement :=
                        {| Routes.previous_stock := Product.stock p;
                           Routes.current_stock := current;
                           Routes.m_operation := Validation.v_operation v;
                           Routes.m_quantity := Validation.v_quantity v;
                           Routes.m_reason :=
                             match Validation.v_reason v with
                             | Val x => if is_empty x then Null else Val x
                             | Undefined | Null => Null
                             end;
                           Routes.timestamp := now |} |})
              Null Null),
         <[id := saved stamp c1]> table)
      /\ Product.stock (saved stamp c1) = current
      /\ Product.updated_at (saved stamp c1) = stamp c1).
Proof.
  intros Hid Hp Hlive Hkey Hv Hpass current c1 reply. subst reply.
  unfold Routes.stock_route, Routes.validateUUID. rewrite Hid, Hv.
  unfold Routes.stock_handler.
  rewrite (proj2 (findByPk_some id table p)) by auto.
  rewrite (updateStock_passes validate stamp _ _
             {| Product.this := p; Product.table := table |} Hpass).
  cbn [Product.this Product.table]. fold current. fold c1.
  split.
  - intros m Hm. rewrite (save_refused _ _ _ _ Hm). reflexivity.
  - intros Hok. rewrite (save_accepted _ _ _ Hok).
    cbn [Product.this Product.table].
    split; [| split; reflexivity].
    subst c1. simpl Product.id. rewrite Hkey. reflexivity.
Qed.

End OneProduct.

Lemma stock_route_keeps_table_valid_witness :
  let table' :=
    snd (Routes.stock_route "2024-01-01T00:00:00.000Z" (fun _ => true) (fun _ => None)
           (fun _ => None) (fun _ => 0%Z) (Product.id Spec.widget)
           {| Validation.quantity := JNumber (9 # 1);
              Validation.operation := JString (units "subtract");
              Validation.reason := JUndefined;
              Validation.unknown := [] |} (Spec.table_of Spec.widget)) in
  Spec.keyed table' /\ Spec.stocks_valid table'.
Proof.
  intros table'.
  destruct (stock_route_keeps_table_valid "2024-01-01T00:00:00.000Z" (fun _ => true)
              (fun _ => None) (fun _ => None) (fun _ => 0%Z)
              (Product.id Spec.widget)
              {| Validation.quantity := JNumber (9 # 1);
                 Validation.operation := JString (units "subtract");
                 Validation.reason := JUndefined;
                 Validation.unknown := [] |} (Spec.table_of Spec.widget))
    as (H1 & H2 & _).
  - intros k r. unfold Spec.table_of. rewrite lookup_singleton.
    case_decide; [intros E; injection E as <-; congruence | discriminate].
  - intros k r. unfold Spec.table_of. rewrite lookup_singleton.
    case_decide; [intros E; injection E as <-; simpl; lia | discriminate].
  - split; assumption.
Defined.

Lemma stock_update_reports_movement_witness :
  let req_body :=
    {| Validation.quantity := JNumber (2 # 1);
       Validation.operation := JString (units "subtract");
       Validation.reason := JString (units " sold ");
       Validation.unknown := [] |} in
  let refuse (c : Product.ctx) :=
    Some "Validation error: El stock no puede ser negativo" in
  Routes.stock_route "2024-01-01T00:00:00.000Z" (fun _ => true) (fun _ => None)
    refuse (fun _ => 0%Z) (Product.id Spec.widget) req_body (Spec.table_of Spec.widget)
  = (Raised (createError "Validation error: El stock no puede ser negativo" 400),
     Spec.table_of Spec.widget)
  /\ snd (Routes.stock_route "2024-01-01T00:00:00.000Z" (fun _ => true) (fun _ => None)
            (fun _ => None) (fun _ => 1700000000000%Z) (Product.id Spec.widget)
            req_body (Spec.table_of Spec.widget))
     = <[Product.id Spec.widget :=
           Product.set_updated_at 1700000000000 (Product.set_stock 3 Spec.widget)]>
         (Spec.table_of Spec.widget).
Proof.
  intros req_body refuse.
  assert (Hv : Validation.validateStockOperation (fun _ => None) req_body
               = Validation.Next {| Validation.v_quantity := 2;
                                    Validation.v_operation := "subtract";
                                    Validation.v_reason := Val (units "sold") |})
    by reflexivity.
  assert (Hpass : ~ Spec.overdrawn 2 "subtract" (Product.stock Spec.widget)).
  { intros [_ H]. simpl in H. lia. }
  split.
  - destruct (stock_update_reports_movement "2024-01-01T00:00:00.000Z" (fun _ => true)
                (fun _ => None) refuse (fun _ => 0%Z)
                (Product.id Spec.widget) (Spec.table_of Spec.widget) Spec.widget
                req_body _ eq_refl eq_refl eq_refl eq_refl Hv Hpass) as [H _].
    exact (H _ eq_refl).
  - destruct (stock_update_reports_movement "2024-01-01T00:00:00.000Z" (fun _ => true)
                (fun _ => None) (fun _ => None) (fun _ => 1700000000000%Z)
                (Product.id Spec.widget) (Spec.table_of Spec.widget) Spec.widget
                req_body _ eq_refl eq_refl eq_refl eq_refl Hv Hpass) as [_ H].
    destruct (H eq_refl) as [-> _]. reflexivity.
Defined.

(** ** Queries, listings and deletions *)
Section Queries.
Import Spec.
Variable ilike : string -> string -> bool.
Variable before : Sql.value -> Sql.value -> bool.

Lemma order_by_perm (order : list (string * string)) (l : list Product.t) :
  Routes.order_by before order l ≡ₚ l.
Proof.
  unfold Routes.order_by.
  destruct order as [| [field direction] [| o order]]; try reflexivity.
  apply sort_by_perm.
Qed.

Lemma selected_spec (where_ : gmap key where_value) (table : gmap string Product.t)
  (r : Product.t) :
  r ∈ Routes.selected ilike where_ table
  <-> (exists id, table !! id = Some r)
      /\ Product.live r = true
      /\ eval_where Product.column ilike where_ r = true.
Proof.
  unfold Routes.selected. rewrite list_elem_of_filter, andb_true_iff.
  rewrite (rows_stored table r). tauto.
Qed.

(** A query returns stored rows that are not deleted and satisfy its
    [where] object. *)
Lemma findAll_sound (o : Routes.options) (table : gmap string Product.t) (r : Product.t) :
  r ∈ Routes.findAll ilike before o table ->
  (exists id, table !! id = Some r)
  /\ Product.live r = true
  /\ eval_where Product.column ilike (Routes.o_where o) r = true.
Proof.
  unfold Routes.findAll. intros H. apply selected_spec.
  rewrite <- (order_by_perm (Routes.o_order o)).
  destruct (Routes.o_limit o) as [| | n]; destruct (Routes.o_offset o) as [| | m];
    try apply subseteq_take in H; try apply subseteq_drop in H; exact H.
Qed.

(** A query without limit and offset returns every selected row once. *)
Lemma findAll_unbounded (o : Routes.options) (table : gmap string Product.t) :
  Routes.o_limit o = Undefined -> Routes.o_offset o = Undefined ->
  Routes.findAll ilike before o table ≡ₚ Routes.selected ilike (Routes.o_where o) table.
Proof.
  intros Hl Ho. unfold Routes.findAll. rewrite Hl, Ho. apply order_by_perm.
Qed.

End Queries.

(** ** The life of a product *)
Section Deletion.
Import Spec.
Variable ilike : string -> string -> bool.
Variable before : Sql.value -> Sql.value -> bool.
Variable now : string.
Variable clock : Z.
Variable validate : Product.ctx -> option string.
Variable stamp : Product.ctx -> Z.

(** X12. A product that is not stored, or stored but deleted, is not found: the
    reads and writes on it answer 404 and leave the table as it is. *)
Theorem missing_product_is_not_found
  (id : string) (table : gmap string Product.t) (b : Validation.stockOperation) :
  (table !! id = None \/ exists p, table !! id = Some p /\ Product.live p = false) ->
  Routes.get_handler id table = Raised (createError "Producto no encontrado" 404)
  /\ Routes.stock_handler now validate stamp id b table
     = (Raised (createError "Producto no encontrado" 404), table)
  /\ Routes.delete_handler clock validate stamp id table
     = (Raised (createError "Producto no encontrado" 404), table).
Proof.
  intros H. apply findByPk_none in H.
  unfold Routes.get_handler, Routes.stock_handler, Routes.delete_handler.
  rewrite H. repeat split; reflexivity.
Qed.

(** X13. Deleting a stored product that is not deleted stamps the instance
    with the time of the deletion and saves it.  When the validators refuse
    it, their error is passed on and the table is as before.  When they
    accept it, the route answers 200 and the row is written with its
    [deleted_at] and its new [updated_at]: the row stays in the table, but
    the product is not found any more by the reads and writes on it, no
    query that leaves out deleted rows returns it, a second deletion
    answers 404, and every other row is as before. *)
Theorem delete_hides_the_product
  (id : string) (table : gmap string Product.t) (p : Product.t) :
  keyed table ->
  table !! id = Some p ->
  Product.live p = true ->
  let c1 := {| Product.this := Product.set_deleted_at (Val clock) p;
               Product.table := table |} in
  let row := saved stamp c1 in
  let table' := <[id := row]> table in
  (forall m, validate c1 = Some m ->
     Routes.delete_handler clock validate stamp id table
     = (Thrown {| Eff.message := m |}, table))
  /\ (validate c1 = None ->
      Routes.delete_handler clock validate stamp id table
      = (Replied 200
           (createResponse true "Producto eliminado correctamente" Null Null Null),
         table')
      /\ table' !! id = Some row
      /\ Product.deleted_at row = Val clock
      /\ Product.updated_at row = stamp c1
      /\ row = Product.set_updated_at (stamp c1) (Product.set_deleted_at (Val clock) p)
      /\ Routes.get_handler id table' = Raised (createError "Producto no encontrado" 404)
      /\ (forall clock' validate' stamp',
            Routes.delete_handler clock' validate' stamp' id table'
            = (Raised (createError "Producto no encontrado" 404), table'))
      /\ (forall validate' stamp' b,
            Routes.stock_handler now validate' stamp' id b table'
            = (Raised (createError "Producto no encontrado" 404), table'))
      /\ (forall o r, r ∈ Routes.findAll ilike before o table' -> Product.id r <> id)
      /\ (forall k, k <> id -> table' !! k = table !! k)
      /\ keyed table').
Proof.
  intros Hk Hp Hlive c1 row table'.
  assert (Hfound : Routes.findByPk id table = Some p)
    by (apply findByPk_some; auto).
  assert (Hdestroy : Product.destroy validate stamp clock
                       {| Product.this := p; Product.table := table |}
                     = Product.save validate stamp c1) by reflexivity.
  split.
  { intros m Hm. unfold Routes.delete_handler. rewrite Hfound, Hdestroy.
    rewrite (save_refused _ _ _ _ Hm). reflexivity. }
  intros Hok.
  assert (Hgone : table' !! id = None
                  \/ exists p', table' !! id = Some p' /\ Product.live p' = false).
  { right. exists row. split; [apply lookup_insert_eq | reflexivity]. }
  assert (Hk' : keyed table').
  { intros k r. subst table'. rewrite lookup_insert. case_decide; [| apply Hk].
    intros E. injection E as <-. subst k. simpl. apply (Hk _ _ Hp). }
  split.
  { unfold Routes.delete_handler. rewrite Hfound, Hdestroy.
    rewrite (save_accepted _ _ _ Hok). cbn [Product.table Product.this].
    subst table' row c1. simpl Product.id. rewrite (Hk _ _ Hp). reflexivity. }
  split; [apply lookup_insert_eq |].
  do 3 (split; [reflexivity |]).
  split; [unfold Routes.get_handler; rewrite (proj2 (findByPk_none id table') Hgone); reflexivity |].
  split.
  { intros clock' validate' stamp'. unfold Routes.delete_handler.
    rewrite (proj2 (findByPk_none id table') Hgone). reflexivity. }
  split.
  { intros validate' stamp' b. unfold Routes.stock_handler.
    rewrite (proj2 (findByPk_none id table') Hgone). reflexivity. }
  split.
  { intros o r Hr Hid. apply findAll_sound in Hr as [[k Hkr] [Hl _]].
    pose proof (Hk' _ _ Hkr) as Hkid. rewrite Hid in Hkid. subst k.
    subst table'. rewrite lookup_insert_eq in Hkr. injection Hkr as <-.
    discriminate Hl. }
  split; [| exact Hk'].
  intros k Hne. apply lookup_insert_ne. congruence.
Qed.

End Deletion.

Lemma missing_product_is_not_found_witness :
  Routes.get_handler "p-404" (Spec.table_of Spec.widget)
  = Raised (createError "Producto no encontrado" 404).
Proof.
  apply (missing_product_is_not_found "t" 0 (fun _ => None) (fun _ => 0%Z)
           "p-404" (Spec.table_of Spec.widget)
           {| Validation.v_quantity := 1; Validation.v_operation := "add";
              Validation.v_reason := Undefined |}).
  left. reflexivity.
Defined.

Lemma delete_hides_the_product_witness :
  Routes.delete_handler 1700000500 (fun _ => None) (fun _ => 1700000501%Z)
    (Product.id Spec.widget) (Spec.table_of Spec.widget)
  = (Replied 200 (createResponse true "Producto eliminado correctamente" Null Null Null),
     <[Product.id Spec.widget :=
         Product.set_updated_at 1700000501
           (Product.set_deleted_at (Val 1700000500%Z) Spec.widget)]>
       (Spec.table_of Spec.widget))
  /\ Routes.get_handler (Product.id Spec.widget)
       (<[Product.id Spec.widget :=
            Product.set_updated_at 1700000501
              (Product.set_deleted_at (Val 1700000500%Z) Spec.widget)]>
          (Spec.table_of Spec.widget))
     = Raised (createError "Producto no encontrado" 404).
Proof.
  destruct (delete_hides_the_product (fun _ _ => true) (fun _ _ => false) "t" 1700000500
              (fun _ => None) (fun _ => 1700000501%Z)
              (Product.id Spec.widget) (Spec.table_of Spec.widget) Spec.widget)
    as [_ H].
  - intros k r. unfold Spec.table_of. rewrite lookup_singleton.
    case_decide; [intros E; injection E as <-; congruence | discriminate].
  - apply lookup_singleton_eq.
  - reflexivity.
  - destruct (H eq_refl) as (H1 & _ & _ & _ & _ & H2 & _).
    split; [exact H1 | exact H2].
Defined.

(** ** The listing *)
Section Listing.
Import Spec.
Variable ilike : string -> string -> bool.
Variable before : Sql.value -> Sql.value -> bool.
Variable upperCase : string -> string.



End Listing.


(** ** Low stock by threshold, and the report route *)
Section Thresholds.
Import Spec.
Variable ilike : string -> string -> bool.
Variable before : Sql.value -> Sql.value -> bool.
Variable now : string.

Lemma stock_where (threshold : Z) (r : Product.t) :
  eval_where Product.column ilike
    {[ Str "stock" := Condition (Op_lte (Lit threshold)) ]} r = true
  <-> (Product.stock r <= threshold)%Z.
Proof.
  unfold eval_where. rewrite bool_decide_eq_true, map_Forall_singleton.
  unfold eval_entry, eval_cond, eval_operand.
  change (Product.column "stock" r) with (VInt (Product.stock r)).
  apply Z.leb_le.
Qed.

Lemma active_where (r : Product.t) :
  eval_where Product.column ilike {[ Str "is_active" := Plain (Val true) ]} r = true
  <-> Product.is_active r = true.
Proof.
  unfold eval_where. rewrite bool_decide_eq_true, map_Forall_singleton.
  unfold eval_entry, eval_plain.
  change (Product.column "is_active" r) with (VBool (Product.is_active r)).
  destruct (Product.is_active r); simpl; split; congruence.
Qed.

(** X15. [findLowStock] returns, each once, the stored rows that are not deleted
    and whose stock is at most the threshold; when the database orders
    integers as usual they come by ascending stock. *)
Theorem findLowStock_selects (threshold : Z) (table : gmap string Product.t) :
  (forall a b, before (VInt a) (VInt b) = Z.ltb a b) ->
  let found := Routes.findLowStock ilike before threshold table in
  found ≡ₚ filter (fun r => Product.live r = true /\ (Product.stock r <= threshold)%Z)
             (Routes.rows table)
  /\ (forall r, r ∈ found <-> (exists id, table !! id = Some r)
                              /\ Product.live r = true
                              /\ (Product.stock r <= threshold)%Z)
  /\ StronglySorted (fun a b => (Product.stock a <= Product.stock b)%Z) found.
Proof.
  intros Hbefore found.
  assert (Hperm : found ≡ₚ filter (fun r => Product.live r = true
                                            /\ (Product.stock r <= threshold)%Z)
                             (Routes.rows table)).
  { subst found. unfold Routes.findLowStock.
    rewrite findAll_unbounded by reflexivity.
    unfold Routes.selected. cbn [Routes.o_where].
    erewrite list_filter_iff; [reflexivity |].
    intros r. simpl. rewrite andb_true_iff, stock_where. reflexivity. }
  split; [exact Hperm |]. split.
  - intros r. rewrite Hperm, list_elem_of_filter, rows_stored. tauto.
  - subst found. unfold Routes.findLowStock, Routes.findAll, Routes.order_by.
    cbn [Routes.o_order Routes.o_limit Routes.o_offset String.eqb Ascii.eqb Bool.eqb].
    apply sort_by_sorted.
    + intros x y z. lia.
    + intros x y.
      change (Product.column "stock" x) with (VInt (Product.stock x)).
      change (Product.column "stock" y) with (VInt (Product.stock y)).
      rewrite Hbefore. intros H. apply Z.ltb_ge in H. exact H.
    + intros x y.
      change (Product.column "stock" x) with (VInt (Product.stock x)).
      change (Product.column "stock" y) with (VInt (Product.stock y)).
      rewrite Hbefore. intros H. apply Z.ltb_lt in H. lia.
Qed.

(** The statistics of a report count the products it lists. *)
Lemma report_counts (products : list Product.t) (type : string) :
  let r := Helpers.generateSimpleReport now products type in
  Stats.total_products (Report.stats r) = Report.total_items r.
Proof.
  intros r.
  assert (H : Report.stats r = Helpers.calculateInventoryStats (Report.data r)
              /\ Report.total_items r = Z.of_nat (length (Report.data r))).
  { subst r. unfold Helpers.generateSimpleReport.
    destruct (String.eqb type "low_stock"); [split; reflexivity |].
    destruct (String.eqb type "out_of_stock"); [split; reflexivity |].
    destruct (String.eqb type "high_value"); split; reflexivity. }
  destruct H as [-> ->]. apply stats_of_collection.
Qed.

(** The data of a report by type. *)
Lemma report_data (products : list Product.t) (type : string) :
  let r := Helpers.generateSimpleReport now products type in
  (type = "low_stock" ->
   Report.data r = filter low_stock products
   /\ Report.title r = "Productos con Stock Bajo")
  /\ (type = "out_of_stock" ->
      Report.data r = filter out_of_stock products
      /\ Report.title r = "Productos Agotados")
  /\ (type <> "low_stock" -> type <> "out_of_stock" -> type <> "high_value" ->
      Report.data r = products /\ Report.title r = "Inventario General").
Proof.
  intros r. subst r. unfold Helpers.generateSimpleReport. split; [| split].
  - intros ->. simpl. split; [| reflexivity].
    apply list_filter_iff. intros p. unfold Helpers.low, low_stock. apply Z.leb_le.
  - intros ->. simpl. split; reflexivity.
  - intros H1 H2 H3.
    destruct (String.eqb_spec type "low_stock"); [contradiction |].
    destruct (String.eqb_spec type "out_of_stock"); [contradiction |].
    destruct (String.eqb_spec type "high_value"); [contradiction |].
    split; reflexivity.
Qed.

(** X16. The views of a report: [low_stock] and [out_of_stock] keep the order of
    the collection and list the products under the threshold and without
    stock; every other type but [high_value] lists the whole collection;
    whatever the type, the statistics count the listed products.  With
    valid thresholds the products out of stock are among those low on stock,
    in the same order. *)
Theorem report_views (products : list Product.t) (type : string) :
  let report := Helpers.generateSimpleReport now products in
  Stats.total_products (Report.stats (report type)) = Report.total_items (report type)
  /\ Report.type (report type) = type
  /\ Report.data (report "low_stock") = filter low_stock products
  /\ Report.data (report "out_of_stock") = filter out_of_stock products
  /\ (type <> "low_stock" -> type <> "out_of_stock" -> type <> "high_value" ->
      Report.data (report type) = products
      /\ Report.title (report type) = "Inventario General")
  /\ (Forall min_stock_valid products ->
      Report.data (report "out_of_stock") `sublist_of` Report.data (report "low_stock")).
Proof.
  intros report. subst report.
  destruct (report_data products "low_stock") as ([Hlow _] & _); [reflexivity |].
  destruct (report_data products "out_of_stock") as (_ & [Hout _] & _); [reflexivity |].
  split; [apply report_counts |].
  split.
  { unfold Helpers.generateSimpleReport.
    destruct (String.eqb type "low_stock"); [reflexivity |].
    destruct (String.eqb type "out_of_stock"); [reflexivity |].
    destruct (String.eqb type "high_value"); reflexivity. }
  split; [exact Hlow |]. split; [exact Hout |].
  split; [apply report_data |].
  intros Hvalid. rewrite Hlow, Hout. clear Hlow Hout.
  induction Hvalid as [| p ps Hp _ IH]; [constructor |].
  rewrite !filter_cons.
  destruct (decide (out_of_stock p)) as [H0 | H0];
    destruct (decide (low_stock p)) as [H1 | H1].
  - constructor. exact IH.
  - exfalso. apply H1. apply Z.leb_le, (out_of_stock_is_low p Hp H0).
  - apply sublist_cons. exact IH.
  - exact IH.
Qed.

(** X17. The report route answers 400 for a type that is not one of the four,
    and otherwise with the report of that type over the rows that are
    stored, not deleted and active. *)
Theorem report_route_types (type : string) (table : gmap string Product.t) :
  (type ∉ Routes.validTypes ->
   Routes.report_handler ilike before now type table
   = Raised (createError "Tipo de reporte inválido" 400))
  /\ (type ∈ Routes.validTypes ->
      exists rows,
        Routes.report_handler ilike before now type table
        = Replied 200
            (createResponse true ("Reporte de " +:+ type +:+ " generado correctamente")
               (Val (Helpers.generateSimpleReport now (Product.instance <$> rows) type))
               Null Null)
        /\ (forall r, r ∈ rows <-> (exists id, table !! id = Some r)
                                   /\ Product.live r = true
                                   /\ Product.is_active r = true)
        /\ rows ≡ₚ filter (fun r => Product.live r = true /\ Product.is_active r = true)
                     (Routes.rows table)).
Proof.
  unfold Routes.report_handler. split.
  - intros H. rewrite bool_decide_eq_false_2 by exact H. reflexivity.
  - intros H. rewrite bool_decide_eq_true_2 by exact H. simpl negb. cbv iota.
    eexists. split; [reflexivity |].
    assert (Hperm : Routes.findAll ilike before Routes.reportOptions table
                    ≡ₚ filter (fun r => Product.live r = true /\ Product.is_active r = true)
                         (Routes.rows table)).
    { rewrite findAll_unbounded by reflexivity.
      unfold Routes.selected. cbn [Routes.o_where Routes.reportOptions].
      erewrite list_filter_iff; [reflexivity |].
      intros r. simpl. rewrite andb_true_iff, active_where. reflexivity. }
    split; [| exact Hperm].
    intros r. rewrite Hperm, list_elem_of_filter, rows_stored. tauto.
Qed.

End Thresholds.

Lemma findLowStock_selects_witness :
  let before := fun x y =>
                  match x, y with
                  | VInt a, VInt b => Z.ltb a b
                  | _, _ => false
                  end in
  Routes.findLowStock (fun _ _ => true) before 10 (Spec.table_of Spec.widget)
  ≡ₚ filter (fun r => Product.live r = true /\ (Product.stock r <= 10)%Z)
       (Routes.rows (Spec.table_of Spec.widget)).
Proof.
  intros before.
  apply (findLowStock_selects (fun _ _ => true) before 10 (Spec.table_of Spec.widget)).
  intros a b. reflexivity.
Defined.


(** ** What the filter of a listing means *)
Section FilterMeaning.
Import Spec Helpers.
Variable ilike : string -> string -> bool.

(** Every binding of the filter is one of five. *)
Lemma buildSearchFilters_bindings (q : Query.t) (k : key) (v : where_value) :
  buildSearchFilters q !! k = Some v <->
  (k = Op_or /\ truthy (Query.low_stock q) = true /\ v = low_stock_group)
  \/ (k = Op_or /\ truthy (Query.low_stock q) = false
      /\ truthy (Query.search q) = true /\ v = search_alternatives q)
  \/ (k = Str "category" /\ truthy (Query.category q) = true
      /\ v = Condition (Op_iLike (contains (Query.category q))))
  \/ (k = Str "brand" /\ truthy (Query.brand q) = true
      /\ v = Condition (Op_iLike (contains (Query.brand q))))
  \/ (k = Str "is_active" /\ is_defined (Query.is_active q) = true
      /\ v = Plain (Query.is_active q)).
Proof.
  unfold buildSearchFilters, search_alternatives, low_stock_group, Op_or.
  destruct (truthy (Query.search q)), (truthy (Query.category q)),
    (truthy (Query.brand q)), (is_defined (Query.is_active q)),
    (truthy (Query.low_stock q)).
  all: repeat rewrite lookup_insert_Some; rewrite lookup_empty.
  all: split;
    [ intros H; repeat (destruct H as [[<- <-] | [? H]]); try discriminate H;
      try (destruct H as [<- <-]); try congruence; tauto
    | intros [(-> & ? & ->) | [(-> & ? & ? & ->) | [(-> & ? & ->)
                | [(-> & ? & ->) | (-> & ? & ->)]]]];
      try discriminate; intuition (try discriminate; auto) ].
Qed.

(** What each binding asks of a row. *)
Lemma iLike_on_text (field pattern : string) (text : string) (r : Product.t) :
  Product.column field r = VStr text ->
  eval_cond Product.column ilike field (Op_iLike pattern) r = ilike pattern text.
Proof. intros H. unfold eval_cond. rewrite H. reflexivity. Qed.

Lemma iLike_on_optional (field pattern : string) (x : nullable string) (r : Product.t) :
  Product.column field r = Product.opt_str x ->
  eval_cond Product.column ilike field (Op_iLike pattern) r = true
  <-> exists s, x = Val s /\ ilike pattern s = true.
Proof.
  intros H. unfold eval_cond. rewrite H.
  destruct x as [| | s]; simpl.
  - split; [discriminate | intros (s & E & _); discriminate E].
  - split; [discriminate | intros (s & E & _); discriminate E].
  - split; [eauto | intros (s' & E & Hs); injection E as <-; exact Hs].
Qed.

Lemma condition_selects (field pattern : string) (x : nullable string) (r : Product.t) :
  Product.column field r = Product.opt_str x ->
  eval_entry Product.column ilike (Str field) (Condition (Op_iLike pattern)) r = true
  <-> exists s, x = Val s /\ ilike pattern s = true.
Proof. exact (iLike_on_optional field pattern x r). Qed.

Lemma search_alternatives_select (q : Query.t) (r : Product.t) :
  eval_entry Product.column ilike Op_or (search_alternatives q) r = true
  <-> ilike (contains (Query.search q)) (Product.name r) = true
      \/ ilike (contains (Query.search q)) (Product.sku r) = true
      \/ (exists s, Product.description r = Val s
                    /\ ilike (contains (Query.search q)) s = true).
Proof.
  unfold eval_entry, Op_or, search_alternatives.
  cbn [String.eqb Ascii.eqb Bool.eqb existsb fst snd].
  rewrite orb_false_r, !orb_true_iff.
  rewrite (iLike_on_text "name" _ (Product.name r)) by reflexivity.
  rewrite (iLike_on_text "sku" _ (Product.sku r)) by reflexivity.
  rewrite (iLike_on_optional "description" _ (Product.description r)) by reflexivity.
  reflexivity.
Qed.

Lemma plain_selects (v : nullable bool) (r : Product.t) :
  eval_entry Product.column ilike (Str "is_active") (Plain v) r = true
  <-> match v with
      | Undefined => False
      | Null => False
      | Val b => Product.is_active r = b
      end.
Proof.
  unfold eval_entry, eval_plain.
  change (Product.column "is_active" r) with (VBool (Product.is_active r)).
  destruct v as [| | b]; [split; [discriminate | tauto] .. |].
  destruct b, (Product.is_active r); simpl; split; congruence.
Qed.

(** X18. The rows a listing filter selects: with [low_stock] set, those whose
    stock is at most their own [min_stock] or at most 10, whatever the search
    text; otherwise, with [search] set, those whose name, sku or description
    matches it; and in both cases only those that pass the tests on
    category, brand and the active flag that are set. *)
Theorem filter_meaning (q : Query.t) (r : Product.t) :
  eval_where Product.column ilike (buildSearchFilters q) r = true
  <-> filter_holds ilike q r.
Proof.
  unfold eval_where. rewrite bool_decide_eq_true, map_Forall_lookup.
  unfold filter_holds. split.
  - intros H. split; [| split; [| split]].
    + destruct (truthy (Query.low_stock q)) eqn:El.
      * apply (low_stock_group_selects ilike), (H Op_or).
        apply buildSearchFilters_bindings. left. auto.
      * destruct (truthy (Query.search q)) eqn:Es; [| exact I].
        apply search_alternatives_select, (H Op_or).
        apply buildSearchFilters_bindings. right; left. auto.
    + intros Ec.
      apply (condition_selects "category" _ (Product.category r) r eq_refl).
      apply (H (Str "category")).
      apply buildSearchFilters_bindings. right; right; left. auto.
    + intros Eb.
      apply (condition_selects "brand" _ (Product.brand r) r eq_refl).
      apply (H (Str "brand")).
      apply buildSearchFilters_bindings. right; right; right; left. auto.
    + destruct (Query.is_active q) as [| | b] eqn:Ea; [exact I | |].
      * apply (plain_selects Null r), (H (Str "is_active")).
        apply buildSearchFilters_bindings. right; right; right; right.
        rewrite Ea. auto.
      * apply (plain_selects (Val b) r), (H (Str "is_active")).
        apply buildSearchFilters_bindings. right; right; right; right.
        rewrite Ea. auto.
  - intros (Hor & Hc & Hb & Ha) k v Hkv.
    apply buildSearchFilters_bindings in Hkv.
    destruct Hkv as [(-> & El & ->) | [(-> & El & Es & ->) | [(-> & Ec & ->)
                    | [(-> & Eb & ->) | (-> & Ea & ->)]]]].
    + rewrite El in Hor. apply low_stock_group_selects, Hor.
    + rewrite El, Es in Hor. apply search_alternatives_select, Hor.
    + apply (condition_selects "category" _ (Product.category r) r eq_refl), Hc, Ec.
    + apply (condition_selects "brand" _ (Product.brand r) r eq_refl), Hb, Eb.
    + apply plain_selects. destruct (Query.is_active q); [discriminate Ea | contradiction | exact Ha].
Qed.

End FilterMeaning.

(** ** The aggregate calculator: bounds and order *)
Section AggregateFacts.
Import Spec.

Lemma length_remove_dups_le (l : list string) : length (remove_dups l) <= length l.
Proof.
  induction l as [| x l IH]; simpl; [lia |].
  destruct (decide_rel elem_of x l); simpl; lia.
Qed.

Lemma length_named (attribute : Product.t -> nullable string) (products : list Product.t) :
  length (named attribute products) <= length products.
Proof.
  unfold named. induction products as [| p ps IH]; [simpl; lia |].
  cbn [omap list_omap]. destruct (attribute p) as [| | x].
  - simpl. lia.
  - simpl. lia.
  - destruct (decide (x = "")); simpl; lia.
Qed.

Lemma sum_values_nonneg (products : list Product.t) :
  Forall (fun p => (0 <= Product.price p)%Q /\ (0 <= Product.stock p)%Z) products ->
  (0 <= sum_values products)%Q.
Proof.
  induction 1 as [| p ps [Hp Hs] _ IH]; simpl; [apply Qle_refl |].
  fold (sum_values ps). unfold Helpers.value_of.
  assert (H : (0 <= Product.price p * inject_Z (Product.stock p))%Q).
  { apply Qmult_le_0_compat; [exact Hp |].
    change 0%Q with (inject_Z 0). rewrite <- Zle_Qle. exact Hs. }
  lra.
Qed.

(** X19. The counters of the statistics lie between 0 and the number of
    products, and so do the numbers of categories and brands; the total value
    is not negative when no price and no stock is. *)
Theorem stats_are_bounded (products : list Product.t) :
  let s := Helpers.calculateInventoryStats products in
  (0 <= Stats.out_of_stock_count s <= Stats.total_products s)%Z
  /\ (0 <= Stats.low_stock_count s <= Stats.total_products s)%Z
  /\ (0 <= Stats.categories s <= Stats.total_products s)%Z
  /\ (0 <= Stats.brands s <= Stats.total_products s)%Z
  /\ (Forall (fun p => (0 <= Product.price p)%Q /\ (0 <= Product.stock p)%Z) products ->
      (0 <= Stats.total_value s)%Q).
Proof.
  intros s.
  destruct (stats_of_collection products) as (Hn & Hv & Hl & Ho & Hc & Hb).
  fold s in Hn, Hv, Hl, Ho, Hc, Hb.
  rewrite Hn, Hl, Ho, Hc, Hb. unfold count, distinct.
  pose proof (length_filter low_stock products).
  pose proof (length_filter out_of_stock products).
  pose proof (length_remove_dups_le (named Product.category products)).
  pose proof (length_remove_dups_le (named Product.brand products)).
  pose proof (length_named Product.category products).
  pose proof (length_named Product.brand products).
  repeat (split; [lia |]).
  intros Hvalid. rewrite Hv. unfold round2.
  pose proof (sum_values_nonneg products Hvalid) as Hsum.
  assert (Hk : (0 <= Qfloor (sum_values products * 100 + (1 # 2)))%Z).
  { change 0%Z with (Qfloor 0). apply Qfloor_resp_le. lra. }
  apply Qle_shift_div_l; [reflexivity |].
  rewrite Qmult_0_l. change 0%Q with (inject_Z 0). rewrite <- Zle_Qle. exact Hk.
Qed.

Lemma sum_values_perm (l l' : list Product.t) :
  l ≡ₚ l' -> (sum_values l == sum_values l')%Q.
Proof.
  induction 1 as [| x l l' _ IH | x y l | l l' l'' _ IH1 _ IH2]; simpl.
  - reflexivity.
  - fold (sum_values l) (sum_values l'). rewrite IH. reflexivity.
  - fold (sum_values l). ring.
  - rewrite IH1. exact IH2.
Qed.

(** X20. The statistics do not depend on the order of the products. *)
Theorem stats_ignore_order (products products' : list Product.t) :
  products ≡ₚ products' ->
  Helpers.calculateInventoryStats products = Helpers.calculateInventoryStats products'.
Proof.
  intros Hperm. unfold Helpers.calculateInventoryStats.
  rewrite <- (Permutation_length Hperm).
  destruct (Nat.eqb (length products) 0); [reflexivity |].
  cbv zeta.
  rewrite !fold_visit_total_products, !fold_visit_low_stock, !fold_visit_out_of_stock,
    !fold_visit_categories, !fold_visit_brands.
  cbn [Stats.total_products Stats.low_stock_count Stats.out_of_stock_count
         Stats.categories Stats.brands].
  f_equal.
  - unfold Math_round. f_equal. f_equal. apply Qfloor_comp.
    rewrite !fold_visit_total_value. cbn [Stats.total_value].
    rewrite (sum_values_perm _ _ Hperm). reflexivity.
  - unfold count. rewrite Hperm. reflexivity.
  - unfold count. rewrite Hperm. reflexivity.
  - unfold named. rewrite Hperm. reflexivity.
  - unfold named. rewrite Hperm. reflexivity.
Qed.

Lemma stats_ignore_order_witness :
  Helpers.calculateInventoryStats [widget; Product.set_stock 0 widget]
  = Helpers.calculateInventoryStats [Product.set_stock 0 widget; widget].
Proof.
  apply stats_ignore_order. apply Permutation_swap.
Defined.

End AggregateFacts.

(** ** The search and surrounding white space *)
Section SearchTrim.
Variable ilike : string -> string -> bool.
Variable before : Sql.value -> Sql.value -> bool.

(** X21. White space around the search text makes no difference to the reply. *)
Theorem search_ignores_surrounding_space (text : utf16) (table : gmap string Product.t) :
  Routes.search_handler ilike before (Val text) table
  = Routes.search_handler ilike before (Val (trim text)) table.
Proof.
  unfold Routes.search_handler. rewrite trim_idem.
  destruct (Nat.ltb (length (trim text)) 2) eqn:E.
  - rewrite !orb_true_r. reflexivity.
  - apply Nat.ltb_ge in E.
    assert (H1 : is_empty (trim text) = false).
    { destruct (trim text); [simpl in E; lia | reflexivity]. }
    assert (H2 : is_empty text = false).
    { destruct text; [simpl in E; lia | reflexivity]. }
    rewrite H1, H2. reflexivity.
Qed.

End SearchTrim.

(** ** The error handler *)
Section Errors.
Variable handleSequelizeError : ErrorHandler.error -> ErrorHandler.sequelizeError.
Variable trace : string.

Lemma startsWith4_three_digits (n : nat) :
  n < 900 ->
  startsWith4 (100 + Z.of_nat n) = (Nat.leb 300 n && Nat.ltb n 400).
Proof.
  intros H.
  assert (Hall : forallb (fun n => Bool.eqb (startsWith4 (100 + Z.of_nat n))
                                     (Nat.leb 300 n && Nat.ltb n 400))
                   (seq 0 900) = true) by (vm_compute; reflexivity).
  rewrite forallb_forall in Hall.
  apply Bool.eqb_prop, Hall, in_seq. lia.
Qed.

(** X22. An error made with [createError] keeps its message and code and is
    operational; for a three-digit code its status is [fail] exactly for the
    codes 400 to 499 and [error] otherwise. *)
Theorem created_error_status (message : string) (statusCode : Z) :
  (100 <= statusCode <= 999)%Z ->
  let e := createError message statusCode in
  Http.err_message e = message
  /\ Http.statusCode e = statusCode
  /\ Http.isOperational e = true
  /\ ((400 <= statusCode <= 499)%Z -> Http.status e = "fail")
  /\ (~ (400 <= statusCode <= 499)%Z -> Http.status e = "error").
Proof.
  intros Hc e. subst e. unfold createError. simpl.
  do 3 (split; [reflexivity |]).
  set (n := Z.to_nat (statusCode - 100)).
  assert (Hn : startsWith4 statusCode = (Nat.leb 300 n && Nat.ltb n 400)).
  { rewrite <- (startsWith4_three_digits n) by (subst n; lia).
    f_equal. subst n. lia. }
  rewrite Hn.
  destruct (Nat.leb_spec 300 n) as [Hlo | Hlo];
    destruct (Nat.ltb_spec n 400) as [Hhi | Hhi]; simpl;
    split; intros Hrange; try reflexivity; subst n; lia.
Qed.

(** X23. In production an error created by the routes, or for a route that does
    not exist, is answered with its own code and message and nothing else;
    in development its status and the stack are added. *)
Theorem created_errors_are_answered (message : string) (statusCode : Z) (url : string) :
  statusCode <> 0%Z ->
  ErrorHandler.errorHandler handleSequelizeError trace false
    (ErrorHandler.AppError trace message statusCode)
  = (statusCode, ErrorHandler.Operational message Undefined Undefined)
  /\ ErrorHandler.errorHandler handleSequelizeError trace true
       (ErrorHandler.AppError trace message statusCode)
     = (statusCode,
        ErrorHandler.Development
          (Val (if startsWith4 statusCode then "fail" else "error"))
          message trace Null Null)
  /\ ErrorHandler.errorHandler handleSequelizeError trace false
       (ErrorHandler.notFound trace url)
     = (404%Z, ErrorHandler.Operational ("Ruta " +:+ url +:+ " no encontrada")
                 Undefined Undefined).
Proof.
  intros Hc.
  assert (H : or_else (Val statusCode) 500%Z = statusCode).
  { unfold or_else, to_boolean, Z_ToBoolean.
    destruct (Z.eqb_spec statusCode 0); [contradiction | reflexivity]. }
  unfold ErrorHandler.errorHandler, ErrorHandler.with_defaults,
    ErrorHandler.sendErrorProd, ErrorHandler.sendErrorDev, ErrorHandler.code.
  cbn [ErrorHandler.AppError ErrorHandler.notFound ErrorHandler.name
         ErrorHandler.statusCode ErrorHandler.status ErrorHandler.message
         ErrorHandler.isOperational ErrorHandler.errors ErrorHandler.field
         ErrorHandler.stack ErrorHandler.details
         String.eqb Ascii.eqb Bool.eqb orb andb].
  rewrite H. repeat split; try reflexivity.
  destruct (startsWith4 statusCode); reflexivity.
Qed.

End Errors.

Lemma created_error_status_witness :
  Http.status (createError "Producto no encontrado" 404) = "fail".
Proof.
  apply (created_error_status "Producto no encontrado" 404); lia.
Defined.

Lemma created_errors_are_answered_witness :
  ErrorHandler.errorHandler
    (fun _ => {| ErrorHandler.s_statusCode := 500;
                 ErrorHandler.s_message := "Error interno en la base de datos";
                 ErrorHandler.s_errors := Undefined;
                 ErrorHandler.s_field := Undefined |})
    "at handler" false
    (ErrorHandler.AppError "at handler" "Producto no encontrado" 404)
  = (404%Z, ErrorHandler.Operational "Producto no encontrado" Undefined Undefined).
Proof.
  refine (proj1 (created_errors_are_answered _ "at handler" "Producto no encontrado"
                   404 "/x" _)).
  discriminate.
Defined.

(** ** The error handler in production *)
Section Production.
Variable handleSequelizeError : ErrorHandler.error -> ErrorHandler.sequelizeError.
Variable trace : string.

Lemma not_named (x y : string) : x <> y -> String.eqb x y = false.
Proof. intros H. destruct (String.eqb_spec x y); [contradiction | reflexivity]. Qed.

(** X24. In production an error that is not operational and not of a kind the
    handler translates is answered 500 with the generic message: neither its
    message nor its stack is sent.  The errors of the database and of the
    parser are translated by their name, whatever they carry: connection 503,
    timeout 408, malformed JSON and cast 400. *)
Theorem production_answers_by_kind (err : ErrorHandler.error) :
  (truthy (ErrorHandler.isOperational err) = false ->
   ErrorHandler.name err ∉ ["SequelizeValidationError"; "SequelizeUniqueConstraintError";
                            "SequelizeForeignKeyConstraintError";
                            "SequelizeConnectionError"; "SequelizeTimeoutError";
                            "CastError"] ->
   (ErrorHandler.name err = "SyntaxError" ->
    includes "JSON" (ErrorHandler.message err) = false) ->
   ErrorHandler.errorHandler handleSequelizeError trace false err
   = (500%Z, ErrorHandler.Generic "Algo salió mal en el servidor"))
  /\ (ErrorHandler.name err = "SequelizeConnectionError" ->
      ErrorHandler.errorHandler handleSequelizeError trace false err
      = (503%Z, ErrorHandler.Operational "Error de conexión a la base de datos"
                  Undefined Undefined))
  /\ (ErrorHandler.name err = "SequelizeTimeoutError" ->
      ErrorHandler.errorHandler handleSequelizeError trace false err
      = (408%Z, ErrorHandler.Operational "Tiempo de espera agotado en la base de datos"
                  Undefined Undefined))
  /\ (ErrorHandler.name err = "SyntaxError" ->
      includes "JSON" (ErrorHandler.message err) = true ->
      ErrorHandler.errorHandler handleSequelizeError trace false err
      = (400%Z, ErrorHandler.Operational "Formato JSON inválido" Undefined Undefined))
  /\ (ErrorHandler.name err = "CastError" ->
      ErrorHandler.errorHandler handleSequelizeError trace false err
      = (400%Z, ErrorHandler.Operational "Formato de dato inválido" Undefined Undefined)).
Proof.
  destruct err as [nm msg sc st op errs fld stk det].
  unfold ErrorHandler.errorHandler, ErrorHandler.sendErrorProd, ErrorHandler.code,
    ErrorHandler.with_defaults.
  cbn [ErrorHandler.name ErrorHandler.message ErrorHandler.isOperational].
  split; [| split; [| split; [| split]]].
  - intros Hop Hname Hjson.
    assert (Hne : forall x, x ∈ ["SequelizeValidationError"; "SequelizeUniqueConstraintError";
                                 "SequelizeForeignKeyConstraintError";
                                 "SequelizeConnectionError"; "SequelizeTimeoutError";
                                 "CastError"] ->
                            String.eqb nm x = false).
    { intros x Hx. apply not_named. intros E. rewrite E in Hname. contradiction. }
    assert (Hsyntax : String.eqb nm "SyntaxError" && includes "JSON" msg = false).
    { destruct (String.eqb_spec nm "SyntaxError") as [E | E];
        [rewrite (Hjson E) |]; reflexivity. }
    cbv zeta.
    rewrite (Hne "SequelizeValidationError"), (Hne "SequelizeUniqueConstraintError"),
      (Hne "SequelizeForeignKeyConstraintError") by (repeat constructor).
    cbn [orb ErrorHandler.name ErrorHandler.message].
    rewrite (Hne "SequelizeConnectionError") by (repeat constructor).
    cbn [ErrorHandler.name ErrorHandler.message].
    rewrite (Hne "SequelizeTimeoutError") by (repeat constructor).
    cbn [ErrorHandler.name ErrorHandler.message].
    rewrite Hsyntax.
    cbn [ErrorHandler.name ErrorHandler.message].
    rewrite (Hne "CastError") by (repeat constructor).
    cbn [ErrorHandler.isOperational]. rewrite Hop. reflexivity.
  - intros ->. reflexivity.
  - intros ->. reflexivity.
  - intros -> Hj. cbv zeta. cbn [String.eqb Ascii.eqb Bool.eqb orb andb
                                  ErrorHandler.name ErrorHandler.message].
    rewrite Hj. reflexivity.
  - intros ->. cbv zeta. cbn [String.eqb Ascii.eqb Bool.eqb orb andb
                                ErrorHandler.name ErrorHandler.message].
    destruct (includes "JSON" msg); reflexivity.
Qed.

End Production.
